(** * XlsxWriter worksheet engine: a shallow embedding of [worksheet.py]

    The development follows [src/xlsxwriter/worksheet.py] as Python 3
    runs it.  Python integers are [Z], strings are [string] (one
    character per code point; code points above 255 are outside the
    model), dictionaries are [gmap], lists are [list].  Python floats
    that hold cell numbers and date serials are exact rationals [Q];
    float rounding is outside the model, so statements about serials are
    made where the double-precision arithmetic is exact.  A call that
    raises a Python exception is the outcome [Raise]. *)

From Stdlib Require Import ZArith QArith Lia Ascii String List Bool DecimalString.
From stdpp Require Import base option list gmap strings sorting.

Local Open Scope Z_scope.
Local Open Scope string_scope.

(** ** Python string primitives used by the worksheet code *)

Module Py.

Definition ascii_eqb (a b : ascii) : bool := Ascii.eqb a b.

(** The double quote character, code 34, and the one-character string. *)
Definition dquote : ascii := ascii_of_nat 34.

Definition dquote_str : string := String dquote EmptyString.

Definition is_quote (c : ascii) : bool := ascii_eqb c dquote.

(** White space of a Python 3 string, below code point 256: the class
    [\s] of the [re] module and the characters [str.isspace] accepts.
    These are the codes 9 to 13, 28 to 31, 32, 133 and 160. *)
Definition is_space (c : ascii) : bool :=
  let n := nat_of_ascii c in
  (Nat.eqb n 32 || (Nat.leb 9 n && Nat.leb n 13)
   || (Nat.leb 28 n && Nat.leb n 31) || Nat.eqb n 133 || Nat.eqb n 160)%bool.

Definition is_digit (c : ascii) : bool :=
  let n := nat_of_ascii c in (Nat.leb 48 n && Nat.leb n 57)%bool.

Definition is_upper (c : ascii) : bool :=
  let n := nat_of_ascii c in (Nat.leb 65 n && Nat.leb n 90)%bool.

Definition is_lower (c : ascii) : bool :=
  let n := nat_of_ascii c in (Nat.leb 97 n && Nat.leb n 122)%bool.

Definition is_hex (c : ascii) : bool :=
  let n := nat_of_ascii c in
  (is_digit c || (Nat.leb 65 n && Nat.leb n 70)
   || (Nat.leb 97 n && Nat.leb n 102))%bool.

(** [\w] of the [re] module on a Python 3 string, below code point 256:
    the underscore and the alphanumeric characters, which beside the
    ASCII letters and digits are the codes 170, 178, 179, 181, 185, 186,
    188 to 190, 192 to 214, 216 to 246 and 248 to 255. *)
Definition is_word (c : ascii) : bool :=
  let n := nat_of_ascii c in
  (is_digit c || is_upper c || is_lower c || ascii_eqb c "_"%char
   || Nat.eqb n 170 || Nat.eqb n 178 || Nat.eqb n 179 || Nat.eqb n 181
   || Nat.eqb n 185 || Nat.eqb n 186 || (Nat.leb 188 n && Nat.leb n 190)
   || (Nat.leb 192 n && Nat.leb n 214) || (Nat.leb 216 n && Nat.leb n 246)
   || (Nat.leb 248 n && Nat.leb n 255))%bool.

(** The characters below code point 256 that [str.lower] changes: A to Z
    and the codes 192 to 222 without 215; each moves up by 32. *)
Definition has_lower (c : ascii) : bool :=
  let n := nat_of_ascii c in
  (is_upper c
   || (Nat.leb 192 n && Nat.leb n 222 && negb (Nat.eqb n 215)))%bool.

Definition lower_char (c : ascii) : ascii :=
  if has_lower c then ascii_of_nat (nat_of_ascii c + 32) else c.

(** [s.lower()] *)
Fixpoint lower (s : string) : string :=
  match s with
  | EmptyString => EmptyString
  | String c t => String (lower_char c) (lower t)
  end.

(** [len(s)] *)
Definition len (s : string) : Z := Z.of_nat (String.length s).

(** [s.startswith(p)] *)
Fixpoint startswith (p s : string) : bool :=
  match p, s with
  | EmptyString, _ => true
  | String a p', String b s' => (ascii_eqb a b && startswith p' s')%bool
  | String _ _, EmptyString => false
  end.

Fixpoint rev_string_acc (s acc : string) : string :=
  match s with
  | EmptyString => acc
  | String c t => rev_string_acc t (String c acc)
  end.

Definition rev_string (s : string) : string := rev_string_acc s EmptyString.

(** [s.endswith(p)] *)
Definition endswith (p s : string) : bool :=
  startswith (rev_string p) (rev_string s).

(** [s[n:]] for [n >= 0] *)
Fixpoint drop_str (n : nat) (s : string) : string :=
  match n, s with
  | O, _ => s
  | S k, String _ t => drop_str k t
  | S _, EmptyString => EmptyString
  end.

(** [s[:n]] for [n >= 0] *)
Fixpoint take_str (n : nat) (s : string) : string :=
  match n, s with
  | O, _ => EmptyString
  | S k, String c t => String c (take_str k t)
  | S _, EmptyString => EmptyString
  end.

(** [s[:-1]] *)
Definition drop_last (s : string) : string :=
  take_str (String.length s - 1) s.

(** [s[-1]], [None] on the empty string (IndexError). *)
Fixpoint last_char (s : string) : option ascii :=
  match s with
  | EmptyString => None
  | String c EmptyString => Some c
  | String _ t => last_char t
  end.

(** [s[0]], [None] on the empty string (IndexError). *)
Definition first_char (s : string) : option ascii :=
  match s with
  | EmptyString => None
  | String c _ => Some c
  end.

(** [s.replace(old, new)] for a non-empty [old]: the occurrences are taken
    from the left and do not overlap.  [skip] counts the characters of a
    match that are still to be passed over. *)
Fixpoint replace_go (old new : string) (skip : nat) (s : string) : string :=
  match s with
  | EmptyString => EmptyString
  | String c t =>
      match skip with
      | S k => replace_go old new k t
      | O =>
          if startswith old s
          then new ++ replace_go old new (String.length old - 1) t
          else String c (replace_go old new O t)
      end
  end.

Definition replace (old new s : string) : string := replace_go old new O s.

(** [s.lstrip(ch)] for a one-character set. *)
Fixpoint lstrip_char (ch : ascii) (s : string) : string :=
  match s with
  | String c t => if ascii_eqb c ch then lstrip_char ch t else s
  | EmptyString => EmptyString
  end.

(** The white space [int] skips before and after the digits: the codes
    9 to 13 and 32, and also 133 and 160, which the conversion of a
    string that is not ASCII turns into spaces first.  The codes 28 to 31
    are not skipped. *)
Definition is_int_space (c : ascii) : bool :=
  let n := nat_of_ascii c in
  (Nat.eqb n 32 || (Nat.leb 9 n && Nat.leb n 13)
   || Nat.eqb n 133 || Nat.eqb n 160)%bool.

Fixpoint lstrip_int_space (s : string) : string :=
  match s with
  | String c t => if is_int_space c then lstrip_int_space t else s
  | EmptyString => EmptyString
  end.

Definition strip_int_space (s : string) : string :=
  rev_string (lstrip_int_space (rev_string (lstrip_int_space s))).

(** [re.search(r'\s$', s)]: the pattern [$] also matches before a final
    newline, which is itself white space, so the test is on the last
    character. *)
Definition ends_with_space (s : string) : bool :=
  match last_char s with Some c => is_space c | None => false end.

(** [re.search(r'^\s', s)] *)
Definition starts_with_space (s : string) : bool :=
  match s with String c _ => is_space c | EmptyString => false end.

(** [c in s] for a character *)
Fixpoint contains_char (P : ascii -> bool) (s : string) : bool :=
  match s with
  | EmptyString => false
  | String c t => (P c || contains_char P t)%bool
  end.

(** The digits of an integer literal: decimal digits with single
    underscores between them.  [after_digit] tells that the character
    before was a digit; the text has to start and end with a digit. *)
Fixpoint digits_value (s : string) (after_digit : bool) (acc : Z) : option Z :=
  match s with
  | EmptyString => if after_digit then Some acc else None
  | String c t =>
      if is_digit c
      then digits_value t true (10 * acc + Z.of_nat (nat_of_ascii c - 48))
      else if (ascii_eqb c "_"%char && after_digit)%bool
      then digits_value t false acc
      else None
  end.

(** The number of decimal digits in a text. *)
Fixpoint count_digits (s : string) : Z :=
  match s with
  | EmptyString => 0
  | String c t => (if is_digit c then 1 else 0) + count_digits t
  end.

(** [int(s)] on a string: surrounding white space, an optional sign and
    the digits; [None] stands for ValueError, which is also raised for
    more than 4300 digits, the limit the interpreter sets by default. *)
Definition int_of_string (s : string) : option Z :=
  match strip_int_space s with
  | EmptyString => None
  | String c t =>
      if (4300 <? count_digits (String c t))%Z then None
      else if ascii_eqb c "-"%char then z ← digits_value t false 0; Some (- z)
      else if ascii_eqb c "+"%char then digits_value t false 0
      else digits_value (String c t) false 0
  end.

(** [str(n)] and ["%d" % n] on an integer *)
Definition str_of_Z (n : Z) : string := NilZero.string_of_int (Z.to_int n).

End Py.

(** ** Autofilter criteria: tokenizer and parser *)

(** A value of the token lists the parser returns: an operator code, a
    string token, or Python's [None]. *)
Inductive pval : Type :=
  | PInt (n : Z)
  | PStr (s : string)
  | PNone.

Module Filter.

(** The first alternative of the token pattern: a quote, any number of
    characters that are not a quote or are a doubled quote, and a closing
    quote.  It is tried on the text after the opening quote.  [acc] is the match so far,
    reversed.  The loop is greedy; [fallback] is the shorter match the
    regex engine backtracks to, which ends at the first quote of the
    latest doubled quote.  The result is the match and the text left. *)
Fixpoint quoted_scan (s : string) (acc : string)
    (fallback : option (string * string)) : option (string * string) :=
  match s with
  | EmptyString => fallback
  | String c t =>
      if Py.is_quote c then
        match t with
        | String c' t' =>
            if Py.is_quote c'
            then quoted_scan t' (String c' (String c acc))
                   (Some (Py.rev_string (String c acc), t))
            else Some (Py.rev_string (String c acc), t)
        | EmptyString => Some (Py.rev_string (String c acc), t)
        end
      else quoted_scan t (String c acc) fallback
  end.

(** The second alternative, [\S+]: the longest run without white space. *)
Fixpoint nonspace_scan (s : string) (acc : string) : string * string :=
  match s with
  | EmptyString => (Py.rev_string acc, EmptyString)
  | String c t =>
      if Py.is_space c then (Py.rev_string acc, s)
      else nonspace_scan t (String c acc)
  end.

(** [token_re.findall(expression)].  Every round consumes at least one
    character, so [String.length s] rounds of fuel are enough. *)
Fixpoint findall_fuel (fuel : nat) (s : string) : list string :=
  match fuel with
  | O => []
  | S fuel' =>
      match s with
      | EmptyString => []
      | String c t =>
          if Py.is_space c then findall_fuel fuel' t
          else
            let quoted :=
              if Py.is_quote c
              then quoted_scan t (String c EmptyString) None
              else None in
            match quoted with
            | Some (tok, rest) => tok :: findall_fuel fuel' rest
            | None =>
                let '(tok, rest) := nonspace_scan s EmptyString in
                tok :: findall_fuel fuel' rest
            end
      end
  end.

Definition findall (s : string) : list string :=
  findall_fuel (String.length s) s.

Definition unquote_token (token : string) : string :=
  let token :=
    if Py.startswith Py.dquote_str token then Py.drop_str 1 token else token in
  let token :=
    if Py.endswith Py.dquote_str token then Py.drop_last token else token in
  Py.replace (Py.dquote_str ++ Py.dquote_str) Py.dquote_str token.

(** [_extract_filter_tokens] *)
Definition _extract_filter_tokens (expression : string) : list string :=
  match expression with
  | EmptyString => []
  | _ => map unquote_token (findall expression)
  end.

(** The [operators] table of [_parse_filter_tokens]. *)
Definition operators (tok : string) : option Z :=
  if String.eqb tok "==" then Some 2
  else if String.eqb tok "=" then Some 2
  else if String.eqb tok "=~" then Some 2
  else if String.eqb tok "eq" then Some 2
  else if String.eqb tok "!=" then Some 5
  else if String.eqb tok "!~" then Some 5
  else if String.eqb tok "ne" then Some 5
  else if String.eqb tok "<>" then Some 5
  else if String.eqb tok "<" then Some 1
  else if String.eqb tok "<=" then Some 3
  else if String.eqb tok ">" then Some 4
  else if String.eqb tok ">=" then Some 6
  else None.

Definition is_match_char (c : ascii) : bool :=
  (Py.ascii_eqb c "*"%char || Py.ascii_eqb c "?"%char)%bool.

Definition pval_of_operator (o : option Z) : pval :=
  match o with Some n => PInt n | None => PNone end.

(** Python truth of an operator: [None] and [0] are false. *)
Definition operator_true (o : option Z) : bool :=
  match o with Some n => negb (Z.eqb n 0) | None => false end.

(** [_parse_filter_tokens].  Warnings are not modelled; [None] is a raised
    exception: IndexError on a short token list or on [token[0]] of an
    empty token inside a warning, ValueError of [int], and TypeError of
    the warning for a Top or Bottom type other than [items] or [%],
    whose format string ends in a [%] that asks for a third argument. *)
Definition _parse_filter_tokens (tokens : list string) : option (list pval) :=
  tokens0 ← tokens !! 0%nat;
  tokens1 ← tokens !! 1%nat;
  tokens2 ← tokens !! 2%nat;
  let operator := operators tokens1 in
  let token := tokens2 in
  (* Special handling of "Top" filter expressions. *)
  '(operator, token) ←
    (if (Py.startswith "top" (Py.lower tokens0)
         || Py.startswith "bottom" (Py.lower tokens0))%bool
     then
       value ← Py.int_of_string tokens1;
       let token := Py.lower token in
       _ ← (if (negb (String.eqb token "items")
                && negb (String.eqb token "%"))%bool
            then None else Some tt);
       let operator := if String.eqb (Py.lower tokens0) "top" then 30 else 32 in
       let operator := if String.eqb tokens2 "%" then operator + 1 else operator in
       Some (Some operator, Py.str_of_Z value)
     else Some (operator, token));
  _ ← (if (negb (operator_true operator)
           && negb (String.eqb tokens0 EmptyString))%bool
       then Py.first_char token else Some "x"%char);
  (* Special handling for Blanks/NonBlanks. *)
  let '(operator, token) :=
    if (Py.startswith "blanks" (Py.lower token)
        || Py.startswith "nonblanks" (Py.lower token))%bool
    then
      let token := Py.lower token in
      if String.eqb token "blanks" then
        if bool_decide (operator = Some 5) then (operator, " ")
        else (operator, token)
      else
        if bool_decide (operator = Some 5) then (Some 2, "blanks")
        else (Some 5, " ")
    else (operator, token) in
  (* A match character makes the equality a non "simple" one. *)
  let operator :=
    if (bool_decide (operator = Some 2)
        && Py.contains_char is_match_char token)%bool
    then Some 22 else operator in
  Some [pval_of_operator operator; PStr token].

(** [_parse_filter_expression] *)
Definition _parse_filter_expression (tokens : list string) : option (list pval) :=
  if bool_decide (length tokens = 7%nat) then
    conditional ← tokens !! 3%nat;
    let conditional :=
      if (Py.startswith "and" conditional || Py.startswith "&&" conditional)%bool
      then PInt 0
      else if (Py.startswith "or" conditional
               || Py.startswith "||" conditional)%bool
      then PInt 1
      else PStr conditional in
    expression_1 ← _parse_filter_tokens (take 3 tokens);
    expression_2 ← _parse_filter_tokens (take 3 (drop 4 tokens));
    Some (expression_1 ++ [conditional] ++ expression_2)%list
  else _parse_filter_tokens tokens.

(** The parser as [filter_column] runs it on a criteria string. *)
Definition parse_criteria (criteria : string) : option (list pval) :=
  _parse_filter_expression (_extract_filter_tokens criteria).

End Filter.


(** ** Date model *)

(** The [datetime] values the worksheet accepts.  The three classes of the
    Python library are separate constructors because [_convert_date_time]
    tests the class first.  The library only builds valid values; see
    [valid_date]. *)
Module Datetime.

Record date : Type := Date { year : Z; month : Z; day : Z }.

Record time : Type :=
  Time { hour : Z; minute : Z; second : Z; microsecond : Z }.

Inductive dt_obj : Type :=
  | DDatetime (d : date) (t : time)     (* datetime.datetime *)
  | DDate (d : date)                    (* datetime.date *)
  | DTime (t : time).                   (* datetime.time *)

Definition midnight : time := Time 0 0 0 0.

(** [_is_leap] of the Python library *)
Definition is_leap (y : Z) : bool :=
  ((y mod 4 =? 0)%Z && (negb (y mod 100 =? 0)%Z || (y mod 400 =? 0)%Z))%bool.

(** [_days_before_year] *)
Definition days_before_year (y : Z) : Z :=
  let y := y - 1 in y * 365 + y / 4 - y / 100 + y / 400.

Definition days_in_month (y m : Z) : Z :=
  if (m =? 2)%Z then (if is_leap y then 29 else 28)
  else if ((m =? 4) || (m =? 6) || (m =? 9) || (m =? 11))%Z%bool then 30
  else 31.

(** [_DAYS_BEFORE_MONTH] *)
Definition days_before_month_table (m : Z) : Z :=
  nth (Z.to_nat m) [0; 0; 31; 59; 90; 120; 151; 181; 212; 243; 273; 304; 334] 0.

(** [_days_before_month] *)
Definition days_before_month (y m : Z) : Z :=
  days_before_month_table m
  + (if ((2 <? m)%Z && is_leap y)%bool then 1 else 0).

(** [date.toordinal()], that is [_ymd2ord] *)
Definition toordinal (d : date) : Z :=
  days_before_year (year d) + days_before_month (year d) (month d) + day d.

(** [_isoweek1monday] *)
Definition isoweek1monday (y : Z) : Z :=
  let firstday := toordinal (Date y 1 1) in
  let firstweekday := (firstday + 6) mod 7 in
  let week1monday := firstday - firstweekday in
  if (3 <? firstweekday)%Z then week1monday + 7 else week1monday.

(** [date.isocalendar()]: ISO year, week number and week day. *)
Definition isocalendar (d : date) : Z * Z * Z :=
  let year0 := year d in
  let week1monday := isoweek1monday year0 in
  let today := toordinal d in
  let week := (today - week1monday) / 7 in
  let wday := (today - week1monday) mod 7 in
  if (week <? 0)%Z then
    let year1 := year0 - 1 in
    let week1monday := isoweek1monday year1 in
    let week := (today - week1monday) / 7 in
    let wday := (today - week1monday) mod 7 in
    (year1, week + 1, wday + 1)
  else if ((52 <=? week)%Z && (isoweek1monday (year0 + 1) <=? today)%Z)%bool then
    (year0 + 1, 0 + 1, wday + 1)
  else (year0, week + 1, wday + 1).

(** The values the [date] constructor of the library accepts. *)
Definition valid_date (d : date) : Prop :=
  1 <= year d <= 9999 /\ 1 <= month d <= 12
  /\ 1 <= day d <= days_in_month (year d) (month d).

Definition valid_time (t : time) : Prop :=
  0 <= hour t < 24 /\ 0 <= minute t < 60 /\ 0 <= second t < 60
  /\ 0 <= microsecond t < 1000000.

End Datetime.

Module DateModel.
Import Datetime.

(** The two fields of the worksheet the conversion reads.  [__init__] sets
    [date_1904 = False] and [epoch = datetime(1899, 12, 31)]; [_initialize]
    replaces the epoch by [datetime(1904, 1, 1)] when [date_1904] is set. *)
Definition epoch (date_1904 : bool) : date :=
  if date_1904 then Date 1904 1 1 else Date 1899 12 31.

(** [delta = dt_obj - self.epoch] for a [datetime.datetime] value.  The
    epoch is at midnight, so the normalised [timedelta] has the difference
    of the ordinals as [days] and the time of day as [seconds] and
    [microseconds]. *)
Definition delta_days (date_1904 : bool) (d : date) : Z :=
  toordinal d - toordinal (epoch date_1904).

Definition delta_seconds (t : time) : Z :=
  hour t * 3600 + minute t * 60 + second t.

(** [_convert_date_time].  The first step brings the three classes to a
    date and a time of day: a [date] is taken at midnight, a [time] is
    combined with the date of the epoch.  The arithmetic of the method
    is carried out in exact rationals; it agrees with the
    double-precision arithmetic of Python wherever every value computed
    is a double, which is the case for whole days and for times of day
    that are a whole number of 1/128 days. *)
Definition _convert_date_time (date_1904 : bool) (v : dt_obj) : Q :=
  let '(d, t) :=
    match v with
    | DDatetime d t => (d, t)
    | DDate d => (d, midnight)
    | DTime t => (epoch date_1904, t)
    end in
  let excel_time : Q :=
    (inject_Z (delta_days date_1904 d)
     + (inject_Z (delta_seconds t) + inject_Z (microsecond t) / 1000000)
       / inject_Z (60 * 60 * 24))%Q in
  (* Special case for the date 1900-01-01. *)
  let excel_time :=
    if bool_decide (isocalendar d = (1900, 1, 1)) then (excel_time - 1)%Q
    else excel_time in
  (* Excel treats 1900 as a leap year. *)
  if (negb date_1904 && negb (Qle_bool excel_time 59%Q))%bool
  then (excel_time + 1)%Q else excel_time.

End DateModel.


(** ** External collaborators *)

(** Modelled from the spec: the Style/Format Registry is not part of the
    source.  It gives every format a stable style index
    ([_get_xf_index]) and a differential-format index ([_get_dxf_index]);
    a [Format] object is immutable once attached to a cell. *)
Record Format : Type := { xf_index : Z; dxf_index : Z }.

Module Utility.

(** Modelled from the spec: the Coordinate Helpers ([utility.py]) are not
    part of the source.  [xl_col_to_name] gives the column letters of a
    zero-based column (A..Z, AA..), by repeated division by 26. *)
Fixpoint col_name_fuel (fuel : nat) (col_num : Z) (col_str : string) : string :=
  match fuel with
  | O => col_str
  | S fuel' =>
      if (col_num <=? 0)%Z then col_str
      else
        let remainder := col_num mod 26 in
        let remainder := if (remainder =? 0)%Z then 26 else remainder in
        let col_letter := ascii_of_nat (Z.to_nat (65 + remainder - 1)) in
        col_name_fuel fuel' ((col_num - 1) / 26) (String col_letter col_str)
  end.

Definition xl_col_to_name (col : Z) : string :=
  col_name_fuel 8 (col + 1) EmptyString.

(** Modelled from the spec: [xl_rowcol_to_cell] turns a zero-based row and
    column into A1 notation. *)
Definition xl_rowcol_to_cell (row col : Z) : string :=
  xl_col_to_name col ++ Py.str_of_Z (row + 1).

End Utility.

Module SharedStrings.

(** Modelled from the spec: the Shared String Table is not part of the
    source.  It interns text: a string met before keeps its index, a new
    string gets the next index. *)
Fixpoint index_of (s : string) (table : list string) (i : Z) : option Z :=
  match table with
  | [] => None
  | x :: rest => if String.eqb x s then Some i else index_of s rest (i + 1)
  end.

Definition _get_shared_string_index (table : list string) (s : string)
    : Z * list string :=
  match index_of s table 0 with
  | Some i => (i, table)
  | None => (Z.of_nat (length table), (table ++ [s])%list)
  end.

(** The text an index stands for. *)
Definition text_of (table : list string) (i : Z) : option string :=
  if (i <? 0)%Z then None else table !! Z.to_nat i.

End SharedStrings.

(** ** Cell store *)

(** The payload of a string cell: an index into the shared string table
    in buffered mode, the text itself in streaming mode. *)
Inductive string_ref : Type :=
  | SIndex (i : Z)
  | SText (s : string).

(** The cached value of a formula: a number or a string. *)
Inductive fvalue : Type :=
  | FNum (q : Q)
  | FStr (s : string).

(** The named tuples [String], [Number], [Blank], [Formula] and
    [ArrayFormula]. *)
Inductive cell : Type :=
  | String_ (string_ : string_ref) (format : option Format)
  | Number (number : Q) (format : option Format)
  | Blank (format : option Format)
  | Formula (formula : string) (format : option Format) (value : fvalue)
  | ArrayFormula (formula : string) (format : option Format) (value : fvalue)
      (range : string).

Definition cell_format (c : cell) : option Format :=
  match c with
  | String_ _ f | Number _ f | Blank f | Formula _ f _
  | ArrayFormula _ f _ _ => f
  end.

(** The list [set_row] stores: height, format, hidden, level, collapsed. *)
Record row_props : Type := {
  rp_height : option Q;
  rp_format : option Format;
  rp_hidden : bool;
  rp_level : Z;
  rp_collapsed : bool }.

(** The dictionary [write_url] stores for a cell. *)
Record hyperlink : Type := {
  link_type : Z;
  url : string;
  str : option string;
  tip : option string }.

(** ** XML writer calls

    The generic XML writer is an external collaborator.  The output of
    the worksheet is the sequence of calls it makes on the writer. *)
Inductive attr_val : Type :=
  | AInt (n : Z)
  | AStr (s : string)
  | ANum (q : Q).

Definition attributes : Type := list (string * attr_val).

Inductive xml_call : Type :=
  | xml_start_tag (tag : string) (a : attributes)
  | xml_end_tag (tag : string)
  | xml_empty_tag (tag : string) (a : attributes)
  | xml_start_tag_unencoded (tag : string) (a : attributes)
  | xml_empty_tag_unencoded (tag : string) (a : attributes)
  | xml_data_element (tag : string) (data : fvalue) (a : attributes)
  | xml_number_element (number : Q) (a : attributes)
  | xml_string_element (index : string_ref) (a : attributes)
  | xml_inline_string (s : string) (preserve : Z) (a : attributes)
  | xml_rich_inline_string (s : string) (a : attributes)
  | xml_formula_element (formula : string) (value : fvalue) (a : attributes).

(** ** Worksheet state *)

(** The fields of [Worksheet] the modelled methods read or write.  [fh] is
    the file handle: in streaming mode it is the row data file until the
    sheet is assembled. *)
Record worksheet : Type := {
  optimization : Z;
  date_1904 : bool;
  excel_version : Z;
  default_row_height : Q;
  dim_rowmin : option Z;
  dim_rowmax : option Z;
  dim_colmin : option Z;
  dim_colmax : option Z;
  table : gmap Z (gmap Z cell);
  set_rows : gmap Z row_props;
  col_formats : gmap Z Format;
  comments : gmap Z (gmap Z string);
  row_spans : gmap Z string;
  merge : list (Z * Z * Z * Z);
  hlink_count : Z;
  hyperlinks : gmap Z (gmap Z hyperlink);
  previous_row : Z;
  str_table : list string;
  rstring : string;
  fh : list xml_call }.

Definition xls_rowmax : Z := 1048576.
Definition xls_colmax : Z := 16384.
Definition xls_strmax : Z := 32767.

(** [__init__] followed by [_initialize] with the two mode flags. *)
Definition new_worksheet (optimization : Z) (date_1904 : bool) : worksheet :=
  {| optimization := optimization; date_1904 := date_1904;
     excel_version := 2007; default_row_height := 15%Q;
     dim_rowmin := None; dim_rowmax := None;
     dim_colmin := None; dim_colmax := None;
     table := ∅; set_rows := ∅; col_formats := ∅; comments := ∅;
     row_spans := ∅; merge := []; hlink_count := 0; hyperlinks := ∅;
     previous_row := 0; str_table := []; rstring := EmptyString; fh := [] |}.

Definition set_dim_row (lo hi : option Z) (ws : worksheet) : worksheet :=
  {| optimization := optimization ws; date_1904 := date_1904 ws;
     excel_version := excel_version ws;
     default_row_height := default_row_height ws;
     dim_rowmin := lo; dim_rowmax := hi;
     dim_colmin := dim_colmin ws; dim_colmax := dim_colmax ws;
     table := table ws; set_rows := set_rows ws;
     col_formats := col_formats ws; comments := comments ws;
     row_spans := row_spans ws; merge := merge ws;
     hlink_count := hlink_count ws; hyperlinks := hyperlinks ws;
     previous_row := previous_row ws; str_table := str_table ws;
     rstring := rstring ws; fh := fh ws |}.

Definition set_dim_col (lo hi : option Z) (ws : worksheet) : worksheet :=
  {| optimization := optimization ws; date_1904 := date_1904 ws;
     excel_version := excel_version ws;
     default_row_height := default_row_height ws;
     dim_rowmin := dim_rowmin ws; dim_rowmax := dim_rowmax ws;
     dim_colmin := lo; dim_colmax := hi;
     table := table ws; set_rows := set_rows ws;
     col_formats := col_formats ws; comments := comments ws;
     row_spans := row_spans ws; merge := merge ws;
     hlink_count := hlink_count ws; hyperlinks := hyperlinks ws;
     previous_row := previous_row ws; str_table := str_table ws;
     rstring := rstring ws; fh := fh ws |}.

Definition set_table (t : gmap Z (gmap Z cell)) (ws : worksheet) : worksheet :=
  {| optimization := optimization ws; date_1904 := date_1904 ws;
     excel_version := excel_version ws;
     default_row_height := default_row_height ws;
     dim_rowmin := dim_rowmin ws; dim_rowmax := dim_rowmax ws;
     dim_colmin := dim_colmin ws; dim_colmax := dim_colmax ws;
     table := t; set_rows := set_rows ws;
     col_formats := col_formats ws; comments := comments ws;
     row_spans := row_spans ws; merge := merge ws;
     hlink_count := hlink_count ws; hyperlinks := hyperlinks ws;
     previous_row := previous_row ws; str_table := str_table ws;
     rstring := rstring ws; fh := fh ws |}.

Definition set_row_spans (sp : gmap Z string) (ws : worksheet) : worksheet :=
  {| optimization := optimization ws; date_1904 := date_1904 ws;
     excel_version := excel_version ws;
     default_row_height := default_row_height ws;
     dim_rowmin := dim_rowmin ws; dim_rowmax := dim_rowmax ws;
     dim_colmin := dim_colmin ws; dim_colmax := dim_colmax ws;
     table := table ws; set_rows := set_rows ws;
     col_formats := col_formats ws; comments := comments ws;
     row_spans := sp; merge := merge ws;
     hlink_count := hlink_count ws; hyperlinks := hyperlinks ws;
     previous_row := previous_row ws; str_table := str_table ws;
     rstring := rstring ws; fh := fh ws |}.

Definition set_merge (m : list (Z * Z * Z * Z)) (ws : worksheet) : worksheet :=
  {| optimization := optimization ws; date_1904 := date_1904 ws;
     excel_version := excel_version ws;
     default_row_height := default_row_height ws;
     dim_rowmin := dim_rowmin ws; dim_rowmax := dim_rowmax ws;
     dim_colmin := dim_colmin ws; dim_colmax := dim_colmax ws;
     table := table ws; set_rows := set_rows ws;
     col_formats := col_formats ws; comments := comments ws;
     row_spans := row_spans ws; merge := m;
     hlink_count := hlink_count ws; hyperlinks := hyperlinks ws;
     previous_row := previous_row ws; str_table := str_table ws;
     rstring := rstring ws; fh := fh ws |}.

Definition set_hlink_count (n : Z) (ws : worksheet) : worksheet :=
  {| optimization := optimization ws; date_1904 := date_1904 ws;
     excel_version := excel_version ws;
     default_row_height := default_row_height ws;
     dim_rowmin := dim_rowmin ws; dim_rowmax := dim_rowmax ws;
     dim_colmin := dim_colmin ws; dim_colmax := dim_colmax ws;
     table := table ws; set_rows := set_rows ws;
     col_formats := col_formats ws; comments := comments ws;
     row_spans := row_spans ws; merge := merge ws;
     hlink_count := n; hyperlinks := hyperlinks ws;
     previous_row := previous_row ws; str_table := str_table ws;
     rstring := rstring ws; fh := fh ws |}.

Definition set_hyperlinks (h : gmap Z (gmap Z hyperlink)) (ws : worksheet)
    : worksheet :=
  {| optimization := optimization ws; date_1904 := date_1904 ws;
     excel_version := excel_version ws;
     default_row_height := default_row_height ws;
     dim_rowmin := dim_rowmin ws; dim_rowmax := dim_rowmax ws;
     dim_colmin := dim_colmin ws; dim_colmax := dim_colmax ws;
     table := table ws; set_rows := set_rows ws;
     col_formats := col_formats ws; comments := comments ws;
     row_spans := row_spans ws; merge := merge ws;
     hlink_count := hlink_count ws; hyperlinks := h;
     previous_row := previous_row ws; str_table := str_table ws;
     rstring := rstring ws; fh := fh ws |}.

Definition set_previous_row (r : Z) (ws : worksheet) : worksheet :=
  {| optimization := optimization ws; date_1904 := date_1904 ws;
     excel_version := excel_version ws;
     default_row_height := default_row_height ws;
     dim_rowmin := dim_rowmin ws; dim_rowmax := dim_rowmax ws;
     dim_colmin := dim_colmin ws; dim_colmax := dim_colmax ws;
     table := table ws; set_rows := set_rows ws;
     col_formats := col_formats ws; comments := comments ws;
     row_spans := row_spans ws; merge := merge ws;
     hlink_count := hlink_count ws; hyperlinks := hyperlinks ws;
     previous_row := r; str_table := str_table ws;
     rstring := rstring ws; fh := fh ws |}.

Definition set_str_table (t : list string) (ws : worksheet) : worksheet :=
  {| optimization := optimization ws; date_1904 := date_1904 ws;
     excel_version := excel_version ws;
     default_row_height := default_row_height ws;
     dim_rowmin := dim_rowmin ws; dim_rowmax := dim_rowmax ws;
     dim_colmin := dim_colmin ws; dim_colmax := dim_colmax ws;
     table := table ws; set_rows := set_rows ws;
     col_formats := col_formats ws; comments := comments ws;
     row_spans := row_spans ws; merge := merge ws;
     hlink_count := hlink_count ws; hyperlinks := hyperlinks ws;
     previous_row := previous_row ws; str_table := t;
     rstring := rstring ws; fh := fh ws |}.

Definition set_rstring (s : string) (ws : worksheet) : worksheet :=
  {| optimization := optimization ws; date_1904 := date_1904 ws;
     excel_version := excel_version ws;
     default_row_height := default_row_height ws;
     dim_rowmin := dim_rowmin ws; dim_rowmax := dim_rowmax ws;
     dim_colmin := dim_colmin ws; dim_colmax := dim_colmax ws;
     table := table ws; set_rows := set_rows ws;
     col_formats := col_formats ws; comments := comments ws;
     row_spans := row_spans ws; merge := merge ws;
     hlink_count := hlink_count ws; hyperlinks := hyperlinks ws;
     previous_row := previous_row ws; str_table := str_table ws;
     rstring := s; fh := fh ws |}.

Definition set_fh (f : list xml_call) (ws : worksheet) : worksheet :=
  {| optimization := optimization ws; date_1904 := date_1904 ws;
     excel_version := excel_version ws;
     default_row_height := default_row_height ws;
     dim_rowmin := dim_rowmin ws; dim_rowmax := dim_rowmax ws;
     dim_colmin := dim_colmin ws; dim_colmax := dim_colmax ws;
     table := table ws; set_rows := set_rows ws;
     col_formats := col_formats ws; comments := comments ws;
     row_spans := row_spans ws; merge := merge ws;
     hlink_count := hlink_count ws; hyperlinks := hyperlinks ws;
     previous_row := previous_row ws; str_table := str_table ws;
     rstring := rstring ws; fh := f |}.

(** ** The method monad

    A method runs on the worksheet, may change it, and either returns a
    value or raises an exception; the changes made before a raise stay. *)
Inductive result (A : Type) : Type :=
  | Ok (a : A)
  | Raise (e : string).
Arguments Ok {A} a.
Arguments Raise {A} e.

Definition M (A : Type) : Type := worksheet -> worksheet * result A.

Definition ret {A} (a : A) : M A := fun ws => (ws, Ok a).

Definition raise {A} (e : string) : M A := fun ws => (ws, Raise e).

Definition bind {A B} (m : M A) (f : A -> M B) : M B :=
  fun ws =>
    match m ws with
    | (ws', Ok a) => f a ws'
    | (ws', Raise e) => (ws', Raise e)
    end.

#[global] Instance M_ret : MRet M := @ret.
#[global] Instance M_bind : MBind M := fun A B f m => bind m f.

(** A computation on local variables only: it returns or raises and
    leaves the worksheet alone. *)
Definition lift {A} (r : result A) : M A := fun ws => (ws, r).

(** Read a field of [self]. *)
Definition get {A} (f : worksheet -> A) : M A := fun ws => (ws, Ok (f ws)).

(** Assign to fields of [self]. *)
Definition modify (f : worksheet -> worksheet) : M unit :=
  fun ws => (f ws, Ok tt).

(** A [for] loop whose body does not return from the method. *)
Fixpoint for_each {X} (l : list X) (body : X -> M unit) : M unit :=
  match l with
  | [] => ret tt
  | x :: rest => body x;; for_each rest body
  end.

(** [range(lo, hi)] *)
Definition py_range (lo hi : Z) : list Z := seqZ lo (hi - lo).

(** [range(lo, hi + 1)] on two attributes that may still be [None]. *)
Definition dim_range (lo hi : option Z) : M (list Z) :=
  match lo, hi with
  | Some lo, Some hi => ret (py_range lo (hi + 1))
  | _, _ => raise "TypeError"
  end.

(** A call on the XML writer of the worksheet. *)
Definition emit (c : xml_call) : M unit :=
  modify (fun ws => set_fh (fh ws ++ [c])%list ws).

(** Python truth of an integer. *)
Definition truthy (n : Z) : bool := negb (Z.eqb n 0).

(** [self.table[row]] of the [defaultdict]: a missing row reads as the
    empty dictionary. *)
Definition table_row (ws : worksheet) (row : Z) : gmap Z cell :=
  default ∅ (table ws !! row).

(** [self.table[row][col] = c] *)
Definition store_cell (row col : Z) (c : cell) : M unit :=
  modify (fun ws => set_table (<[row := <[col := c]> (table_row ws row)]> (table ws)) ws).

(** Truth of a dictionary: it has an entry. *)
Definition nonempty {V} (m : gmap Z V) : bool := negb (bool_decide (m = ∅)).

(** ** Dimension check *)

(** [_check_dimensions] *)
Definition _check_dimensions (row col : Z) (ignore_row ignore_col : bool) : M Z :=
  fun ws =>
  (* Check that the row/col are within the worksheet bounds. *)
  if ((xls_rowmax <=? row)%Z || (xls_colmax <=? col)%Z)%bool then (ws, Ok (-1))
  (* In optimization mode the rows already written are closed. *)
  else if (negb ignore_row && negb ignore_col && (optimization ws =? 1)%Z
           && (row <? previous_row ws)%Z)%bool then (ws, Ok (-1))
  else
    let ws :=
      if negb ignore_row then
        let lo :=
          match dim_rowmin ws with
          | None => Some row
          | Some m => if (row <? m)%Z then Some row else Some m
          end in
        let hi :=
          match dim_rowmax ws with
          | None => Some row
          | Some m => if (m <? row)%Z then Some row else Some m
          end in
        set_dim_row lo hi ws
      else ws in
    let ws :=
      if negb ignore_col then
        let lo :=
          match dim_colmin ws with
          | None => Some col
          | Some m => if (col <? m)%Z then Some col else Some m
          end in
        let hi :=
          match dim_colmax ws with
          | None => Some col
          | Some m => if (m <? col)%Z then Some col else Some m
          end in
        set_dim_col lo hi ws
      else ws in
    (ws, Ok 0).

(** ** Serializer: rows and cells *)

Module Inline.

Definition hex_digit (n : nat) : ascii :=
  if Nat.ltb n 10 then ascii_of_nat (48 + n) else ascii_of_nat (55 + n).

(** ["_x%04X_" % ord(c)] for a character. *)
Definition control_escape (c : ascii) : string :=
  let n := nat_of_ascii c in
  "_x00" ++ String (hex_digit (n / 16)) (String (hex_digit (n mod 16)) "_").

(** The pattern [_x[0-9a-fA-F]{4}_] at the start of the text. *)
Definition escaped_prefix (s : string) : bool :=
  match s with
  | String a (String b (String h1 (String h2 (String h3 (String h4
      (String z _)))))) =>
      (Py.ascii_eqb a "_"%char && Py.ascii_eqb b "x"%char
       && Py.is_hex h1 && Py.is_hex h2 && Py.is_hex h3 && Py.is_hex h4
       && Py.ascii_eqb z "_"%char)%bool
  | _ => false
  end.

(** [re.sub('(_x[0-9a-fA-F]{4}_)', r'_x005F\1', string)]; [copy] counts
    the characters of a match still to be copied. *)
Fixpoint escape_escapes (copy : nat) (s : string) : string :=
  match s with
  | EmptyString => EmptyString
  | String c t =>
      match copy with
      | S k => String c (escape_escapes k t)
      | O =>
          if escaped_prefix s
          then "_x005F" ++ String c (escape_escapes 6 t)
          else String c (escape_escapes O t)
      end
  end.

(** The class [[\x00-\x08\x0B-\x1F]]. *)
Definition is_control (c : ascii) : bool :=
  let n := nat_of_ascii c in
  (Nat.leb n 8 || (Nat.leb 11 n && Nat.leb n 31))%bool.

Fixpoint escape_controls (s : string) : string :=
  match s with
  | EmptyString => EmptyString
  | String c t =>
      if is_control c then control_escape c ++ escape_controls t
      else String c (escape_controls t)
  end.

(** The two substitutions of [_write_cell] on an in-line string. *)
Definition escape (s : string) : string :=
  escape_controls (escape_escapes O s).

Definition newline : string := String (ascii_of_nat 10) EmptyString.

(** [re.search('^<r>', s) and re.search('</r>$', s)]; [$] also matches
    before a final newline. *)
Definition is_rich (s : string) : bool :=
  (Py.startswith "<r>" s
   && (Py.endswith "</r>" s || Py.endswith ("</r>" ++ newline) s))%bool.

Definition preserve_flag (s : string) : Z :=
  if (Py.starts_with_space s || Py.ends_with_space s)%bool then 1 else 0.

End Inline.

Section Worksheet.

(** [float(s)] of the Python runtime on a string; [None] is ValueError. *)
Variable py_float : string -> option Q.

(** What [_write_font] writes for a format: it reads the font attributes
    of the [Format] object, which is an external collaborator. *)
Variable font_xml : Format -> string.

(** The text the XML writer produces for [_xml_data_element('t', ...)]
    with the given [xml:space] flag. *)
Variable t_element_xml : string -> bool -> string.

(** [float(value)] on a cached formula value does not raise. *)
Definition value_is_float (v : fvalue) : bool :=
  match v with
  | FNum _ => true
  | FStr s => bool_decide (is_Some (py_float s))
  end.

(** [_write_row] and, with [empty_row] set, [_write_empty_row]. *)
Definition _write_row (row : Z) (spans : option string)
    (properties : option row_props) (empty_row : bool) : M unit :=
  default_height ← get default_row_height;
  version ← get excel_version;
  let '(height, cell_format, hidden, level, collapsed) :=
    match properties with
    | Some p => (rp_height p, rp_format p, rp_hidden p, rp_level p,
                 rp_collapsed p)
    | None => (None, None, false, 0, false)
    end in
  let height := match height with Some h => h | None => default_height end in
  let attributes : attributes := [("r", AInt (row + 1))] in
  (* xf_index starts as 0 and is replaced when the row has a format. *)
  let xf :=
    match cell_format with Some f => xf_index f | None => 0 end in
  let attributes :=
    match spans with
    | Some sp => if bool_decide (sp = EmptyString) then attributes
                 else (attributes ++ [("spans", AStr sp)])%list
    | None => attributes
    end in
  let attributes :=
    if truthy xf then (attributes ++ [("s", AInt xf)])%list
    else attributes in
  let attributes :=
    match cell_format with
    | Some _ => (attributes ++ [("customFormat", AInt 1)])%list
    | None => attributes
    end in
  let attributes :=
    if negb (Qeq_bool height 15) then (attributes ++ [("ht", ANum height)])%list
    else attributes in
  let attributes :=
    if hidden then (attributes ++ [("hidden", AInt 1)])%list else attributes in
  let attributes :=
    if negb (Qeq_bool height 15)
    then (attributes ++ [("customHeight", AInt 1)])%list
    else attributes in
  let attributes :=
    if truthy level then (attributes ++ [("outlineLevel", AInt level)])%list
    else attributes in
  let attributes :=
    if collapsed then (attributes ++ [("collapsed", AInt 1)])%list
    else attributes in
  let attributes :=
    if (version =? 2010)%Z
    then (attributes ++ [("x14ac:dyDescent", AStr "0.25")])%list
    else attributes in
  if empty_row then emit (xml_empty_tag_unencoded "row" attributes)
  else emit (xml_start_tag_unencoded "row" attributes).

Definition _write_empty_row (row : Z) (spans : option string)
    (properties : option row_props) : M unit :=
  _write_row row spans properties true.

(** [_write_cell_value] *)
Definition _write_cell_value (value : fvalue) : M unit :=
  emit (xml_data_element "v" value []).

(** [_write_cell_array_formula] *)
Definition _write_cell_array_formula (formula cell_range : string) : M unit :=
  emit (xml_data_element "f" (FStr formula)
          [("t", AStr "array"); ("ref", AStr cell_range)]).

(** The style of a cell: its own format, else the format of the row, else
    the format of the column. *)
Definition cell_style (ws : worksheet) (row col : Z) (c : cell) : attributes :=
  match cell_format c with
  | Some f => [("s", AInt (xf_index f))]
  | None =>
      match set_rows ws !! row ≫= rp_format with
      | Some row_xf => [("s", AInt (xf_index row_xf))]
      | None =>
          match col_formats ws !! col with
          | Some col_xf => [("s", AInt (xf_index col_xf))]
          | None => []
          end
      end
  end.

(** [_write_cell] *)
Definition _write_cell (row col : Z) (c : cell) : M unit :=
  let cell_range := Utility.xl_rowcol_to_cell row col in
  ws ← get id;
  let attributes : attributes :=
    ([("r", AStr cell_range)] ++ cell_style ws row col c)%list in
  match c with
  | Number number _ => emit (xml_number_element number attributes)
  | String_ string_ _ =>
      if negb (truthy (optimization ws)) then
        (* Write a shared string. *)
        emit (xml_string_element string_ attributes)
      else
        (* Write an optimised in-line string. *)
        match string_ with
        | SIndex _ => raise "TypeError"
        | SText s =>
            let s := Inline.escape s in
            if Inline.is_rich s then emit (xml_rich_inline_string s attributes)
            else emit (xml_inline_string s (Inline.preserve_flag s) attributes)
        end
  | Formula formula _ value =>
      let attributes :=
        if value_is_float value then attributes
        else (attributes ++ [("t", AStr "str")])%list in
      emit (xml_formula_element formula value attributes)
  | ArrayFormula formula _ value range =>
      let attributes :=
        if value_is_float value then attributes
        else (attributes ++ [("t", AStr "str")])%list in
      emit (xml_start_tag "c" attributes);;
      _write_cell_array_formula formula range;;
      _write_cell_value value;;
      emit (xml_end_tag "c")
  | Blank _ => emit (xml_empty_tag "c" attributes)
  end.

(** The loop over the columns of a row that [_write_rows] and
    [_write_single_row] both run. *)
Definition write_row_cells (row_num : Z) : M unit :=
  lo ← get dim_colmin;
  hi ← get dim_colmax;
  cols ← dim_range lo hi;
  for_each cols (fun col_num =>
    ws ← get id;
    match table_row ws row_num !! col_num with
    | Some col_ref => _write_cell row_num col_num col_ref
    | None => ret tt
    end).

(** [_write_single_row] *)
Definition _write_single_row (current_row_num : Z) : M unit :=
  (* Set the new previous row as the current row. *)
  row_num ← get previous_row;
  modify (set_previous_row current_row_num);;
  ws ← get id;
  (if (bool_decide (is_Some (set_rows ws !! row_num))
       || bool_decide (is_Some (comments ws !! row_num))
       || nonempty (table_row ws row_num))%bool
   then
     (* No span data in optimised mode. *)
     let span : option string := None in
     if nonempty (table_row ws row_num) then
       _write_row row_num span (set_rows ws !! row_num) false;;
       write_row_cells row_num;;
       emit (xml_end_tag "row")
     else
       (* Row attributes or comments only. *)
       _write_empty_row row_num span (set_rows ws !! row_num)
   else ret tt);;
  (* Reset table. *)
  modify (set_table ∅).

(** One step of the column scan of [_calculate_spans].  [span_max] is
    only read when [span_min] is set, and both are set together. *)
Definition span_step (span : option Z * option Z) (col_num : Z)
    : option Z * option Z :=
  match span with
  | (None, _) => (Some col_num, Some col_num)
  | (Some span_min, span_max) =>
      (Some (if (col_num <? span_min)%Z then col_num else span_min),
       match span_max with
       | Some mx => Some (if (mx <? col_num)%Z then col_num else mx)
       | None => None
       end)
  end.

Definition span_scan {V} (row : gmap Z V) (cols : list Z)
    (span : option Z * option Z) : option Z * option Z :=
  foldl (fun sp col_num =>
           if bool_decide (is_Some (row !! col_num)) then span_step sp col_num
           else sp) span cols.

(** The loop of [_calculate_spans] over the rows of the dimension.  The
    local variables are [spans] and the pair [span_min], [span_max].
    The columns are walked for a row of the cell store and for a row of
    the comments only, so the range of the columns is built, and raises
    TypeError on a limit that is still [None], for such rows only.
    [int(row_num / 16)] rounds the quotient toward zero. *)
Fixpoint spans_loop (rows : list Z) (spans : gmap Z string)
    (span : option Z * option Z) : M (gmap Z string) :=
  match rows with
  | [] => ret spans
  | row_num :: rest =>
      ws ← get id;
      (* Calculate spans for cell data. *)
      span ←
        match table ws !! row_num with
        | Some r =>
            cols ← dim_range (dim_colmin ws) (dim_colmax ws);
            ret (span_scan r cols span)
        | None => ret span
        end;
      (* Calculate spans for comments. *)
      span ←
        match comments ws !! row_num with
        | Some r =>
            cols ← dim_range (dim_colmin ws) (dim_colmax ws);
            ret (span_scan r cols span)
        | None => ret span
        end;
      if (((row_num + 1) mod 16 =? 0)%Z
          || bool_decide (Some row_num = dim_rowmax ws))%bool
      then
        let span_index := Z.quot row_num 16 in
        match span with
        | (Some span_min, Some span_max) =>
            spans_loop rest
              (<[span_index :=
                   Py.str_of_Z (span_min + 1) ++ ":"
                   ++ Py.str_of_Z (span_max + 1)]> spans)
              (None, Some (span_max + 1))
        | _ => spans_loop rest spans span
        end
      else spans_loop rest spans span
  end.

(** [_calculate_spans]: the [spans] attribute is the same for each block
    of 16 rows. *)
Definition _calculate_spans : M unit :=
  lo ← get dim_rowmin;
  hi ← get dim_rowmax;
  rows ← dim_range lo hi;
  spans ← spans_loop rows ∅ (None, None);
  modify (set_row_spans spans).

(** ** Write dispatch *)

(** The test that opens every typed write after its bounds check:
    [if self.optimization and row > self.previous_row:
    self._write_single_row(row)]. *)
Definition flush_previous_row (row : Z) : M unit :=
  ws ← get id;
  if (truthy (optimization ws) && (previous_row ws <? row)%Z)%bool
  then _write_single_row row else ret tt.

(** [write_string] *)
Definition write_string (row col : Z) (string_ : string)
    (cell_format : option Format) : M Z :=
  let str_error := 0 in
  (* Check that row and col are valid and store max and min values. *)
  err ← _check_dimensions row col false false;
  if truthy err then ret (-1) else
  (* Check that the string is < 32767 chars. *)
  let '(string_, str_error) :=
    if (xls_strmax <? Py.len string_)%Z
    then (Py.take_str (Z.to_nat xls_strmax) string_, -2)
    else (string_, str_error) in
  (* Write a shared string or an in-line string in optimisation mode. *)
  ws ← get id;
  string_index ←
    (if (optimization ws =? 0)%Z then
       let '(i, t) :=
         SharedStrings._get_shared_string_index (str_table ws) string_ in
       modify (set_str_table t);; ret (SIndex i)
     else ret (SText string_));
  (* Write previous row if in in-line string optimization mode. *)
  flush_previous_row row;;
  (* Store the cell data in the worksheet data table. *)
  store_cell row col (String_ string_index cell_format);;
  ret str_error.

(** [write_number]; the conversion [float(number)] is done by the caller
    of the model, which passes the number. *)
Definition write_number (row col : Z) (number : Q)
    (cell_format : option Format) : M Z :=
  err ← _check_dimensions row col false false;
  if truthy err then ret (-1) else
  flush_previous_row row;;
  store_cell row col (Number number cell_format);;
  ret 0.

(** [write_blank]; the [blank] argument is ignored by the method. *)
Definition write_blank (row col : Z) (cell_format : option Format) : M Z :=
  (* Don't write a blank cell unless it has a format. *)
  match cell_format with
  | None => ret 0
  | Some _ =>
      err ← _check_dimensions row col false false;
      if truthy err then ret (-1) else
      flush_previous_row row;;
      store_cell row col (Blank cell_format);;
      ret 0
  end.

(** [if s[0] == c: s = s[1:]]; IndexError on the empty string. *)
Definition strip_first (c : ascii) (s : string) : result string :=
  match Py.first_char s with
  | Some c' => Ok (if Py.ascii_eqb c' c then Py.drop_str 1 s else s)
  | None => Raise "IndexError"
  end.

(** [if s[-1] == c: s = s[:-1]]; IndexError on the empty string. *)
Definition strip_last (c : ascii) (s : string) : result string :=
  match Py.last_char s with
  | Some c' => Ok (if Py.ascii_eqb c' c then Py.drop_last s else s)
  | None => Raise "IndexError"
  end.

(** The three steps of [write_array_formula] that remove the braces and
    the leading [=]. *)
Definition strip_array_formula (formula : string) : result string :=
  match strip_first "{"%char formula with
  | Raise e => Raise e
  | Ok formula =>
      match strip_first "="%char formula with
      | Raise e => Raise e
      | Ok formula => strip_last "}"%char formula
      end
  end.

(** The name of the range of an array formula. *)
Definition array_range (first_row first_col last_row last_col : Z) : string :=
  if ((first_row =? last_row)%Z && (first_col =? last_col)%Z)%bool
  then Utility.xl_rowcol_to_cell first_row first_col
  else Utility.xl_rowcol_to_cell first_row first_col ++ ":"
       ++ Utility.xl_rowcol_to_cell last_row last_col.

(** The cells of a range other than its first cell, row by row. *)
Definition range_other_cells (first_row first_col last_row last_col : Z)
    : list (Z * Z) :=
  row ← py_range first_row (last_row + 1);
  col ← py_range first_col (last_col + 1);
  if (negb (row =? first_row)%Z || negb (col =? first_col)%Z)%bool
  then [(row, col)] else [].

(** [write_array_formula] *)
Definition write_array_formula (first_row first_col last_row last_col : Z)
    (formula : string) (cell_format : option Format) (value : fvalue) : M Z :=
  (* Swap last row/col with first row/col as necessary. *)
  let '(first_row, last_row) :=
    if (last_row <? first_row)%Z then (last_row, first_row)
    else (first_row, last_row) in
  let '(first_col, last_col) :=
    if (last_col <? first_col)%Z then (last_col, first_col)
    else (first_col, last_col) in
  (* Check that row and col are valid and store max and min values. *)
  err ← _check_dimensions last_row last_col false false;
  if truthy err then ret (-1) else
  (* Define array range. *)
  let cell_range := array_range first_row first_col last_row last_col in
  (* Remove array formula braces and the leading =. *)
  formula ← lift (strip_array_formula formula);
  (* Write previous row if in in-line string optimization mode. *)
  flush_previous_row first_row;;
  (* Store the cell data in the worksheet data table. *)
  store_cell first_row first_col
    (ArrayFormula formula cell_format value cell_range);;
  (* Pad out the rest of the area with formatted zeroes. *)
  ws ← get id;
  (if negb (truthy (optimization ws)) then
     for_each (range_other_cells first_row first_col last_row last_col)
       (fun rc => write_number rc.1 rc.2 0%Q cell_format;; ret tt)
   else ret tt);;
  ret 0.

(** [write_formula] *)
Definition write_formula (row col : Z) (formula : string)
    (cell_format : option Format) (value : fvalue) : M Z :=
  err ← _check_dimensions row col false false;
  if truthy err then ret (-1) else
  (* Hand off array formulas. *)
  if (Py.startswith "{" formula && Py.endswith "}" formula)%bool
  then write_array_formula row col row col formula cell_format value
  else
    (* Remove the formula '=' sign if it exists. *)
    let formula :=
      if Py.startswith "=" formula then Py.lstrip_char "="%char formula
      else formula in
    flush_previous_row row;;
    store_cell row col (Formula formula cell_format value);;
    ret 0.

(** [write_datetime] *)
Definition write_datetime (row col : Z) (date : Datetime.dt_obj)
    (cell_format : option Format) : M Z :=
  err ← _check_dimensions row col false false;
  if truthy err then ret (-1) else
  flush_previous_row row;;
  (* Convert datetime to an Excel date. *)
  ws ← get id;
  let number := DateModel._convert_date_time (date_1904 ws) date in
  store_cell row col (Number number cell_format);;
  ret 0.

(** *** Hyperlinks *)

(** [re.search('%[0-9a-fA-F]{2}', url)] *)
Fixpoint has_percent_escape (s : string) : bool :=
  match s with
  | EmptyString => false
  | String c t =>
      match t with
      | String h1 (String h2 _) =>
          (Py.ascii_eqb c "%"%char && Py.is_hex h1 && Py.is_hex h2)%bool
      | _ => false
      end || has_percent_escape t
  end.

(** The replacements that escape a URL the way Excel does. *)
Definition escape_url (url : string) : string :=
  let url := Py.replace "%" "%25" url in
  let url := Py.replace Py.dquote_str "%22" url in
  let url := Py.replace " " "%20" url in
  let url := Py.replace "<" "%3c" url in
  let url := Py.replace ">" "%3e" url in
  let url := Py.replace "[" "%5b" url in
  let url := Py.replace "]" "%5d" url in
  let url := Py.replace "^" "%5e" url in
  let url := Py.replace "`" "%60" url in
  let url := Py.replace "{" "%7b" url in
  let url := Py.replace "}" "%7d" url in
  url.

(** [s.split('#')]: the pieces between the separators. *)
Fixpoint split_hash (s : string) (piece : string) : list string :=
  match s with
  | EmptyString => [Py.rev_string piece]
  | String c t =>
      if Py.ascii_eqb c "#"%char
      then Py.rev_string piece :: split_hash t EmptyString
      else split_hash t (String c piece)
  end.

(** [re.match('\w:', url) or re.match(r'\\', url)]: a drive letter or a
    network share. *)
Definition is_nonlocal_path (url : string) : bool :=
  match url with
  | String a (String b _) =>
      ((Py.is_word a && Py.ascii_eqb b ":"%char) || Py.ascii_eqb a "\"%char)%bool
  | String a EmptyString => Py.ascii_eqb a "\"%char
  | EmptyString => false
  end.

(** The first part of [write_url], before the bounds check: the link
    type, the URL without its scheme, and the displayed string. *)
Definition url_prepare (url : string) (string_ : option string)
    : string * string * Z :=
  (* Default link type such as http://. *)
  let link_type := 1 in
  (* Remove the URI scheme from internal links. *)
  let '(url, link_type) :=
    if Py.startswith "internal:" url
    then (Py.replace "internal:" "" url, 2) else (url, link_type) in
  (* Remove the URI scheme from external links. *)
  let '(url, link_type) :=
    if Py.startswith "external:" url
    then (Py.replace "external:" "" url, 3) else (url, link_type) in
  (* Set the displayed string to the URL unless defined by the user. *)
  let string_ := match string_ with Some s => s | None => url end in
  (* For external links change the directory separator from Unix to Dos. *)
  let '(url, string_) :=
    if (link_type =? 3)%Z
    then (Py.replace "/" "\" url, Py.replace "/" "\" string_)
    else (url, string_) in
  (* Strip the mailto header. *)
  let string_ := Py.replace "mailto:" "" string_ in
  (url, string_, link_type).

(** The part of [write_url] between the two length checks: the escaped
    URL, the location string and the final link type. *)
Definition url_target (url string_ : string) (link_type : Z)
    : result (string * option string * Z) :=
  (* Copy string for use in hyperlink elements. *)
  let url_str := Some string_ in
  if (link_type =? 1)%Z then
    (* Escape URL unless it looks already escaped. *)
    let url := if negb (has_percent_escape url) then escape_url url else url in
    (* Ordinary URL style external links have no location string. *)
    Ok (url, None, link_type)
  else if (link_type =? 3)%Z then
    (* The part left of the # is the URL, the part right of it the
       location string.  With more than one # the assignment of the
       pieces raises ValueError inside the method; the wrapper of
       [convert_cell_args] catches it, takes the row for a cell name and
       the call ends in TypeError. *)
    let split :=
      if Py.contains_char (fun c => Py.ascii_eqb c "#"%char) url then
        match split_hash url EmptyString with
        | [a; b] => Ok (a, Some b)
        | _ => Raise "TypeError"
        end
      else Ok (url, None) in
    match split with
    | Raise e => Raise e
    | Ok (url, url_str) =>
        (* Add the file:/// URI to the url if non-local. *)
        let url := if is_nonlocal_path url then "file:///" ++ url else url in
        (* Convert a .\dir\file.xlsx link to dir\file.xlsx. *)
        let url := if Py.startswith ".\" url then Py.drop_str 2 url else url in
        (* Treat as a default external link now. *)
        Ok (url, url_str, 1)
    end
  else Ok (url, url_str, link_type).

(** [write_url] *)
Definition write_url (row col : Z) (url : string)
    (cell_format : option Format) (string_ : option string)
    (tip : option string) : M Z :=
  let '(url, string_, link_type) := url_prepare url string_ in
  (* Check that row and col are valid and store max and min values. *)
  err ← _check_dimensions row col false false;
  if truthy err then ret (-1) else
  (* Check that the string is < 32767 chars. *)
  let str_error := 0 in
  if (xls_strmax <? Py.len string_)%Z then ret (-2) else
  '(url, url_str, link_type) ← lift (url_target url string_ link_type);
  (* Excel limits escaped URL to 255 characters. *)
  if (255 <? Py.len url)%Z then ret (-3) else
  (* Check the limit of URLS per worksheet. *)
  modify (fun ws => set_hlink_count (hlink_count ws + 1) ws);;
  ws ← get id;
  if (65530 <? hlink_count ws)%Z then ret (-5) else
  (* Write previous row if in in-line string optimization mode. *)
  (if ((optimization ws =? 1)%Z && (previous_row ws <? row)%Z)%bool
   then _write_single_row row else ret tt);;
  (* Write the hyperlink string. *)
  write_string row col string_ cell_format;;
  (* Store the hyperlink data in a separate structure. *)
  modify (fun ws =>
    set_hyperlinks
      (<[row := <[col := {| link_type := link_type; url := url;
                            str := url_str; tip := tip |}]>
                  (default ∅ (hyperlinks ws !! row))]> (hyperlinks ws)) ws);;
  ret str_error.

(** *** Rich strings *)

(** An argument of [write_rich_string]: a format or a string. *)
Inductive rich_token : Type :=
  | RFormat (f : Format)
  | RText (s : string).

Definition is_format (t : rich_token) : bool :=
  match t with RFormat _ => true | RText _ => false end.

(** [Format()], the format with the default font. *)
Variable default_format : Format.

(** The loop that turns the tokens into fragments.  The state is
    [fragments], [previous == 'format'], [pos] and [str_length]; [None]
    is the [return -3] inside the loop. *)
Fixpoint rich_fragments (tokens : list rich_token)
    (st : list rich_token * bool * Z * Z)
    : option (list rich_token * Z) :=
  let '(fragments, previous_format, pos, str_length) := st in
  match tokens with
  | [] => Some (fragments, str_length)
  | token :: rest =>
      match token with
      | RText s =>
          let fragments :=
            if negb previous_format
            then (fragments ++ [RFormat default_format; token])%list
            else (fragments ++ [token])%list in
          rich_fragments rest (fragments, false, pos + 1, str_length + Py.len s)
      | RFormat _ =>
          (* Can't allow 2 formats in a row. *)
          if (previous_format && (0 <? pos)%Z)%bool then None
          else rich_fragments rest
                 ((fragments ++ [token])%list, true, pos + 1, str_length)
      end
  end.

(** The XML the temporary writer holds after the fragments are written.
    [_xml_start_tag('r')] writes [<r>] and [_xml_end_tag('r')] writes
    [</r>]. *)
Definition rich_fragment_xml (token : rich_token) : string :=
  match token with
  | RFormat f => "<r>" ++ font_xml f
  | RText s =>
      t_element_xml s (Py.starts_with_space s || Py.ends_with_space s)
      ++ "</r>"
  end.

Definition rich_xml (fragments : list rich_token) : string :=
  foldl (fun acc token => acc ++ rich_fragment_xml token) EmptyString
    fragments.

(** [write_rich_string] *)
Definition write_rich_string (row col : Z) (args : list rich_token) : M Z :=
  let tokens := args in
  let cell_format : option Format := None in
  (* Check that row and col are valid and store max and min values. *)
  err ← _check_dimensions row col false false;
  if truthy err then ret (-1) else
  (* If the last arg is a format we use it as the cell format. *)
  '(tokens, cell_format) ←
    match last tokens with
    | None => raise "IndexError"
    | Some (RFormat f) => ret (removelast tokens, Some f)
    | Some (RText _) => ret (tokens, cell_format)
    end;
  (* Create a temp XMLWriter object. *)
  modify (set_rstring EmptyString);;
  match rich_fragments tokens ([], true, 0, 0) with
  | None => ret (-3)
  | Some (fragments, str_length) =>
      (* If the first token is a string start the <r> element. *)
      first ←
        match fragments with
        | [] => raise "IndexError"
        | f :: _ => ret (if is_format f then EmptyString else "<r>")
        end;
      (* Write the XML elements for the format string fragments. *)
      modify (set_rstring (first ++ rich_xml fragments));;
      (* Read the in-memory string. *)
      string_ ← get rstring;
      (* Check that the string is < 32767 chars. *)
      if (xls_strmax <? str_length)%Z then ret (-2) else
      (* Write a shared string or an in-line string in optimisation mode. *)
      ws ← get id;
      string_index ←
        (if (optimization ws =? 0)%Z then
           let '(i, t) :=
             SharedStrings._get_shared_string_index (str_table ws) string_ in
           modify (set_str_table t);; ret (SIndex i)
         else ret (SText string_));
      (* Write previous row if in in-line string optimization mode. *)
      flush_previous_row row;;
      (* Store the cell data in the worksheet data table. *)
      store_cell row col (String_ string_index cell_format);;
      ret 0
  end.

(** *** The generic write *)

(** The data [write] accepts: [None], a date or time, a number, or a
    string. *)
Inductive token : Type :=
  | TNone
  | TDatetime (d : Datetime.dt_obj)
  | TNumber (q : Q)
  | TString (s : string).

(** [re.match('[fh]tt?ps?://', token)] *)
Definition is_web_url (s : string) : bool :=
  match s with
  | String c t =>
      if (Py.ascii_eqb c "f"%char || Py.ascii_eqb c "h"%char)%bool then
        if Py.startswith "t" t then
          let t := Py.drop_str 1 t in
          let t := if Py.startswith "t" t then Py.drop_str 1 t else t in
          if Py.startswith "p" t then
            let t := Py.drop_str 1 t in
            let t := if Py.startswith "s" t then Py.drop_str 1 t else t in
            Py.startswith "://" t
          else false
        else false
      else false
  | EmptyString => false
  end.

(** The string-typed part of [write]: the token is not a date and
    [float(token)] has been tried first. *)
Definition write_text (row col : Z) (s : string)
    (cell_format : option Format) : M Z :=
  match py_float s with
  | Some q => write_number row col q cell_format
  | None =>
      if bool_decide (s = EmptyString) then write_blank row col cell_format
      else if Py.startswith "=" s
      then write_formula row col s cell_format (FNum 0)
      else if (Py.startswith "{" s && Py.endswith "}" s)%bool
      then write_formula row col s cell_format (FNum 0)
      else if is_web_url s
      then write_url row col s cell_format None None
      else if Py.startswith "mailto:" s
      then write_url row col s cell_format None None
      else if (Py.startswith "internal:" s || Py.startswith "external:" s)%bool
      then write_url row col s cell_format None None
      else write_string row col s cell_format
  end.

(** [write] with a token and a format. *)
Definition write (row col : Z) (tok : token)
    (cell_format : option Format) : M Z :=
  match tok with
  | TDatetime d => write_datetime row col d cell_format
  | TNumber q => write_number row col q cell_format
  (* Convert None to an empty string and thus a blank cell. *)
  | TNone => write_text row col EmptyString cell_format
  | TString s => write_text row col s cell_format
  end.

(** *** Merged ranges *)


(** *** Typed writes as data *)

(** A call of one of the typed write methods. *)
Inductive write_op : Type :=
  | WString (row col : Z) (s : string) (f : option Format)
  | WNumber (row col : Z) (q : Q) (f : option Format)
  | WBlank (row col : Z) (f : option Format)
  | WFormula (row col : Z) (formula : string) (f : option Format) (v : fvalue)
  | WArrayFormula (first_row first_col last_row last_col : Z)
      (formula : string) (f : option Format) (v : fvalue)
  | WDatetime (row col : Z) (d : Datetime.dt_obj) (f : option Format)
  | WUrl (row col : Z) (url : string) (f : option Format)
      (s : option string) (tip : option string)
  | WRichString (row col : Z) (args : list rich_token).

Definition run_op (op : write_op) : M Z :=
  match op with
  | WString row col s f => write_string row col s f
  | WNumber row col q f => write_number row col q f
  | WBlank row col f => write_blank row col f
  | WFormula row col formula f v => write_formula row col formula f v
  | WArrayFormula r1 c1 r2 c2 formula f v =>
      write_array_formula r1 c1 r2 c2 formula f v
  | WDatetime row col d f => write_datetime row col d f
  | WUrl row col u f s tip => write_url row col u f s tip
  | WRichString row col args => write_rich_string row col args
  end.

End Worksheet.

(** ** Rows and columns of data *)

Section Bulk.

Variable py_float : string -> option Q.

(** [write_row]: the loop returns the result of the first write that is
    not 0. *)
Fixpoint write_row (row col : Z) (data : list token)
    (cell_format : option Format) : M Z :=
  match data with
  | [] => ret 0
  | token :: rest =>
      error ← write py_float row col token cell_format;
      if truthy error then ret error
      else write_row row (col + 1) rest cell_format
  end.

(** [write_column] *)
Fixpoint write_column (row col : Z) (data : list token)
    (cell_format : option Format) : M Z :=
  match data with
  | [] => ret 0
  | token :: rest =>
      error ← write py_float row col token cell_format;
      if truthy error then ret error
      else write_column (row + 1) col rest cell_format
  end.

End Bulk.

(** ** Merged cells in the output *)

(** [_write_merge_cell] *)
Definition _write_merge_cell (merged_range : Z * Z * Z * Z) : M unit :=
  let '(row_min, col_min, row_max, col_max) := merged_range in
  (* Convert the merge dimensions to a cell range. *)
  let cell_1 := Utility.xl_rowcol_to_cell row_min col_min in
  let cell_2 := Utility.xl_rowcol_to_cell row_max col_max in
  let ref := cell_1 ++ ":" ++ cell_2 in
  emit (xml_empty_tag "mergeCell" [("ref", AStr ref)]).

(** [_write_merge_cells] *)
Definition _write_merge_cells : M unit :=
  merged_cells ← get merge;
  let count := Z.of_nat (length merged_cells) in
  if negb (truthy count) then ret tt else
  emit (xml_start_tag "mergeCells" [("count", AInt count)]);;
  for_each merged_cells _write_merge_cell;;
  emit (xml_end_tag "mergeCells").

(** ** Conditional formats: synthesized formulas *)

Module CondFormat.

Fixpoint assoc (k : string) (l : list (string * string)) : option string :=
  match l with
  | [] => None
  | (k', v) :: rest => if String.eqb k k' then Some v else assoc k rest
  end.

(** The [valid_type] table of [conditional_format]. *)
Definition valid_type : list (string * string) :=
  [("cell", "cellIs"); ("date", "date"); ("time", "time");
   ("average", "aboveAverage"); ("duplicate", "duplicateValues");
   ("unique", "uniqueValues"); ("top", "top10"); ("bottom", "top10");
   ("text", "text"); ("time_period", "timePeriod");
   ("blanks", "containsBlanks"); ("no_blanks", "notContainsBlanks");
   ("errors", "containsErrors"); ("no_errors", "notContainsErrors");
   ("2_color_scale", "2_color_scale"); ("3_color_scale", "3_color_scale");
   ("data_bar", "dataBar"); ("formula", "expression")].

(** The [criteria_type] table. *)
Definition criteria_type : list (string * string) :=
  [("between", "between"); ("not between", "notBetween");
   ("equal to", "equal"); ("=", "equal"); ("==", "equal");
   ("not equal to", "notEqual"); ("!=", "notEqual"); ("<>", "notEqual");
   ("greater than", "greaterThan"); (">", "greaterThan");
   ("less than", "lessThan"); ("<", "lessThan");
   ("greater than or equal to", "greaterThanOrEqual");
   (">=", "greaterThanOrEqual");
   ("less than or equal to", "lessThanOrEqual"); ("<=", "lessThanOrEqual");
   ("containing", "containsText"); ("not containing", "notContains");
   ("begins with", "beginsWith"); ("ends with", "endsWith");
   ("yesterday", "yesterday"); ("today", "today");
   ("last 7 days", "last7Days"); ("last week", "lastWeek");
   ("this week", "thisWeek"); ("continue week", "continueWeek");
   ("last month", "lastMonth"); ("this month", "thisMonth");
   ("continue month", "continueMonth")].

(** The keys of the [options] dictionary the formula depends on. *)
Record options : Type := {
  o_type : option string;
  o_criteria : option string;
  o_value : option string }.

(** [options[key]]: KeyError when the key is missing. *)
Definition require (o : option string) : result string :=
  match o with Some v => Ok v | None => Raise "KeyError" end.

(** The formula for a [text] rule; [None] when the criteria is not a text
    criteria (a warning, no formula). *)
Definition text_formula (criteria value start_cell : string) : option string :=
  let q := Py.dquote_str in
  if String.eqb criteria "containsText" then
    Some ("NOT(ISERROR(SEARCH(" ++ q ++ value ++ q ++ "," ++ start_cell ++ ")))")
  else if String.eqb criteria "notContains" then
    Some ("ISERROR(SEARCH(" ++ q ++ value ++ q ++ "," ++ start_cell ++ "))")
  else if String.eqb criteria "beginsWith" then
    Some ("LEFT(" ++ start_cell ++ "," ++ Py.str_of_Z (Py.len value) ++ ")="
          ++ q ++ value ++ q)
  else if String.eqb criteria "endsWith" then
    Some ("RIGHT(" ++ start_cell ++ "," ++ Py.str_of_Z (Py.len value) ++ ")="
          ++ q ++ value ++ q)
  else None.

(** The formula for a [timePeriod] rule. *)
Definition time_period_formula (criteria start_cell : string) : option string :=
  let c := start_cell in
  if String.eqb criteria "yesterday" then
    Some ("FLOOR(" ++ c ++ ",1)=TODAY()-1")
  else if String.eqb criteria "today" then
    Some ("FLOOR(" ++ c ++ ",1)=TODAY()")
  else if String.eqb criteria "tomorrow" then
    Some ("FLOOR(" ++ c ++ ",1)=TODAY()+1")
  else if String.eqb criteria "last7Days" then
    Some ("AND(TODAY()-FLOOR(" ++ c ++ ",1)<=6,FLOOR(" ++ c ++ ",1)<=TODAY())")
  else if String.eqb criteria "lastWeek" then
    Some ("AND(TODAY()-ROUNDDOWN(" ++ c ++ ",0)>=(WEEKDAY(TODAY())),"
          ++ "TODAY()-ROUNDDOWN(" ++ c ++ ",0)<(WEEKDAY(TODAY())+7))")
  else if String.eqb criteria "thisWeek" then
    Some ("AND(TODAY()-ROUNDDOWN(" ++ c ++ ",0)<=WEEKDAY(TODAY())-1,"
          ++ "ROUNDDOWN(" ++ c ++ ",0)-TODAY()<=7-WEEKDAY(TODAY()))")
  else if String.eqb criteria "continueWeek" then
    Some ("AND(ROUNDDOWN(" ++ c ++ ",0)-TODAY()>(7-WEEKDAY(TODAY())),"
          ++ "ROUNDDOWN(" ++ c ++ ",0)-TODAY()<(15-WEEKDAY(TODAY())))")
  else if String.eqb criteria "lastMonth" then
    Some ("AND(MONTH(" ++ c ++ ")=MONTH(TODAY())-1,OR(YEAR(" ++ c ++ ")=YEAR("
          ++ "TODAY()),AND(MONTH(" ++ c ++ ")=1,YEAR(A1)=YEAR(TODAY())-1)))")
  else if String.eqb criteria "thisMonth" then
    Some ("AND(MONTH(" ++ c ++ ")=MONTH(TODAY()),YEAR(" ++ c
          ++ ")=YEAR(TODAY()))")
  else if String.eqb criteria "continueMonth" then
    Some ("AND(MONTH(" ++ c ++ ")=MONTH(TODAY())+1,OR(YEAR(" ++ c ++ ")=YEAR("
          ++ "TODAY()),AND(MONTH(" ++ c ++ ")=12,YEAR(" ++ c
          ++ ")=YEAR(TODAY())+1)))")
  else None.

(** The part of [conditional_format] that sets [options['formula']]: the
    two corners are checked against the bounds of the sheet, the type
    and criteria are translated by the two tables, the range is put in
    order, and the formula is written for the first cell of the range.
    The result is the synthesized formula, [None] when the rule is
    rejected (the method returns -1 or -2) or its kind has no formula.
    The record [options] has no other keys, so the test for an unknown
    parameter never fails. *)
Definition conditional_format (first_row first_col last_row last_col : Z)
    (opts : options) : result (option string) :=
  (* Check that row and col are valid without storing the values. *)
  if ((xls_rowmax <=? first_row)%Z || (xls_colmax <=? first_col)%Z)%bool
  then Ok None else
  if ((xls_rowmax <=? last_row)%Z || (xls_colmax <=? last_col)%Z)%bool
  then Ok None else
  match o_type opts with
  | None => Ok None
  | Some ty =>
      match assoc ty valid_type with
      | None => Ok None
      | Some ty =>
          let criteria :=
            match o_criteria opts with
            | Some c => Some (default c (assoc c criteria_type))
            | None => None
            end in
          (* Swap last row/col for first row/col as necessary. *)
          let first_row := if (last_row <? first_row)%Z then last_row else first_row in
          let first_col := if (last_col <? first_col)%Z then last_col else first_col in
          let start_cell := Utility.xl_rowcol_to_cell first_row first_col in
          if String.eqb ty "text" then
            match require criteria with
            | Raise e => Raise e
            | Ok criteria =>
                if (String.eqb criteria "containsText"
                    || String.eqb criteria "notContains"
                    || String.eqb criteria "beginsWith"
                    || String.eqb criteria "endsWith")%bool
                then
                  match require (o_value opts) with
                  | Raise e => Raise e
                  | Ok value => Ok (text_formula criteria value start_cell)
                  end
                else Ok None
            end
          else if String.eqb ty "timePeriod" then
            match require criteria with
            | Raise e => Raise e
            | Ok criteria => Ok (time_period_formula criteria start_cell)
            end
          else if String.eqb ty "containsBlanks" then
            Ok (Some ("LEN(TRIM(" ++ start_cell ++ "))=0"))
          else if String.eqb ty "notContainsBlanks" then
            Ok (Some ("LEN(TRIM(" ++ start_cell ++ "))>0"))
          else if String.eqb ty "containsErrors" then
            Ok (Some ("ISERROR(" ++ start_cell ++ ")"))
          else if String.eqb ty "notContainsErrors" then
            Ok (Some ("NOT(ISERROR(" ++ start_cell ++ "))"))
          else Ok None
      end
  end.

(** *** Cell references of a formula *)

Definition is_alnum (c : ascii) : bool :=
  (Py.is_upper c || Py.is_lower c || Py.is_digit c)%bool.

Fixpoint all_chars (P : ascii -> bool) (s : string) : bool :=
  match s with
  | EmptyString => true
  | String c t => (P c && all_chars P t)%bool
  end.

Fixpoint drop_while (P : ascii -> bool) (s : string) : string :=
  match s with
  | String c t => if P c then drop_while P t else s
  | EmptyString => EmptyString
  end.

(** A word is a cell reference when it is capital letters followed by
    digits, at least one of each. *)
Definition is_cell_name (w : string) : bool :=
  let digits := drop_while Py.is_upper w in
  (negb (String.eqb digits w) && negb (String.eqb digits EmptyString)
   && all_chars Py.is_digit digits)%bool.

(** The cell references of a formula, from left to right: the words made
    of letters and digits that are cell names, outside string literals
    and not followed by an opening bracket (a function name).  [word] is
    the current word, reversed; [in_str] is set inside a literal. *)
Fixpoint cell_refs_go (s : string) (word : string) (in_str : bool)
    : list string :=
  let close (next_is_paren : bool) :=
    let w := Py.rev_string word in
    if (is_cell_name w && negb next_is_paren)%bool then [w] else [] in
  match s with
  | EmptyString => close false
  | String c t =>
      if in_str then cell_refs_go t EmptyString (negb (Py.is_quote c))
      else if Py.is_quote c then (close false ++ cell_refs_go t EmptyString true)%list
      else if is_alnum c then cell_refs_go t (String c word) false
      else (close (Py.ascii_eqb c "("%char) ++ cell_refs_go t EmptyString false)%list
  end.

Definition cell_refs (formula : string) : list string :=
  cell_refs_go formula EmptyString false.

(** The cell references of the formula a rule gets. *)
Definition rule_refs (first_row first_col last_row last_col : Z)
    (opts : options) : list string :=
  match conditional_format first_row first_col last_row last_col opts with
  | Ok (Some formula) => cell_refs formula
  | _ => []
  end.

End CondFormat.

(** ** Page breaks *)

Module PageBreaks.

(** [_sort_pagebreaks]: the bare [return] on an empty list is [None].
    The breaks are integers; [list(breaks_set)] followed by [sort()] is
    the sorted list of the elements of the set. *)
Definition _sort_pagebreaks (breaks : list Z) : option (list Z) :=
  if bool_decide (breaks = []) then None else
  let breaks_set : gset Z := list_to_set breaks in
  let breaks_set :=
    if bool_decide (0 ∈ breaks_set) then breaks_set ∖ {[0]} else breaks_set in
  let breaks_list := merge_sort Z.le (elements breaks_set) in
  (* The Excel 2007 specification says that the maximum number of page
     breaks is 1026. However, in practice it is actually 1023. *)
  let max_num_breaks := 1023%nat in
  let breaks_list :=
    if (max_num_breaks <? length breaks_list)%nat
    then take max_num_breaks breaks_list else breaks_list in
  Some breaks_list.

(** [_write_brk] *)
Definition _write_brk (brk_id brk_max : Z) : M unit :=
  emit (xml_empty_tag "brk"
          [("id", AInt brk_id); ("max", AInt brk_max); ("man", AInt 1)]).

(** [_write_row_breaks]; [hbreaks] is the attribute that
    [set_h_pagebreaks] assigns.  [if not page_breaks] holds for [None]
    and for the empty list. *)
Definition _write_row_breaks (hbreaks : list Z) : M unit :=
  match _sort_pagebreaks hbreaks with
  | None | Some [] => ret tt
  | Some page_breaks =>
      let count := Z.of_nat (length page_breaks) in
      let attributes : attributes :=
        [("count", AInt count); ("manualBreakCount", AInt count)] in
      emit (xml_start_tag "rowBreaks" attributes);;
      for_each page_breaks (fun row_num => _write_brk row_num 16383);;
      emit (xml_end_tag "rowBreaks")
  end.

(** [_write_col_breaks]; [vbreaks] is the attribute that
    [set_v_pagebreaks] assigns. *)
Definition _write_col_breaks (vbreaks : list Z) : M unit :=
  match _sort_pagebreaks vbreaks with
  | None | Some [] => ret tt
  | Some page_breaks =>
      let count := Z.of_nat (length page_breaks) in
      let attributes : attributes :=
        [("count", AInt count); ("manualBreakCount", AInt count)] in
      emit (xml_start_tag "colBreaks" attributes);;
      for_each page_breaks (fun col_num => _write_brk col_num 1048575);;
      emit (xml_end_tag "colBreaks")
  end.

End PageBreaks.

(** ** Sheet protection *)

Module Protection.

(** ["%X" % n] for a number that is not negative. *)
Fixpoint hex_fuel (fuel : nat) (n : Z) (acc : string) : string :=
  match fuel with
  | O => acc
  | S fuel' =>
      let acc := String (Inline.hex_digit (Z.to_nat (n mod 16))) acc in
      if (n / 16 =? 0)%Z then acc else hex_fuel fuel' (n / 16) acc
  end.

Definition hex_upper (n : Z) : string :=
  hex_fuel (S (Z.to_nat (Z.log2 n))) n EmptyString.

(** The first loop of [_encode_password]: [i] counts the characters
    already seen. *)
Fixpoint password_digits (i : Z) (plaintext : string) : list Z :=
  match plaintext with
  | EmptyString => []
  | String c rest =>
      let i := i + 1 in
      let char := Z.shiftl (Z.of_nat (nat_of_ascii c)) i in
      let low_15 := Z.land char 0x7fff in
      let high_15 := Z.land char (Z.shiftl 0x7fff 15) in
      let high_15 := Z.shiftr high_15 15 in
      let char := Z.lor low_15 high_15 in
      char :: password_digits i rest
  end.

(** The value of [password_hash] when [_encode_password] returns. *)
Definition password_hash (plaintext : string) : Z :=
  let count := Py.len plaintext in
  let digits := password_digits 0 plaintext in
  let password_hash := foldl Z.lxor 0 digits in
  let password_hash := Z.lxor password_hash count in
  Z.lxor password_hash 0xCE4B.

(** [_encode_password] *)
Definition _encode_password (plaintext : string) : string :=
  hex_upper (password_hash plaintext).

End Protection.

(** ** Autofilters

    The autofilter methods read and write attributes of the worksheet
    that no other modelled method touches; the model keeps them in a
    record of their own, with the sheet name and the output. *)

Module Autofilter.

Record sheet : Type := {
  name : string;
  autofilter_area : string;
  autofilter_ref : option string;
  filter_range : list Z;
  filter_on : Z;
  filter_cols : gmap Z (list pval);
  filter_type : gmap Z Z;
  fh : list xml_call }.

(** The attributes as [__init__] sets them, for a sheet of the given
    name. *)
Definition new_sheet (name : string) : sheet :=
  {| name := name; autofilter_area := EmptyString; autofilter_ref := None;
     filter_range := []; filter_on := 0; filter_cols := ∅;
     filter_type := ∅; fh := [] |}.

Definition set_fh (f : list xml_call) (st : sheet) : sheet :=
  {| name := name st; autofilter_area := autofilter_area st;
     autofilter_ref := autofilter_ref st; filter_range := filter_range st;
     filter_on := filter_on st; filter_cols := filter_cols st;
     filter_type := filter_type st; fh := f |}.

(** A method of the sheet: the state it leaves and its result. *)
Definition A (X : Type) : Type := sheet -> sheet * result X.

Definition emit (c : xml_call) : A unit :=
  fun st => (set_fh (fh st ++ [c])%list st, Ok tt).

(** Sequencing of two methods that return nothing. *)
Definition seq (m k : A unit) : A unit :=
  fun st =>
    match m st with
    | (st', Ok _) => k st'
    | (st', Raise e) => (st', Raise e)
    end.

Fixpoint for_each {X} (l : list X) (body : X -> A unit) : A unit :=
  match l with
  | [] => fun st => (st, Ok tt)
  | x :: rest => seq (body x) (for_each rest body)
  end.

(** [_quote_sheetname]; [re.match] tests the start of the name only. *)
Definition _quote_sheetname (sheetname : string) : string :=
  if (Py.startswith "Sheet" sheetname
      && match Py.first_char (Py.drop_str 5 sheetname) with
         | Some c => Py.is_digit c
         | None => false
         end)%bool
  then sheetname
  else "'" ++ sheetname ++ "'".

Section Externals.

(** [xl_col_to_name(col, col_abs)] and [xl_range] of the coordinate
    helpers, which are external collaborators. *)
Variable xl_col_to_name : Z -> bool -> string.
Variable xl_range : Z -> Z -> Z -> Z -> string.

(** [_convert_name_area] *)
Definition _convert_name_area (row_num_1 col_num_1 row_num_2 col_num_2 : Z)
    (st : sheet) : string :=
  (* Convert to A1 notation. *)
  let col_char_1 := xl_col_to_name col_num_1 true in
  let col_char_2 := xl_col_to_name col_num_2 true in
  let row_char_1 := "$" ++ Py.str_of_Z (row_num_1 + 1) in
  let row_char_2 := "$" ++ Py.str_of_Z (row_num_2 + 1) in
  (* We need to handle special cases that refer to rows or columns only. *)
  let '(range1, range2, row_col_only) :=
    if ((row_num_1 =? 0)%Z && (row_num_2 =? xls_rowmax - 1)%Z)%bool
    then (col_char_1, col_char_2, true)
    else if ((col_num_1 =? 0)%Z && (col_num_2 =? xls_colmax - 1)%Z)%bool
    then (row_char_1, row_char_2, true)
    else (col_char_1 ++ row_char_1, col_char_2 ++ row_char_2, false) in
  (* A repeated range is only written once (if it isn't a special case). *)
  let area :=
    if (String.eqb range1 range2 && negb row_col_only)%bool then range1
    else range1 ++ ":" ++ range2 in
  (* Build up the print area range "Sheet1!$A$1:$C$13". *)
  let sheetname := _quote_sheetname (name st) in
  sheetname ++ "!" ++ area.

(** [autofilter] *)
Definition autofilter (first_row first_col last_row last_col : Z) : A unit :=
  fun st =>
  (* Reverse max and min values if necessary. *)
  let '(first_row, last_row) :=
    if (last_row <? first_row)%Z then (last_row, first_row)
    else (first_row, last_row) in
  let '(first_col, last_col) :=
    if (last_col <? first_col)%Z then (last_col, first_col)
    else (first_col, last_col) in
  let area := _convert_name_area first_row first_col last_row last_col st in
  let ref := xl_range first_row first_col last_row last_col in
  ({| name := name st; autofilter_area := area; autofilter_ref := Some ref;
      filter_range := [first_col; last_col]; filter_on := filter_on st;
      filter_cols := filter_cols st; filter_type := filter_type st;
      fh := fh st |}, Ok tt).

End Externals.

(** The three assignments that end [filter_column_list], and, with type
    0, the [else] branch of [filter_column]. *)
Definition store_filter (col : Z) (filters : list pval) (type : Z)
    (st : sheet) : sheet :=
  {| name := name st; autofilter_area := autofilter_area st;
     autofilter_ref := autofilter_ref st; filter_range := filter_range st;
     filter_on := 1; filter_cols := <[col := filters]> (filter_cols st);
     filter_type := <[col := type]> (filter_type st); fh := fh st |}.

(** [self.filter_on = 1] *)
Definition store_filter_on (st : sheet) : sheet :=
  {| name := name st; autofilter_area := autofilter_area st;
     autofilter_ref := autofilter_ref st; filter_range := filter_range st;
     filter_on := 1; filter_cols := filter_cols st;
     filter_type := filter_type st; fh := fh st |}.

(** [filter_column_list] for a column given as a number.  The unpacking
    of [filter_range] raises ValueError unless it holds two columns. *)
Definition filter_column_list (col : Z) (filters : list pval) : A unit :=
  fun st =>
  if bool_decide (autofilter_area st = EmptyString) then (st, Ok tt) else
  match filter_range st with
  | [col_first; col_last] =>
      (* Reject column if it is outside filter range. *)
      if ((col <? col_first)%Z || (col_last <? col)%Z)%bool then (st, Ok tt)
      else (store_filter col filters 1 st, Ok tt)
  | _ => (st, Raise "ValueError")
  end.

(** [filter_column] for a column given as a number.  The parser raises
    IndexError on a criteria of fewer than three tokens, and on a Top or
    Bottom criteria ValueError when the count is not a number and
    TypeError when the type is not [items] or [%]. *)
Definition filter_column (col : Z) (criteria : string) : A unit :=
  fun st =>
  if bool_decide (autofilter_area st = EmptyString) then (st, Ok tt) else
  match filter_range st with
  | [col_first; col_last] =>
      (* Reject column if it is outside filter range. *)
      if ((col <? col_first)%Z || (col_last <? col)%Z)%bool then (st, Ok tt)
      else
        let tokens := Filter._extract_filter_tokens criteria in
        match Filter._parse_filter_expression tokens with
        | None => (st, Raise "IndexError, ValueError or TypeError")
        | Some tokens =>
            (* Excel handles single or double custom filters as default
               filters. *)
            match tokens with
            | [PInt 2; t1] =>
                (* Single equality. *)
                match filter_column_list col [t1] st with
                | (st', Ok _) => (store_filter_on st', Ok tt)
                | r => r
                end
            | [PInt 2; t1; PInt 1; PInt 2; t4] =>
                (* Double equality with "or" operator. *)
                match filter_column_list col [t1; t4] st with
                | (st', Ok _) => (store_filter_on st', Ok tt)
                | r => r
                end
            | _ =>
                (* Non default custom filter. *)
                (store_filter col tokens 0 st, Ok tt)
            end
        end
  | _ => (st, Raise "ValueError")
  end.

(** *** The autofilter in the output *)

(** A token as the value of an attribute: the parser gives strings, a
    list filter may hold numbers.  [None] is shown as the text the XML
    writer formats it to. *)
Definition token_attr (v : pval) : attr_val :=
  match v with
  | PInt n => AInt n
  | PStr s => AStr s
  | PNone => AStr "None"
  end.

Definition raise {X} (e : string) : A X := fun st => (st, Raise e).

(** The [operators] table of [_write_custom_filter]; a missing key is
    KeyError. *)
Definition custom_operators (operator : pval) : option string :=
  match operator with
  | PInt 1 => Some "lessThan"
  | PInt 2 => Some "equal"
  | PInt 3 => Some "lessThanOrEqual"
  | PInt 4 => Some "greaterThan"
  | PInt 5 => Some "notEqual"
  | PInt 6 => Some "greaterThanOrEqual"
  | PInt 22 => Some "equal"
  | _ => None
  end.

(** [_write_custom_filter] *)
Definition _write_custom_filter (operator val : pval) : A unit :=
  (* Convert the operator from a number to a descriptive string. *)
  match custom_operators operator with
  | None => raise "KeyError"
  | Some operator =>
      (* The equal operator is the default attribute and is not stored. *)
      let attributes : attributes :=
        if negb (String.eqb operator "equal")
        then [("operator", AStr operator)] else [] in
      emit (xml_empty_tag "customFilter"
              (attributes ++ [("val", token_attr val)])%list)
  end.

(** [tokens[i]]; IndexError when the list is too short. *)
Definition with_token (tokens : list pval) (i : nat) (k : pval -> A unit)
    : A unit :=
  match tokens !! i with
  | Some t => k t
  | None => raise "IndexError"
  end.

(** [_write_custom_filters] *)
Definition _write_custom_filters (tokens : list pval) : A unit :=
  if bool_decide (length tokens = 2%nat) then
    (* One filter expression only. *)
    seq (emit (xml_start_tag "customFilters" []))
      (seq (with_token tokens 0 (fun operator =>
              with_token tokens 1 (fun val =>
                _write_custom_filter operator val)))
         (emit (xml_end_tag "customFilters")))
  else
    (* Two filter expressions.  Check if the join operand is and or or. *)
    with_token tokens 2 (fun join =>
      let attributes : attributes :=
        match join with
        | PInt 0 => [("and", AInt 1)]
        | _ => [("and", AInt 0)]
        end in
      (* Write the two custom filters. *)
      seq (emit (xml_start_tag "customFilters" attributes))
        (seq (with_token tokens 0 (fun operator =>
                with_token tokens 1 (fun val =>
                  _write_custom_filter operator val)))
           (seq (with_token tokens 3 (fun operator =>
                   with_token tokens 4 (fun val =>
                     _write_custom_filter operator val)))
              (emit (xml_end_tag "customFilters"))))).

(** [_write_filter] *)
Definition _write_filter (val : pval) : A unit :=
  emit (xml_empty_tag "filter" [("val", token_attr val)]).

(** [_write_filters] *)
Definition _write_filters (filters : list pval) : A unit :=
  match filters with
  | [PStr "blanks"] =>
      (* Special case for blank cells only. *)
      emit (xml_empty_tag "filters" [("blank", AInt 1)])
  | _ =>
      (* General case. *)
      seq (emit (xml_start_tag "filters" []))
        (seq (for_each filters _write_filter)
           (emit (xml_end_tag "filters")))
  end.

(** [_write_filter_column] *)
Definition _write_filter_column (col_id filter_type : Z)
    (filters : list pval) : A unit :=
  seq (emit (xml_start_tag "filterColumn" [("colId", AInt col_id)]))
    (seq (if (filter_type =? 1)%Z
          then (* Type == 1 is the new XLSX style filter. *)
            _write_filters filters
          else (* Type == 0 is the classic custom filter. *)
            _write_custom_filters filters)
       (emit (xml_end_tag "filterColumn"))).

(** [_write_autofilters] *)
Definition _write_autofilters : A unit :=
  fun st =>
  match filter_range st with
  | [col1; col2] =>
      for_each (py_range col1 (col2 + 1)) (fun col st =>
        (* Skip if column does not have an active filter. *)
        match filter_cols st !! col with
        | None => (st, Ok tt)
        | Some tokens =>
            match filter_type st !! col with
            | None => (st, Raise "KeyError")
            | Some filter_type =>
                (* Filters are relative to first column in the
                   autofilter. *)
                _write_filter_column (col - col1) filter_type tokens st
            end
        end) st
  | _ => (st, Raise "ValueError")
  end.

(** [_write_auto_filter] *)
Definition _write_auto_filter : A unit :=
  fun st =>
  match autofilter_ref st with
  | None => (st, Ok tt)
  | Some ref =>
      if bool_decide (ref = EmptyString) then (st, Ok tt) else
      let attributes : attributes := [("ref", AStr ref)] in
      if negb (filter_on st =? 0)%Z then
        (* Autofilter defined active filters. *)
        seq (emit (xml_start_tag "autoFilter" attributes))
          (seq _write_autofilters (emit (xml_end_tag "autoFilter"))) st
      else
        (* Autofilter defined without active filters. *)
        emit (xml_empty_tag "autoFilter" attributes) st
  end.

End Autofilter.


(** ** Concrete externals for the worked examples *)

Module Example.

(** [float] on the integer literals; enough for the examples, whose other
    strings are not numbers. *)
Definition py_float (s : string) : option Q :=
  inject_Z <$> Py.int_of_string s.

Definition font_xml (f : Format) : string := "<rPr/>".

Definition t_element_xml (s : string) (preserve : bool) : string :=
  (if preserve then "<t xml:space=" ++ Py.dquote_str ++ "preserve"
                    ++ Py.dquote_str ++ ">"
   else "<t>") ++ s ++ "</t>".

Definition default_format : Format := {| xf_index := 0; dxf_index := 0 |}.

Definition bold : Format := {| xf_index := 1; dxf_index := 0 |}.

Definition run_op : write_op -> M Z :=
  run_op py_float font_xml t_element_xml default_format.

Fixpoint repeat_char (n : nat) (c : ascii) : string :=
  match n with
  | O => EmptyString
  | S k => String c (repeat_char k c)
  end.

(** A text of 32,768 characters and a URL of 307 characters. *)
Definition long_text : string := repeat_char 32768 "a"%char.

Definition long_url : string := "http://" ++ repeat_char 300 "a"%char.

(** A buffered and a streaming worksheet under the default epoch. *)
Definition buffered : worksheet := new_worksheet 0 false.

Definition streaming : worksheet := new_worksheet 1 false.

(** The streaming sheet after a number was written to row 5. *)
Definition streaming_row5 : worksheet :=
  (run_op (WNumber 5 0 1%Q None) streaming).1.

(** The coordinate helpers for the autofilter examples. *)
Definition xl_col_to_name (col : Z) (col_abs : bool) : string :=
  (if col_abs then "$" else "") ++ Utility.xl_col_to_name col.

Definition xl_range (first_row first_col last_row last_col : Z) : string :=
  Utility.xl_rowcol_to_cell first_row first_col ++ ":"
  ++ Utility.xl_rowcol_to_cell last_row last_col.

(** The sheet Sheet1 with an autofilter over rows 0 to 10 of columns 0
    to 3. *)
Definition filtered : Autofilter.sheet :=
  (Autofilter.autofilter xl_col_to_name xl_range 0 0 10 3
     (Autofilter.new_sheet "Sheet1")).1.

(** The filtered sheet with the criteria x == East on column 2. *)
Definition filtered_east : Autofilter.sheet :=
  (Autofilter.filter_column 2 "x == East" filtered).1.

(** A buffered sheet that holds the number 7 in cell (0, 1). *)
Definition numbered : worksheet :=
  (run_op (WNumber 0 1 7%Q None) buffered).1.

End Example.

(** ** Notions used by the statements *)

(** A coordinate beyond the last row or the last column. *)
Definition out_of_bounds (row col : Z) : Prop :=
  xls_rowmax <= row \/ xls_colmax <= col.

(** The coordinates a typed write names are out of bounds; an array
    formula names the two corners of its range. *)
Definition op_out_of_bounds (op : write_op) : Prop :=
  match op with
  | WString row col _ _ | WNumber row col _ _ | WBlank row col _
  | WFormula row col _ _ _ | WDatetime row col _ _
  | WUrl row col _ _ _ _ | WRichString row col _ => out_of_bounds row col
  | WArrayFormula r1 c1 r2 c2 _ _ _ =>
      out_of_bounds r1 c1 \/ out_of_bounds r2 c2
  end.

(** A [write_blank] call without a format. *)
Definition formatless_blank (op : write_op) : Prop :=
  match op with WBlank _ _ None => True | _ => False end.

(** *** The calls a row and its cells make on the XML writer

    The serializer functions are characterised by pure functions: the
    calls depend on the cell store, the row and column formats and the
    dimension, not on the calls made before. *)

(** A string cell the mode can write: in streaming mode the payload has to
    be the text. *)
Definition cell_ok (opt : Z) (c : cell) : bool :=
  match c with
  | String_ (SIndex _) _ => negb (truthy opt)
  | _ => true
  end.

Definition row_ok (opt : Z) (row : gmap Z cell) : Prop :=
  forall col c, row !! col = Some c -> cell_ok opt c = true.

Section Calls.

Variable py_float : string -> option Q.

(** The state after [_write_row]. *)
Definition row_tag (ws : worksheet) (row : Z) (spans : option string)
    (properties : option row_props) (empty_row : bool) : list xml_call :=
  fh (_write_row row spans properties empty_row (set_fh [] ws)).1.

(** The calls of [_write_cell]. *)
Definition cell_xml (ws : worksheet) (row col : Z) (c : cell) : list xml_call :=
  let attributes : attributes :=
    ([("r", AStr (Utility.xl_rowcol_to_cell row col))]
     ++ cell_style ws row col c)%list in
  let typed :=
    if value_is_float py_float
         (match c with
          | Formula _ _ v | ArrayFormula _ _ v _ => v
          | _ => FNum 0
          end)
    then attributes else (attributes ++ [("t", AStr "str")])%list in
  match c with
  | Number number _ => [xml_number_element number attributes]
  | String_ (SText s) _ =>
      if negb (truthy (optimization ws))
      then [xml_string_element (SText s) attributes]
      else if Inline.is_rich (Inline.escape s)
      then [xml_rich_inline_string (Inline.escape s) attributes]
      else [xml_inline_string (Inline.escape s)
              (Inline.preserve_flag (Inline.escape s)) attributes]
  | String_ (SIndex i) _ => [xml_string_element (SIndex i) attributes]
  | Formula formula _ value => [xml_formula_element formula value typed]
  | ArrayFormula formula _ value range =>
      [xml_start_tag "c" typed;
       xml_data_element "f" (FStr formula)
         [("t", AStr "array"); ("ref", AStr range)];
       xml_data_element "v" value [];
       xml_end_tag "c"]
  | Blank _ => [xml_empty_tag "c" attributes]
  end.

(** The calls for the cells of a row that lie in the given columns. *)
Definition cells_xml (ws : worksheet) (row_num : Z) (cols : list Z)
    : list xml_call :=
  flat_map (fun col_num =>
              match table_row ws row_num !! col_num with
              | Some c => cell_xml ws row_num col_num c
              | None => []
              end) cols.

(** The calls for a row: nothing for a row without cells, row properties
    or comments. *)
Definition row_xml (ws : worksheet) (row_num : Z) (span : option string)
    (cols : list Z) : list xml_call :=
  if (bool_decide (is_Some (set_rows ws !! row_num))
      || bool_decide (is_Some (comments ws !! row_num))
      || nonempty (table_row ws row_num))%bool
  then
    if nonempty (table_row ws row_num) then
      (row_tag ws row_num span (set_rows ws !! row_num) false
       ++ cells_xml ws row_num cols ++ [xml_end_tag "row"])%list
    else row_tag ws row_num span (set_rows ws !! row_num) true
  else [].

(** The columns of the dimension. *)
Definition dim_cols (ws : worksheet) : list Z :=
  match dim_colmin ws, dim_colmax ws with
  | Some lo, Some hi => py_range lo (hi + 1)
  | _, _ => []
  end.

(** The state [_write_single_row] leaves. *)
Definition flushed (current_row_num : Z) (ws : worksheet) : worksheet :=
  set_table ∅
    (set_fh (fh ws ++ row_xml ws (previous_row ws) None (dim_cols ws))%list
       (set_previous_row current_row_num ws)).

End Calls.

(** The state a successful [_check_dimensions] leaves: the dimension is
    widened to hold the row and the column. *)
Definition widen_lo (x : Z) (m : option Z) : option Z :=
  match m with
  | None => Some x
  | Some m => if (x <? m)%Z then Some x else Some m
  end.

Definition widen_hi (x : Z) (m : option Z) : option Z :=
  match m with
  | None => Some x
  | Some m => if (m <? x)%Z then Some x else Some m
  end.

Definition widened (row col : Z) (ws : worksheet) : worksheet :=
  set_dim_col (widen_lo col (dim_colmin ws)) (widen_hi col (dim_colmax ws))
    (set_dim_row (widen_lo row (dim_rowmin ws)) (widen_hi row (dim_rowmax ws))
       ws).

(** The dimension of the sheet holds the coordinate. *)
Definition covers (row col : Z) (ws : worksheet) : Prop :=
  widen_lo row (dim_rowmin ws) = dim_rowmin ws
  /\ widen_hi row (dim_rowmax ws) = dim_rowmax ws
  /\ widen_lo col (dim_colmin ws) = dim_colmin ws
  /\ widen_hi col (dim_colmax ws) = dim_colmax ws.

(** The row and column are inside the sheet. *)
Definition in_bounds (row col : Z) : Prop :=
  row < xls_rowmax /\ col < xls_colmax.

(** *** The effect of a typed write

    A typed write checks one coordinate, decides from its arguments
    whether it stores a cell, and then stores it.  The decision is a pure
    function of the arguments. *)

(** The coordinate the write hands to [_check_dimensions]: for an array
    formula the last row and column of the range. *)
Definition op_check (op : write_op) : Z * Z :=
  match op with
  | WString row col _ _ | WNumber row col _ _ | WBlank row col _
  | WFormula row col _ _ _ | WDatetime row col _ _
  | WUrl row col _ _ _ _ | WRichString row col _ => (row, col)
  | WArrayFormula r1 c1 r2 c2 _ _ _ => (Z.max r1 r2, Z.max c1 c2)
  end.

(** The cell the write stores into: for an array formula the first row
    and column of the range. *)
Definition op_anchor (op : write_op) : Z * Z :=
  match op with
  | WString row col _ _ | WNumber row col _ _ | WBlank row col _
  | WFormula row col _ _ _ | WDatetime row col _ _
  | WUrl row col _ _ _ _ | WRichString row col _ => (row, col)
  | WArrayFormula r1 c1 r2 c2 _ _ _ => (Z.min r1 r2, Z.min c1 c2)
  end.

(** An array formula over one cell; every other write names one cell. *)
Definition single_cell (op : write_op) : Prop :=
  match op with
  | WArrayFormula r1 c1 r2 c2 _ _ _ => r1 = r2 /\ c1 = c2
  | _ => True
  end.

(** What a write does once its coordinate is accepted.  [count] is added
    to the hyperlink count, [rs] replaces the rich string buffer; a stored
    string cell carries its text. *)
Inductive effect : Type :=
  | Skips
  | Fails (r : result Z) (count : Z) (rs : option string)
  | Stores (c : cell) (rc : Z) (count : Z) (rs : option string)
      (link : option hyperlink).

Definition truncated (s : string) : string * Z :=
  if (xls_strmax <? Py.len s)%Z
  then (Py.take_str (Z.to_nat xls_strmax) s, -2) else (s, 0).

Definition array_effect (first_row first_col last_row last_col : Z)
    (formula : string) (f : option Format) (v : fvalue) : effect :=
  match strip_array_formula formula with
  | Raise e => Fails (Raise e) 0 None
  | Ok formula' =>
      Stores (ArrayFormula formula' f v
                (array_range first_row first_col last_row last_col))
        0 0 None None
  end.

Section Effects.

Variable py_float : string -> option Q.
Variable font_xml : Format -> string.
Variable t_element_xml : string -> bool -> string.
Variable default_format : Format.

Definition rich_effect (args : list rich_token) : effect :=
  match last args with
  | None => Fails (Raise "IndexError") 0 None
  | Some l =>
      let '(tokens, cell_format) :=
        match l with
        | RFormat f => (removelast args, Some f)
        | RText _ => (args, None)
        end in
      match rich_fragments default_format tokens ([], true, 0, 0) with
      | None => Fails (Ok (-3)) 0 (Some EmptyString)
      | Some (fragments, str_length) =>
          match fragments with
          | [] => Fails (Raise "IndexError") 0 (Some EmptyString)
          | f :: _ =>
              let xml :=
                (if is_format f then EmptyString else "<r>")
                ++ rich_xml font_xml t_element_xml fragments in
              if (xls_strmax <? str_length)%Z
              then Fails (Ok (-2)) 0 (Some xml)
              else Stores (String_ (SText xml) cell_format) 0 0 (Some xml) None
          end
      end
  end.

Definition url_effect (ws : worksheet) (url : string) (f : option Format)
    (string_ : option string) (tip : option string) : effect :=
  let '(url, string_, link_type) := url_prepare url string_ in
  if (xls_strmax <? Py.len string_)%Z then Fails (Ok (-2)) 0 None else
  match url_target url string_ link_type with
  | Raise e => Fails (Raise e) 0 None
  | Ok (url, url_str, link_type) =>
      if (255 <? Py.len url)%Z then Fails (Ok (-3)) 0 None
      else if (65530 <? hlink_count ws + 1)%Z then Fails (Ok (-5)) 1 None
      else Stores (String_ (SText string_) f) 0 1 None
             (Some {| link_type := link_type; url := url; str := url_str;
                      tip := tip |})
  end.

Definition op_effect (op : write_op) (ws : worksheet) : effect :=
  match op with
  | WString _ _ s f =>
      Stores (String_ (SText (truncated s).1) f) (truncated s).2 0 None None
  | WNumber _ _ q f => Stores (Number q f) 0 0 None None
  | WBlank _ _ None => Skips
  | WBlank _ _ (Some f) => Stores (Blank (Some f)) 0 0 None None
  | WFormula row col formula f v =>
      if (Py.startswith "{" formula && Py.endswith "}" formula)%bool
      then array_effect row col row col formula f v
      else Stores (Formula (if Py.startswith "=" formula
                            then Py.lstrip_char "="%char formula
                            else formula) f v) 0 0 None None
  | WArrayFormula r1 c1 r2 c2 formula f v =>
      array_effect (Z.min r1 r2) (Z.min c1 c2) (Z.max r1 r2) (Z.max c1 c2)
        formula f v
  | WDatetime _ _ d f =>
      Stores (Number (DateModel._convert_date_time (date_1904 ws) d) f)
        0 0 None None
  | WUrl _ _ u f s tip => url_effect ws u f s tip
  | WRichString _ _ args => rich_effect args
  end.

(** The bookkeeping of a write outside the cell store. *)
Definition bump (count : Z) (rs : option string) (ws : worksheet) : worksheet :=
  set_rstring (default (rstring ws) rs)
    (set_hlink_count (hlink_count ws + count) ws).

(** A string cell gets its shared string index in buffered mode. *)
Definition intern (c : cell) (ws : worksheet) : cell * worksheet :=
  match c with
  | String_ (SText s) f =>
      if (optimization ws =? 0)%Z then
        (String_ (SIndex (SharedStrings._get_shared_string_index
                            (str_table ws) s).1) f,
         set_str_table (SharedStrings._get_shared_string_index
                          (str_table ws) s).2 ws)
      else (c, ws)
  | _ => (c, ws)
  end.

(** The buffered row is written out when the write starts a later row. *)
Definition flush_to (row : Z) (ws : worksheet) : worksheet :=
  if (truthy (optimization ws) && (previous_row ws <? row)%Z)%bool
  then flushed py_float row ws else ws.

Definition stored (row col : Z) (c : cell) (ws : worksheet) : worksheet :=
  set_table (<[row := <[col := c]> (table_row ws row)]> (table ws)) ws.

Definition linked (row col : Z) (l : option hyperlink) (ws : worksheet)
    : worksheet :=
  match l with
  | Some h =>
      set_hyperlinks
        (<[row := <[col := h]> (default ∅ (hyperlinks ws !! row))]>
           (hyperlinks ws)) ws
  | None => ws
  end.

Definition apply_effect (row col : Z) (e : effect) (ws : worksheet)
    : worksheet * result Z :=
  match e with
  | Skips => (ws, Ok 0)
  | Fails r count rs => (bump count rs ws, r)
  | Stores c rc count rs link =>
      let ws := bump count rs ws in
      let ws' := flush_to row (intern c ws).2 in
      (linked row col link (stored row col (intern c ws).1 ws'), Ok rc)
  end.

(** The coordinate passes [_check_dimensions]. *)
Definition accepted (row col : Z) (ws : worksheet) : bool :=
  ((row <? xls_rowmax)%Z && (col <? xls_colmax)%Z
   && negb ((optimization ws =? 1)%Z && (row <? previous_row ws)%Z))%bool.

(** The typed write as a function: a format-less blank does nothing, a
    rejected coordinate gives -1, and an accepted one widens the
    dimension and has the effect of the write. *)
Definition run_spec (op : write_op) (ws : worksheet) : worksheet * result Z :=
  match op_effect op ws with
  | Skips => (ws, Ok 0)
  | e =>
      if accepted (op_check op).1 (op_check op).2 ws
      then apply_effect (op_anchor op).1 (op_anchor op).2 e
             (widened (op_check op).1 (op_check op).2 ws)
      else (ws, Ok (-1))
  end.

End Effects.

(** The cells of the store can be written in the mode of the sheet. *)
Definition sheet_ok (ws : worksheet) : Prop :=
  forall r, row_ok (optimization ws) (table_row ws r).

(** The sheet is in buffered or in streaming mode. *)
Definition mode_ok (ws : worksheet) : Prop :=
  optimization ws = 0 \/ optimization ws = 1.

(** The content of the sheet is the same: cell store, hyperlinks, merged
    ranges, shared strings, written rows and the row being buffered. *)
Definition same_content (ws ws' : worksheet) : Prop :=
  table ws' = table ws /\ hyperlinks ws' = hyperlinks ws
  /\ merge ws' = merge ws /\ fh ws' = fh ws
  /\ str_table ws' = str_table ws /\ previous_row ws' = previous_row ws.

Definition same_dimension (ws ws' : worksheet) : Prop :=
  dim_rowmin ws' = dim_rowmin ws /\ dim_rowmax ws' = dim_rowmax ws
  /\ dim_colmin ws' = dim_colmin ws /\ dim_colmax ws' = dim_colmax ws.

Definition is_write_string (op : write_op) : Prop :=
  match op with WString _ _ _ _ => True | _ => False end.

Definition is_url_or_rich (op : write_op) : Prop :=
  match op with
  | WUrl _ _ _ _ _ _ | WRichString _ _ _ => True
  | _ => False
  end.

(** The text of a string cell payload. *)
Definition string_text (ws : worksheet) (r : string_ref) : option string :=
  match r with
  | SText s => Some s
  | SIndex i => SharedStrings.text_of (str_table ws) i
  end.

(** At most the row being buffered has cells. *)
Definition one_row (ws : worksheet) : Prop :=
  forall r, r <> previous_row ws -> table ws !! r = None.

(** A result with which a cell is stored: 0, or -2 from
    [write_string]. *)
Definition stores_result (op : write_op) (rc : Z) : Prop :=
  rc = 0 \/ (rc = -2 /\ is_write_string op).

(** Two sheets show the same rows: the fields the serializer reads, apart
    from the dimension, are the same. *)
Definition same_view (ws1 ws2 : worksheet) : Prop :=
  optimization ws1 = optimization ws2
  /\ excel_version ws1 = excel_version ws2
  /\ default_row_height ws1 = default_row_height ws2
  /\ table ws1 = table ws2 /\ set_rows ws1 = set_rows ws2
  /\ col_formats ws1 = col_formats ws2 /\ comments ws1 = comments ws2.


(** A cell of the range that is not its first cell. *)
Definition other_cell (first_row first_col last_row last_col r c : Z) : Prop :=
  first_row <= r <= last_row /\ first_col <= c <= last_col
  /\ (r <> first_row \/ c <> first_col).

(** The sheet once [merge_range] has checked the range and recorded it. *)
Definition noted (first_row first_col last_row last_col : Z) (ws : worksheet)
    : worksheet :=
  set_merge (merge ws ++ [(first_row, first_col, last_row, last_col)])%list
    (widened last_row first_col ws).

(** A formula text of which the removal of the braces and of the equals
    sign leaves nothing to index: the empty text and the texts of an
    opening brace, an equals sign, or both. *)
Definition only_braces (formula : string) : Prop :=
  formula = EmptyString \/ formula = "{" \/ formula = "=" \/ formula = "{=".

(** A cell of the range. *)
Definition in_range (first_row first_col last_row last_col r c : Z) : Prop :=
  first_row <= r <= last_row /\ first_col <= c <= last_col.

(** Everything but the cell store and the dimension is the same. *)
Definition same_apart_cells (ws ws' : worksheet) : Prop :=
  optimization ws' = optimization ws /\ fh ws' = fh ws
  /\ previous_row ws' = previous_row ws /\ merge ws' = merge ws
  /\ hyperlinks ws' = hyperlinks ws /\ hlink_count ws' = hlink_count ws
  /\ str_table ws' = str_table ws /\ rstring ws' = rstring ws.

(** The coordinate lies within the recorded dimension of the sheet. *)
Definition inside (row col : Z) (ws : worksheet) : Prop :=
  match dim_rowmin ws, dim_rowmax ws, dim_colmin ws, dim_colmax ws with
  | Some r1, Some r2, Some c1, Some c2 =>
      r1 <= row <= r2 /\ c1 <= col <= c2
  | _, _, _, _ => False
  end.

(** Every stored cell lies within the recorded dimension, which is the
    range of rows and columns the serializer walks. *)
Definition cells_inside (ws : worksheet) : Prop :=
  forall r c x, table_row ws r !! c = Some x -> inside r c ws.

(** The element a list of page breaks is written as: nothing for no
    break, else the breaks between a start tag that counts them and an
    end tag. *)
Definition breaks_xml (tag : string) (brk_max : Z) (page_breaks : list Z)
    : list xml_call :=
  match page_breaks with
  | [] => []
  | _ =>
      ([xml_start_tag tag
          [("count", AInt (Z.of_nat (length page_breaks)));
           ("manualBreakCount", AInt (Z.of_nat (length page_breaks)))]]
       ++ map (fun n => xml_empty_tag "brk"
                 [("id", AInt n); ("max", AInt brk_max); ("man", AInt 1)])
            page_breaks
       ++ [xml_end_tag tag])%list
  end.

(** One step of the first loop of [_encode_password]: the digit of the
    character code [c] at the position [i], counted from 1. *)
Definition password_digit (i c : Z) : Z :=
  Z.lor (Z.land (Z.shiftl c i) 0x7fff)
        (Z.shiftr (Z.land (Z.shiftl c i) (Z.shiftl 0x7fff 15)) 15).

(** Every character of the text passes the test. *)
Fixpoint all_chars (P : ascii -> bool) (s : string) : bool :=
  match s with
  | EmptyString => true
  | String c t => (P c && all_chars P t)%bool
  end.

(** The pattern [_xHHHH_] occurs nowhere in the text. *)
Fixpoint no_escape_pattern (s : string) : bool :=
  match s with
  | EmptyString => true
  | String _ t => (negb (Inline.escaped_prefix s) && no_escape_pattern t)%bool
  end.

(** A character outside the class of control characters that
    [_write_cell] escapes. *)
Definition printable (c : ascii) : bool := negb (Inline.is_control c).

(** The text of an in-line string call on the XML writer. *)
Definition inline_text (c : xml_call) : option string :=
  match c with
  | xml_inline_string s _ _ | xml_rich_inline_string s _ => Some s
  | _ => None
  end.

(** The [mergeCell] element of a merged range. *)
Definition merge_cell_xml (merged_range : Z * Z * Z * Z) : xml_call :=
  xml_empty_tag "mergeCell"
    [("ref", AStr (Utility.xl_rowcol_to_cell merged_range.1.1.1
                     merged_range.1.1.2 ++ ":"
                   ++ Utility.xl_rowcol_to_cell merged_range.1.2
                        merged_range.2))].

(** The [mergeCell] elements between the tags of a [mergeCells] element. *)
Definition merge_children (calls : list xml_call) : list xml_call :=
  match calls with
  | xml_start_tag "mergeCells" _ :: rest => removelast rest
  | _ => []
  end.

(** The [count] attribute of a [mergeCells] element. *)
Definition merge_count (calls : list xml_call) : option Z :=
  match calls with
  | xml_start_tag "mergeCells" [("count", AInt n)] :: _ => Some n
  | _ => None
  end.

(** The column name of a criteria starts like a Top or Bottom filter. *)
Definition names_top_or_bottom (x : string) : bool :=
  (Py.startswith "top" (Py.lower x) || Py.startswith "bottom" (Py.lower x))%bool.

(** The value of a criteria starts like Blanks or NonBlanks. *)
Definition names_blanks (v : string) : bool :=
  (Py.startswith "blanks" (Py.lower v)
   || Py.startswith "nonblanks" (Py.lower v))%bool.

(** What [filter_column] stores for the tokens of a criteria: the list
    of values and type 1 for an equality or two equalities joined by or,
    the tokens and type 0 for any other criteria. *)
Definition stored_filter (tokens : list pval) : list pval * Z :=
  match tokens with
  | [PInt 2; t1] => ([t1], 1)
  | [PInt 2; t1; PInt 1; PInt 2; t4] => ([t1; t4], 1)
  | _ => (tokens, 0)
  end.

(** The [customFilter] element of an operator code and a value; nothing
    for a code that is not in the table of [_write_custom_filter]. *)
Definition custom_filter_xml (operator val : pval) : option xml_call :=
  op ← Autofilter.custom_operators operator;
  Some (xml_empty_tag "customFilter"
          ((if negb (String.eqb op "equal")
            then [("operator", AStr op)] else [])
           ++ [("val", Autofilter.token_attr val)])%list).

(** The element of a column filter: a list filter (type 1) or the custom
    filter of one expression or of two joined expressions. *)
Definition filters_xml (filter_type : Z) (filters : list pval)
    : option (list xml_call) :=
  if (filter_type =? 1)%Z then
    Some (match filters with
          | [PStr "blanks"] => [xml_empty_tag "filters" [("blank", AInt 1)]]
          | _ =>
              ([xml_start_tag "filters" []]
               ++ map (fun v => xml_empty_tag "filter"
                                  [("val", Autofilter.token_attr v)]) filters
               ++ [xml_end_tag "filters"])%list
          end)
  else
    match filters with
    | [o; v] =>
        c ← custom_filter_xml o v;
        Some [xml_start_tag "customFilters" []; c;
              xml_end_tag "customFilters"]
    | [o1; v1; join; o2; v2] =>
        a ← custom_filter_xml o1 v1;
        b ← custom_filter_xml o2 v2;
        Some [xml_start_tag "customFilters"
                [("and", AInt (match join with PInt 0 => 1 | _ => 0 end))];
              a; b; xml_end_tag "customFilters"]
    | _ => None
    end.

(** The [filterColumn] element of a column of the autofilter, nothing
    for a column without a filter. *)
Definition column_xml (st : Autofilter.sheet) (col1 col : Z)
    : option (list xml_call) :=
  match Autofilter.filter_cols st !! col with
  | None => Some []
  | Some filters =>
      t ← Autofilter.filter_type st !! col;
      out ← filters_xml t filters;
      Some ([xml_start_tag "filterColumn" [("colId", AInt (col - col1))]]
            ++ out ++ [xml_end_tag "filterColumn"])%list
  end.

(** A method of the autofilter sheet that appends the calls [out] to the output. *)
Definition af_appends (m : Autofilter.A unit) (out : list xml_call) : Prop :=
  forall st, m st = (Autofilter.set_fh (Autofilter.fh st ++ out)%list st, Ok tt).

(** A cell or a comment is held at the coordinate. *)
Definition marked (ws : worksheet) (row col : Z) : Prop :=
  is_Some (table_row ws row !! col)
  \/ is_Some (default ∅ (comments ws !! row) !! col).

(** The text of the span from the column [lo] to the column [hi]; the
    attribute counts the columns from 1. *)
Definition span_text (lo hi : Z) : string :=
  Py.str_of_Z (lo + 1) ++ ":" ++ Py.str_of_Z (hi + 1).

(** The column is marked in a row of the block [b] of 16 rows, inside the
    dimension. *)
Definition block_marked (ws : worksheet) (b col : Z) : Prop :=
  exists row, inside row col ws /\ row / 16 = b /\ marked ws row col.

(** The two local variables of the column scan describe a set of
    columns: nothing is recorded for the empty set, else its least and
    its greatest column. *)
Definition span_of (S : Z -> Prop) (span : option Z * option Z) : Prop :=
  match span with
  | (None, _) => forall c, ~ S c
  | (Some lo, Some hi) => S lo /\ S hi /\ forall c, S c -> lo <= c <= hi
  | (Some _, None) => False
  end.

(** The span a closed block gets. *)
Definition span_entry (span : option Z * option Z) : option string :=
  match span with
  | (Some lo, Some hi) => Some (span_text lo hi)
  | _ => None
  end.

(** The column is marked in a row of the dimension before the row [r],
    in the block of 16 rows that holds [r]. *)
Definition open_marked (ws : worksheet) (r col : Z) : Prop :=
  exists row,
    inside row col ws /\ row < r /\ row / 16 = r / 16 /\ marked ws row col.

(** The entry of a block in the table of spans is the span of the
    columns marked in the block. *)
Definition entry_ok (ws : worksheet) (b : Z) (entry : option string) : Prop :=
  exists span, span_of (block_marked ws b) span /\ entry = span_entry span.


(** A time of day of [k] times 11 minutes 15 seconds, which is [k/128]
    of a day, without microseconds.  On such a time every value
    [_convert_date_time] computes is a double, as it is on a whole day,
    so the double-precision arithmetic of the method is exact. *)
Definition exact_time (t : Datetime.time) (k : Z) : Prop :=
  Datetime.microsecond t = 0 /\ DateModel.delta_seconds t = 675 * k.

(** The time of day as a fraction of a day. *)
Definition day_fraction (t : Datetime.time) : Q :=
  ((inject_Z (DateModel.delta_seconds t)
    + inject_Z (Datetime.microsecond t) / 1000000)
   / inject_Z (60 * 60 * 24))%Q.

(** * Properties *)

(** ** Steps of the method monad *)

Lemma bind_ok {A B} (m : M A) (f : A -> M B) ws ws' a :
  m ws = (ws', Ok a) -> (m ≫= f) ws = f a ws'.
Proof. intros H. unfold mbind, M_bind, bind. now rewrite H. Qed.

Lemma bind_raise {A B} (m : M A) (f : A -> M B) ws ws' e :
  m ws = (ws', Raise e) -> (m ≫= f) ws = (ws', Raise e).
Proof. intros H. unfold mbind, M_bind, bind. now rewrite H. Qed.

Lemma check_out_of_bounds row col ir ic ws :
  out_of_bounds row col -> _check_dimensions row col ir ic ws = (ws, Ok (-1)).
Proof.
  intros H. unfold _check_dimensions.
  destruct (xls_rowmax <=? row)%Z eqn:Hr; [reflexivity|].
  destruct (xls_colmax <=? col)%Z eqn:Hc; [reflexivity|].
  destruct H; lia.
Qed.

(** ** Calendar facts *)

Import Datetime DateModel.

Ltac month_cases m :=
  let H := fresh "Hm" in
  assert (H : m = 1 \/ m = 2 \/ m = 3 \/ m = 4 \/ m = 5 \/ m = 6 \/ m = 7
              \/ m = 8 \/ m = 9 \/ m = 10 \/ m = 11 \/ m = 12) by lia;
  repeat (destruct H as [H|H]); subst m.

Ltac eval_month :=
  repeat match goal with
         | |- context [days_before_month_table ?k] =>
             let v := eval vm_compute in (days_before_month_table k) in
             change (days_before_month_table k) with v
         | |- context [Z.eqb ?a ?b] =>
             let v := eval vm_compute in (Z.eqb a b) in
             change (Z.eqb a b) with v
         | |- context [Z.ltb ?a ?b] =>
             let v := eval vm_compute in (Z.ltb a b) in
             change (Z.ltb a b) with v
         end;
  cbv beta iota delta [orb andb].

(** The day of the year of a valid date. *)
Lemma day_of_year_bounds y m dd :
  1 <= m <= 12 -> 1 <= dd <= days_in_month y m ->
  1 <= days_before_month y m + dd <= (if is_leap y then 366 else 365)
  /\ (days_before_month y m + dd = 1 -> m = 1 /\ dd = 1).
Proof.
  intros Hm. unfold days_before_month, days_in_month.
  month_cases m; destruct (is_leap y); eval_month; lia.
Qed.

(** Only the first of January 1900 has the ISO calendar triple
    [(1900, 1, 1)]. *)
Lemma isocalendar_1900_1_1 d :
  valid_date d -> isocalendar d = (1900, 1, 1) -> d = Date 1900 1 1.
Proof.
  destruct d as [y m dd]. unfold valid_date. simpl.
  intros (Hy & Hm & Hd) H.
  pose proof (day_of_year_bounds y m dd Hm Hd) as [Hb H1].
  unfold isocalendar in H. simpl in H.
  destruct (_ <? 0)%Z eqn:Hw in H.
  - (* the date belongs to the ISO year before its own *)
    injection H as Hy' Hwk Hwd. assert (y = 1901) by lia. subst y.
    exfalso. unfold toordinal in *. simpl in *.
    change (1901 - 1) with 1900 in *.
    change (isoweek1monday 1900) with 693596 in *.
    change (days_before_year 1901) with 693960 in *.
    change (is_leap 1901) with false in *.
    Z.div_mod_to_equations. lia.
  - destruct (_ && _)%bool eqn:Hn in H.
    + (* the date belongs to the ISO year after its own *)
      injection H as Hy' Hwd. assert (y = 1899) by lia. subst y.
      exfalso. apply andb_true_iff in Hn as [_ Hn].
      unfold toordinal in *. simpl in *.
      change (1899 + 1) with 1900 in *.
      change (isoweek1monday 1900) with 693596 in *.
      change (days_before_year 1899) with 693230 in *.
      change (is_leap 1899) with false in *. lia.
    + injection H as Hy' Hwk Hwd. subst y.
      unfold toordinal in *. simpl in *.
      change (isoweek1monday 1900) with 693596 in *.
      change (days_before_year 1900) with 693595 in *.
      assert (days_before_month 1900 m + dd = 1)
        by (Z.div_mod_to_equations; lia).
      destruct (H1 H) as [-> ->]. reflexivity.
Qed.

(** *** Date serials *)

Lemma isocalendar_other d :
  valid_date d -> d <> Date 1900 1 1 ->
  bool_decide (isocalendar d = (1900, 1, 1)) = false.
Proof.
  intros Hv Hne. apply bool_decide_eq_false. intros H.
  apply Hne. now apply isocalendar_1900_1_1.
Qed.

Lemma whole_day (n : Z) :
  (inject_Z n
   + (inject_Z (delta_seconds midnight) + inject_Z (microsecond midnight)
      / 1000000) / inject_Z (60 * 60 * 24) == inject_Z n)%Q.
Proof.
  change ((inject_Z (delta_seconds midnight)
           + inject_Z (microsecond midnight) / 1000000)
          / inject_Z (60 * 60 * 24))%Q with (0 # 86400000000)%Q.
  unfold Qeq, Qplus, inject_Z. simpl. lia.
Qed.

Lemma Qle_bool_inject (x : Q) (n m : Z) :
  (x == inject_Z n)%Q -> Qle_bool x (m # 1) = (n <=? m)%Z.
Proof.
  intros H. change (m # 1)%Q with (inject_Z m).
  destruct (n <=? m)%Z eqn:E.
  - apply Qle_bool_iff. rewrite H. rewrite <- Zle_Qle. lia.
  - destruct (Qle_bool x (inject_Z m)) eqn:E'; [|reflexivity].
    apply Qle_bool_iff in E'. rewrite H in E'. rewrite <- Zle_Qle in E'. lia.
Qed.

Lemma day_fraction_bounds t :
  valid_time t -> (0 <= day_fraction t)%Q /\ (day_fraction t <= 59)%Q.
Proof.
  destruct t as [h mi sec us]. unfold valid_time, day_fraction, delta_seconds.
  simpl. intros (Hh & Hmi & Hs & Hus).
  unfold Qle, Qdiv, Qplus, Qmult, Qinv, inject_Z. simpl. split; nia.
Qed.

(** The serial of a date that is not 1900-01-01, under the default
    epoch. *)
Lemma convert_date_default d :
  valid_date d -> d <> Date 1900 1 1 ->
  (_convert_date_time false (DDate d)
   == inject_Z (if (delta_days false d <=? 59)%Z then delta_days false d
                else delta_days false d + 1))%Q.
Proof.
  intros Hv Hne. unfold _convert_date_time.
  rewrite (isocalendar_other d Hv Hne). cbv beta iota zeta.
  rewrite (Qle_bool_inject _ (delta_days false d) 59 (whole_day _)).
  destruct (delta_days false d <=? 59)%Z; simpl.
  - apply whole_day.
  - rewrite whole_day. rewrite inject_Z_plus. reflexivity.
Qed.

Lemma convert_date_1904 d :
  valid_date d -> d <> Date 1900 1 1 ->
  (_convert_date_time true (DDate d) == inject_Z (delta_days true d))%Q.
Proof.
  intros Hv Hne. unfold _convert_date_time.
  rewrite (isocalendar_other d Hv Hne). simpl. apply whole_day.
Qed.



Lemma day_fraction_exact t k :
  microsecond t = 0 -> delta_seconds t = 675 * k ->
  (day_fraction t == inject_Z k / 128)%Q.
Proof.
  intros Hus Hs. unfold day_fraction. rewrite Hus, Hs.
  unfold Qeq, Qdiv, Qplus, Qmult, Qinv, inject_Z. simpl. lia.
Qed.




(** *** The two epochs and the order of dates *)

Lemma not_first_day_of_1900 d :
  toordinal (Date 1900 1 1) < toordinal d -> d <> Date 1900 1 1.
Proof. intros H ->. lia. Qed.

Lemma first_day_or_not d : d = Date 1900 1 1 \/ d <> Date 1900 1 1.
Proof.
  destruct d as [y m dd].
  destruct (Z.eq_dec y 1900) as [->|Hy]; [|right; congruence].
  destruct (Z.eq_dec m 1) as [->|Hm]; [|right; congruence].
  destruct (Z.eq_dec dd 1) as [->|Hd]; [left; reflexivity|right; congruence].
Qed.

(** X5: for every date after 1900-02-28, given as a date or as a
    datetime at a time of [k/128] of a day (midnight is the case 0), the
    serial under the default (1900) epoch is the serial under the 1904
    epoch plus 1462: the 1461 days between the two epochs and the day
    Excel counts for 29 February 1900.  Under the default epoch the
    serial of the datetime is the number of days since the epoch plus 1
    plus [k/128]. *)
Theorem epoch_offset (d : date) (t : time) (k : Z) :
  valid_date d -> valid_time t -> exact_time t k ->
  toordinal (Date 1900 2 28) < toordinal d ->
  (_convert_date_time false (DDatetime d t)
   == inject_Z (delta_days false d + 1) + inject_Z k / 128)%Q
  /\ (_convert_date_time false (DDatetime d t)
      == _convert_date_time true (DDatetime d t) + 1462)%Q
  /\ (_convert_date_time false (DDate d)
      == _convert_date_time true (DDate d) + 1462)%Q.
Proof.
  intros Hv Ht [Hus Hs] Hafter.
  assert (Hne : d <> Date 1900 1 1).
  { apply not_first_day_of_1900.
    change (toordinal (Date 1900 1 1)) with 693596.
    change (toordinal (Date 1900 2 28)) with 693654 in Hafter. lia. }
  assert (Hd : delta_days false d = delta_days true d + 1461).
  { unfold delta_days, epoch.
    change (toordinal (Date 1899 12 31)) with 693595.
    change (toordinal (Date 1904 1 1)) with 695056. lia. }
  assert (H60 : 60 <= delta_days false d).
  { unfold delta_days, epoch.
    change (toordinal (Date 1899 12 31)) with 693595.
    change (toordinal (Date 1900 2 28)) with 693654 in Hafter. lia. }
  assert (Hdt : forall b,
            (_convert_date_time b (DDatetime d t)
             == inject_Z (delta_days b d) + day_fraction t
                + (if b then 0 else 1))%Q).
  { intros b. unfold _convert_date_time.
    rewrite (isocalendar_other d Hv Hne). cbv beta iota zeta.
    fold (day_fraction t). destruct b; cbv beta iota delta [negb andb].
    - ring.
    - destruct (day_fraction_bounds t Ht) as [H0 _].
      assert (Hgt : Qle_bool (inject_Z (delta_days false d) + day_fraction t)
                      59 = false).
      { destruct (Qle_bool _ 59) eqn:E; [|reflexivity].
        apply Qle_bool_iff in E.
        assert (H : (inject_Z 60 <= inject_Z (delta_days false d))%Q)
          by (rewrite <- Zle_Qle; exact H60).
        exfalso. apply (Qlt_irrefl 59).
        apply Qlt_le_trans with (inject_Z 60); [reflexivity|].
        apply Qle_trans
          with (inject_Z (delta_days false d) + day_fraction t)%Q;
          [|exact E].
        rewrite <- (Qplus_0_r (inject_Z 60)).
        apply Qplus_le_compat; assumption. }
      rewrite Hgt. reflexivity. }
  split; [|split].
  - rewrite (Hdt false), (day_fraction_exact t k Hus Hs), inject_Z_plus.
    change (inject_Z 1) with 1%Q. ring.
  - rewrite (Hdt false), (Hdt true), Hd, inject_Z_plus. ring.
  - rewrite (convert_date_default d Hv Hne), (convert_date_1904 d Hv Hne).
    replace (delta_days false d <=? 59)%Z with false by lia.
    rewrite Hd, !inject_Z_plus. ring.
Qed.

(** X6: under the default epoch the serials of dates from 1900-01-01 on
    are strictly increasing in the date, and no date has the serial 60,
    the day Excel gives to 29 February 1900. *)
Theorem date_serials_increase :
  (forall d1 d2, valid_date d1 -> valid_date d2 ->
     toordinal (Date 1900 1 1) <= toordinal d1 ->
     toordinal d1 < toordinal d2 ->
     (_convert_date_time false (DDate d1)
      < _convert_date_time false (DDate d2))%Q)
  /\ (forall d, valid_date d ->
        ~ (_convert_date_time false (DDate d) == 60)%Q).
Proof.
  assert (Hfirst : (_convert_date_time false (DDate (Date 1900 1 1)) == 0)%Q)
    by (vm_compute; reflexivity).
  split.
  - intros d1 d2 Hv1 Hv2 Hlo Hlt.
    assert (Hne2 : d2 <> Date 1900 1 1).
    { apply not_first_day_of_1900. lia. }
    rewrite (convert_date_default d2 Hv2 Hne2).
    assert (H2 : 2 <= delta_days false d2).
    { unfold delta_days, epoch.
      change (toordinal (Date 1899 12 31)) with 693595.
      change (toordinal (Date 1900 1 1)) with 693596 in Hlo. lia. }
    destruct (first_day_or_not d1) as [->|Hne1].
    + rewrite Hfirst. change 0%Q with (inject_Z 0). rewrite <- Zlt_Qlt.
      destruct (delta_days false d2 <=? 59)%Z; lia.
    + rewrite (convert_date_default d1 Hv1 Hne1). rewrite <- Zlt_Qlt.
      assert (delta_days false d1 < delta_days false d2)
        by (unfold delta_days; lia).
      destruct (Z.leb_spec (delta_days false d1) 59),
               (Z.leb_spec (delta_days false d2) 59); lia.
  - intros d Hv. destruct (first_day_or_not d) as [->|Hne].
    + rewrite Hfirst. intros H. discriminate H.
    + rewrite (convert_date_default d Hv Hne).
      change 60%Q with (inject_Z 60). rewrite inject_Z_injective.
      destruct (Z.leb_spec (delta_days false d) 59); lia.
Qed.

Section Properties.

Variable py_float : string -> option Q.
Variable font_xml : Format -> string.
Variable t_element_xml : string -> bool -> string.
Variable default_format : Format.

Local Abbreviation run := (run_op py_float font_xml t_element_xml default_format).

(** C10.  [write_blank] without a format returns 0 at every coordinate,
    also out of bounds, and leaves the worksheet as it was; a call that
    changes the worksheet was given a format. *)
Theorem write_blank_without_format (row col : Z) (ws : worksheet) :
  write_blank py_float row col None ws = (ws, Ok 0)
  /\ forall f ws' r,
       write_blank py_float row col f ws = (ws', r) -> ws' <> ws -> is_Some f.
Proof.
  split; [reflexivity|].
  intros [f|] ws' r H Hne; [eauto|].
  simpl in H. inversion H; subst. congruence.
Qed.

(** *** Out-of-bounds writes *)

Ltac reject_by_check H :=
  erewrite bind_ok by (apply check_out_of_bounds; exact H); reflexivity.

Lemma write_string_out_of_bounds row col s f ws :
  out_of_bounds row col -> write_string py_float row col s f ws = (ws, Ok (-1)).
Proof. intros H. unfold write_string. reject_by_check H. Qed.

Lemma write_number_out_of_bounds row col q f ws :
  out_of_bounds row col -> write_number py_float row col q f ws = (ws, Ok (-1)).
Proof. intros H. unfold write_number. reject_by_check H. Qed.

Lemma write_blank_out_of_bounds row col f ws :
  out_of_bounds row col ->
  write_blank py_float row col (Some f) ws = (ws, Ok (-1)).
Proof. intros H. unfold write_blank. reject_by_check H. Qed.

Lemma write_formula_out_of_bounds row col formula f v ws :
  out_of_bounds row col ->
  write_formula py_float row col formula f v ws = (ws, Ok (-1)).
Proof. intros H. unfold write_formula. reject_by_check H. Qed.

Lemma write_array_formula_out_of_bounds r1 c1 r2 c2 formula f v ws :
  out_of_bounds r1 c1 \/ out_of_bounds r2 c2 ->
  write_array_formula py_float r1 c1 r2 c2 formula f v ws = (ws, Ok (-1)).
Proof.
  intros H. unfold write_array_formula.
  destruct (r2 <? r1)%Z eqn:Hr; destruct (c2 <? c1)%Z eqn:Hc;
    (erewrite bind_ok
       by (apply check_out_of_bounds; unfold out_of_bounds in *; lia));
    reflexivity.
Qed.

Lemma write_datetime_out_of_bounds row col d f ws :
  out_of_bounds row col ->
  write_datetime py_float row col d f ws = (ws, Ok (-1)).
Proof. intros H. unfold write_datetime. reject_by_check H. Qed.

Lemma write_url_out_of_bounds row col u f s tip ws :
  out_of_bounds row col ->
  write_url py_float row col u f s tip ws = (ws, Ok (-1)).
Proof.
  intros H. unfold write_url.
  destruct (url_prepare u s) as [[url' str'] lt]. reject_by_check H.
Qed.

Lemma write_rich_string_out_of_bounds row col args ws :
  out_of_bounds row col ->
  write_rich_string py_float font_xml t_element_xml default_format
    row col args ws = (ws, Ok (-1)).
Proof. intros H. unfold write_rich_string. reject_by_check H. Qed.

(** C2, amended.  A typed write at a coordinate with row >= 1,048,576 or
    column >= 16,384 returns -1 and leaves the whole worksheet as it was,
    unless it is a [write_blank] without a format, which returns 0 and
    leaves the worksheet as it was too. *)
Theorem out_of_bounds_write_mutates_nothing (op : write_op) (ws : worksheet) :
  op_out_of_bounds op ->
  (~ formatless_blank op -> run op ws = (ws, Ok (-1)))
  /\ (formatless_blank op -> run op ws = (ws, Ok 0)).
Proof.
  intros H. split.
  - intros Hb. destruct op; simpl in *.
    + now apply write_string_out_of_bounds.
    + now apply write_number_out_of_bounds.
    + destruct f; [now apply write_blank_out_of_bounds | tauto].
    + now apply write_formula_out_of_bounds.
    + now apply write_array_formula_out_of_bounds.
    + now apply write_datetime_out_of_bounds.
    + now apply write_url_out_of_bounds.
    + now apply write_rich_string_out_of_bounds.
  - intros Hb. destruct op; simpl in Hb; try tauto.
    destruct f; [tauto | reflexivity].
Qed.

(** *** The dimension check *)

Lemma check_ok row col ws :
  in_bounds row col -> (optimization ws = 1 -> previous_row ws <= row) ->
  _check_dimensions row col false false ws = (widened row col ws, Ok 0).
Proof.
  intros [Hr Hc] Ho. unfold _check_dimensions.
  destruct (xls_rowmax <=? row)%Z eqn:E1; [lia|].
  destruct (xls_colmax <=? col)%Z eqn:E2; [lia|]. simpl.
  destruct (optimization ws =? 1)%Z eqn:E3; simpl; [|reflexivity].
  destruct (row <? previous_row ws)%Z eqn:E4; [lia|reflexivity].
Qed.

Lemma check_rejected_order row col ws :
  optimization ws = 1 -> row < previous_row ws ->
  _check_dimensions row col false false ws = (ws, Ok (-1)).
Proof.
  intros Ho Hr. unfold _check_dimensions.
  destruct (_ || _)%bool; [reflexivity|]. simpl.
  rewrite Ho. simpl.
  destruct (row <? previous_row ws)%Z eqn:E4; [reflexivity|lia].
Qed.

Lemma check_cases row col ws :
  _check_dimensions row col false false ws = (ws, Ok (-1))
  \/ (_check_dimensions row col false false ws = (widened row col ws, Ok 0)
      /\ in_bounds row col
      /\ (optimization ws = 1 -> previous_row ws <= row)).
Proof.
  unfold _check_dimensions, in_bounds.
  destruct (xls_rowmax <=? row)%Z eqn:E1; [now left|].
  destruct (xls_colmax <=? col)%Z eqn:E2; [now left|]. simpl.
  destruct (optimization ws =? 1)%Z eqn:E3; simpl.
  - destruct (row <? previous_row ws)%Z eqn:E4; [now left|].
    right. repeat split; lia.
  - right. repeat split; lia.
Qed.

(** *** The serializer as pure functions *)

Lemma set_fh_app f g ws : set_fh (f ++ g)%list ws = set_fh (fh (set_fh f ws) ++ g)%list (set_fh f ws).
Proof. reflexivity. Qed.

Lemma emit_spec c ws : emit c ws = (set_fh (fh ws ++ [c])%list ws, Ok tt).
Proof. reflexivity. Qed.

Lemma write_row_spec row spans props e ws :
  _write_row row spans props e ws
  = (set_fh (fh ws ++ row_tag ws row spans props e)%list ws, Ok tt).
Proof.
  unfold row_tag, _write_row.
  unfold mbind, M_bind, bind, get. simpl.
  destruct props as [p|]; simpl; destruct e; reflexivity.
Qed.

Lemma row_tag_frame ws1 ws2 row spans props e :
  default_row_height ws1 = default_row_height ws2 ->
  excel_version ws1 = excel_version ws2 ->
  row_tag ws1 row spans props e = row_tag ws2 row spans props e.
Proof.
  intros Hh Hv. unfold row_tag, _write_row.
  unfold mbind, M_bind, bind, get. simpl. rewrite Hh, Hv.
  destruct props as [p|]; simpl; destruct e; reflexivity.
Qed.

Lemma write_cell_spec row col c ws :
  cell_ok (optimization ws) c = true ->
  _write_cell py_float row col c ws
  = (set_fh (fh ws ++ cell_xml py_float ws row col c)%list ws, Ok tt).
Proof.
  intros Hok. unfold _write_cell, cell_xml.
  unfold mbind, M_bind, bind, get. simpl.
  destruct c as [[i|s] f|q f|f|fo f v|fo f v rg]; simpl in *.
  - rewrite Hok. reflexivity.
  - destruct (negb (truthy (optimization ws))); [reflexivity|].
    destruct (Inline.is_rich (Inline.escape s)); reflexivity.
  - reflexivity.
  - reflexivity.
  - destruct (value_is_float py_float v); reflexivity.
  - unfold _write_cell_array_formula, _write_cell_value, emit, modify.
    destruct (value_is_float py_float v); simpl;
      rewrite <- !app_assoc; reflexivity.
Qed.

Lemma write_cells_spec row_num cols ws :
  row_ok (optimization ws) (table_row ws row_num) ->
  for_each cols (fun col_num =>
    ws ← get id;
    match table_row ws row_num !! col_num with
    | Some col_ref => _write_cell py_float row_num col_num col_ref
    | None => ret tt
    end) ws
  = (set_fh (fh ws ++ cells_xml py_float ws row_num cols)%list ws, Ok tt).
Proof.
  intros Hok. revert ws Hok.
  induction cols as [|col cols IH]; intros ws Hok.
  - simpl. unfold ret. rewrite app_nil_r. now destruct ws.
  - cbn [for_each]. unfold cells_xml. cbn [flat_map].
    fold (cells_xml py_float ws row_num cols).
    unfold mbind at 1, M_bind at 1, bind at 1.
    unfold mbind at 1, M_bind at 1, bind at 1, get at 1. cbn beta iota.
    change (id ws) with ws.
    destruct (table_row ws row_num !! col) as [c|] eqn:E.
    + rewrite (write_cell_spec _ _ _ _ (Hok _ _ E)).
      rewrite (IH (set_fh _ ws)) by exact Hok.
      rewrite app_assoc. reflexivity.
    + cbn. apply IH. exact Hok.
Qed.

Lemma write_row_cells_spec row_num ws :
  is_Some (dim_colmin ws) -> is_Some (dim_colmax ws) ->
  row_ok (optimization ws) (table_row ws row_num) ->
  write_row_cells py_float row_num ws
  = (set_fh (fh ws ++ cells_xml py_float ws row_num (dim_cols ws))%list ws,
     Ok tt).
Proof.
  intros [lo Hlo] [hi Hhi] Hok. unfold write_row_cells, dim_cols.
  unfold mbind at 1, M_bind at 1, bind at 1, get at 1. cbn beta iota.
  unfold mbind at 1, M_bind at 1, bind at 1, get at 1. cbn beta iota.
  rewrite Hlo, Hhi. unfold dim_range.
  unfold mbind at 1, M_bind at 1, bind at 1, ret at 1. cbn beta iota.
  apply write_cells_spec. exact Hok.
Qed.

Lemma write_single_row_spec r ws :
  is_Some (dim_colmin ws) -> is_Some (dim_colmax ws) ->
  row_ok (optimization ws) (table_row ws (previous_row ws)) ->
  _write_single_row py_float r ws = (flushed py_float r ws, Ok tt).
Proof.
  intros Hlo Hhi Hok. unfold _write_single_row, flushed, row_xml.
  unfold mbind at 1, M_bind at 1, bind at 1, get at 1. cbn beta iota.
  unfold mbind at 1, M_bind at 1, bind at 1, modify at 1. cbn beta iota.
  unfold mbind at 1, M_bind at 1, bind at 1, get at 1. cbn beta iota.
  change (id (set_previous_row r ws)) with (set_previous_row r ws).
  change (set_rows (set_previous_row r ws)) with (set_rows ws).
  change (comments (set_previous_row r ws)) with (comments ws).
  change (table_row (set_previous_row r ws)) with (table_row ws).
  unfold mbind at 1, M_bind at 1, bind at 1.
  destruct (_ || _ || _)%bool.
  - destruct (nonempty (table_row ws (previous_row ws))).
    + erewrite bind_ok by apply write_row_spec.
      erewrite bind_ok by (apply write_row_cells_spec; assumption).
      rewrite emit_spec. unfold modify.
      rewrite (row_tag_frame (set_previous_row r ws) ws) by reflexivity.
      match goal with
      | |- context [cells_xml py_float ?w] =>
          change (cells_xml py_float w) with (cells_xml py_float ws)
      end.
      match goal with
      | |- context [dim_cols ?w] => change (dim_cols w) with (dim_cols ws)
      end.
      cbn [fh set_fh]. rewrite <- !app_assoc. reflexivity.
    + unfold _write_empty_row. rewrite write_row_spec.
      rewrite (row_tag_frame (set_previous_row r ws) ws) by reflexivity.
      reflexivity.
  - unfold ret, modify. rewrite app_nil_r. reflexivity.
Qed.

(** *** The typed writes as functions *)

Lemma bind_get {A B} (f : worksheet -> A) (k : A -> M B) ws :
  (get f ≫= k) ws = k (f ws) ws.
Proof. reflexivity. Qed.

Lemma bind_modify {B} (g : worksheet -> worksheet) (k : unit -> M B) ws :
  (modify g ≫= k) ws = k tt (g ws).
Proof. reflexivity. Qed.

Lemma bind_ret {A B} (a : A) (k : A -> M B) ws : (ret a ≫= k) ws = k a ws.
Proof. reflexivity. Qed.

Lemma bind_lift_ok {A B} (a : A) (k : A -> M B) ws :
  (lift (Ok a) ≫= k) ws = k a ws.
Proof. reflexivity. Qed.

Lemma bind_lift_raise {A B} e (k : A -> M B) ws :
  (lift (Raise e) ≫= k) ws = (ws, Raise e).
Proof. reflexivity. Qed.

Lemma bind_bind {A B C} (m : M A) (f : A -> M B) (g : B -> M C) ws :
  ((m ≫= f) ≫= g) ws = (m ≫= fun a => f a ≫= g) ws.
Proof.
  unfold mbind, M_bind, bind. destruct (m ws) as [ws' [a|e]]; reflexivity.
Qed.

Lemma accepted_check row col ws :
  _check_dimensions row col false false ws
  = if accepted row col ws then (widened row col ws, Ok 0) else (ws, Ok (-1)).
Proof.
  unfold accepted, _check_dimensions.
  destruct (xls_rowmax <=? row)%Z eqn:E1.
  { replace (row <? xls_rowmax)%Z with false by lia. reflexivity. }
  replace (row <? xls_rowmax)%Z with true by lia.
  destruct (xls_colmax <=? col)%Z eqn:E2.
  { replace (col <? xls_colmax)%Z with false by lia. reflexivity. }
  replace (col <? xls_colmax)%Z with true by lia. simpl.
  destruct ((optimization ws =? 1)%Z && (row <? previous_row ws)%Z)%bool;
    reflexivity.
Qed.

Lemma widen_lo_idem x m : widen_lo x (widen_lo x m) = widen_lo x m.
Proof.
  unfold widen_lo. destruct m as [m|].
  - destruct (x <? m)%Z eqn:E; [rewrite Z.ltb_irrefl|rewrite E]; reflexivity.
  - rewrite Z.ltb_irrefl. reflexivity.
Qed.

Lemma widen_hi_idem x m : widen_hi x (widen_hi x m) = widen_hi x m.
Proof.
  unfold widen_hi. destruct m as [m|].
  - destruct (m <? x)%Z eqn:E; [rewrite Z.ltb_irrefl|rewrite E]; reflexivity.
  - rewrite Z.ltb_irrefl. reflexivity.
Qed.

Lemma widened_covers row col ws : covers row col (widened row col ws).
Proof.
  unfold covers, widened. cbn.
  rewrite !widen_lo_idem, !widen_hi_idem. auto.
Qed.

Lemma covers_widened row col ws : covers row col ws -> widened row col ws = ws.
Proof.
  intros (H1 & H2 & H3 & H4). unfold widened.
  rewrite H1, H2, H3, H4. now destruct ws.
Qed.

Lemma bump_nothing ws : bump 0 None ws = ws.
Proof. unfold bump. cbn. rewrite Z.add_0_r. now destruct ws. Qed.

Lemma widened_dims row col ws :
  is_Some (dim_colmin (widened row col ws))
  /\ is_Some (dim_colmax (widened row col ws)).
Proof.
  unfold widened, widen_lo, widen_hi. cbn.
  destruct (dim_colmin ws), (dim_colmax ws); split;
    repeat case_match; eauto.
Qed.

Lemma flush_spec row ws :
  is_Some (dim_colmin ws) -> is_Some (dim_colmax ws) -> sheet_ok ws ->
  flush_previous_row py_float row ws = (flush_to py_float row ws, Ok tt).
Proof.
  intros Hlo Hhi Hok. unfold flush_previous_row, flush_to.
  rewrite bind_get. change (id ws) with ws.
  destruct (_ && _)%bool; [|reflexivity].
  apply write_single_row_spec; auto.
Qed.

Lemma bind_flush {B} row (k : unit -> M B) ws :
  is_Some (dim_colmin ws) -> is_Some (dim_colmax ws) -> sheet_ok ws ->
  (flush_previous_row py_float row ≫= k) ws = k tt (flush_to py_float row ws).
Proof. intros. erewrite bind_ok by (now apply flush_spec). reflexivity. Qed.

Lemma sheet_ok_widened row col ws : sheet_ok ws -> sheet_ok (widened row col ws).
Proof. intros H. exact H. Qed.

Ltac after_check Ha :=
  rewrite bind_ok with (1 := accepted_check _ _ _);
  rewrite ?Ha; [| rewrite Ha; reflexivity ].

Lemma write_number_spec row col q f ws :
  sheet_ok ws ->
  write_number py_float row col q f ws
  = run_spec py_float font_xml t_element_xml default_format
      (WNumber row col q f) ws.
Proof.
  intros Hok. unfold write_number, run_spec. cbn [op_effect op_check op_anchor fst snd].
  unfold mbind at 1, M_bind at 1, bind at 1. rewrite accepted_check.
  destruct (accepted row col ws); [|reflexivity]. cbn [truthy Z.eqb negb].
  pose proof (widened_dims row col ws) as [Hlo Hhi].
  rewrite bind_flush by auto.
  unfold store_cell. rewrite bind_modify. unfold ret.
  unfold apply_effect, intern. rewrite bump_nothing. reflexivity.
Qed.

Lemma bump_count n ws :
  bump n None ws = set_hlink_count (hlink_count ws + n) ws.
Proof. unfold bump. cbn. now destruct ws. Qed.

Lemma bump_rstring x ws : bump 0 (Some x) ws = set_rstring x ws.
Proof. unfold bump. cbn. rewrite Z.add_0_r. now destruct ws. Qed.

Lemma write_blank_spec row col f ws :
  sheet_ok ws ->
  write_blank py_float row col f ws
  = run_spec py_float font_xml t_element_xml default_format
      (WBlank row col f) ws.
Proof.
  intros Hok. destruct f as [f|]; [|reflexivity].
  unfold write_blank, run_spec.
  cbn [op_effect op_check op_anchor fst snd].
  unfold mbind at 1, M_bind at 1, bind at 1. rewrite accepted_check.
  destruct (accepted row col ws); [|reflexivity]. cbn [truthy Z.eqb negb].
  pose proof (widened_dims row col ws) as [Hlo Hhi].
  rewrite bind_flush by auto.
  unfold store_cell. rewrite bind_modify. unfold ret.
  unfold apply_effect, intern. rewrite bump_nothing. reflexivity.
Qed.

Lemma write_datetime_spec row col d f ws :
  sheet_ok ws ->
  write_datetime py_float row col d f ws
  = run_spec py_float font_xml t_element_xml default_format
      (WDatetime row col d f) ws.
Proof.
  intros Hok. unfold write_datetime, run_spec.
  cbn [op_effect op_check op_anchor fst snd].
  unfold mbind at 1, M_bind at 1, bind at 1. rewrite accepted_check.
  destruct (accepted row col ws); [|reflexivity]. cbn [truthy Z.eqb negb].
  pose proof (widened_dims row col ws) as [Hlo Hhi].
  rewrite bind_flush by auto. rewrite bind_get.
  unfold store_cell. rewrite bind_modify. unfold ret.
  unfold apply_effect, intern. rewrite bump_nothing.
  unfold flush_to. destruct (_ && _)%bool; reflexivity.
Qed.

(** The interning step shared by [write_string] and
    [write_rich_string]. *)
Lemma bind_intern {B} (s : string) f (k : string_ref -> M B) ws :
  ((if (optimization ws =? 0)%Z then
      let '(i, t) :=
        SharedStrings._get_shared_string_index (str_table ws) s in
      modify (set_str_table t);; ret (SIndex i)
    else ret (SText s)) ≫= k) ws
  = k (match (intern (String_ (SText s) f) ws).1 with
       | String_ r _ => r
       | _ => SText s
       end) (intern (String_ (SText s) f) ws).2.
Proof.
  unfold intern. destruct (optimization ws =? 0)%Z; [|reflexivity].
  destruct (SharedStrings._get_shared_string_index (str_table ws) s)
    as [i t].
  rewrite bind_bind, bind_modify, bind_ret. reflexivity.
Qed.

Lemma intern_string s f ws :
  String_ (match (intern (String_ (SText s) f) ws).1 with
           | String_ r _ => r
           | _ => SText s
           end) f = (intern (String_ (SText s) f) ws).1.
Proof. unfold intern. destruct (optimization ws =? 0)%Z; reflexivity. Qed.

Lemma intern_frame c ws :
  let ws' := (intern c ws).2 in
  optimization ws' = optimization ws /\ table ws' = table ws
  /\ dim_colmin ws' = dim_colmin ws /\ dim_colmax ws' = dim_colmax ws
  /\ previous_row ws' = previous_row ws.
Proof.
  unfold intern. destruct c as [[i|s] f| | | |]; cbn; auto.
  destruct (optimization ws =? 0)%Z; cbn; auto.
Qed.

Lemma sheet_ok_intern c ws : sheet_ok ws -> sheet_ok (intern c ws).2.
Proof.
  intros H r. unfold row_ok, table_row.
  destruct (intern_frame c ws) as (-> & -> & _). apply H.
Qed.

Lemma write_string_spec row col s f ws :
  sheet_ok ws ->
  write_string py_float row col s f ws
  = run_spec py_float font_xml t_element_xml default_format
      (WString row col s f) ws.
Proof.
  intros Hok. unfold write_string, run_spec.
  cbn [op_effect op_check op_anchor fst snd].
  unfold mbind at 1, M_bind at 1, bind at 1. rewrite accepted_check.
  destruct (accepted row col ws); [|reflexivity]. cbn [truthy Z.eqb negb].
  pose proof (widened_dims row col ws) as [Hlo Hhi].
  unfold apply_effect. rewrite bump_nothing.
  assert (Ht : (if (xls_strmax <? Py.len s)%Z
                then (Py.take_str (Z.to_nat xls_strmax) s, -2)
                else (s, 0)) = truncated s) by reflexivity.
  rewrite Ht. destruct (truncated s) as [s' rc]. cbn [fst snd].
  rewrite bind_get. change (id (widened row col ws)) with (widened row col ws).
  rewrite (bind_intern s' f).
  destruct (intern_frame (String_ (SText s') f) (widened row col ws))
    as (Ho & Ht' & Hl & Hh & Hp).
  rewrite bind_flush
    by (rewrite ?Hl, ?Hh; auto using sheet_ok_intern, sheet_ok_widened).
  unfold store_cell. rewrite bind_modify. unfold ret.
  rewrite intern_string. reflexivity.
Qed.

Lemma flush_to_frame row ws :
  let ws' := flush_to py_float row ws in
  optimization ws' = optimization ws
  /\ dim_rowmin ws' = dim_rowmin ws /\ dim_rowmax ws' = dim_rowmax ws
  /\ dim_colmin ws' = dim_colmin ws /\ dim_colmax ws' = dim_colmax ws
  /\ str_table ws' = str_table ws /\ hlink_count ws' = hlink_count ws
  /\ hyperlinks ws' = hyperlinks ws /\ merge ws' = merge ws
  /\ set_rows ws' = set_rows ws /\ comments ws' = comments ws
  /\ col_formats ws' = col_formats ws /\ rstring ws' = rstring ws
  /\ date_1904 ws' = date_1904 ws.
Proof.
  unfold flush_to. destruct (_ && _)%bool; cbn; repeat split; reflexivity.
Qed.

Lemma range_other_cells_single row col : range_other_cells row col row col = [].
Proof.
  unfold range_other_cells, py_range.
  replace (row + 1 - row) with 1 by lia.
  replace (col + 1 - col) with 1 by lia.
  rewrite !(seqZ_cons _ 1) by lia. change (Z.pred 1) with 0.
  rewrite !seqZ_nil by lia. cbn. rewrite !Z.eqb_refl. reflexivity.
Qed.

Lemma write_array_formula_spec r1 c1 r2 c2 formula f v ws :
  mode_ok ws -> sheet_ok ws ->
  (optimization ws = 0 -> r1 = r2 /\ c1 = c2) ->
  write_array_formula py_float r1 c1 r2 c2 formula f v ws
  = run_spec py_float font_xml t_element_xml default_format
      (WArrayFormula r1 c1 r2 c2 formula f v) ws.
Proof.
  intros Hmode Hok Hsingle. unfold write_array_formula, run_spec.
  cbn [op_effect op_check op_anchor fst snd].
  assert (Hr : (if (r2 <? r1)%Z then (r2, r1) else (r1, r2))
               = (Z.min r1 r2, Z.max r1 r2)).
  { destruct (r2 <? r1)%Z eqn:E; f_equal; lia. }
  assert (Hc : (if (c2 <? c1)%Z then (c2, c1) else (c1, c2))
               = (Z.min c1 c2, Z.max c1 c2)).
  { destruct (c2 <? c1)%Z eqn:E; f_equal; lia. }
  rewrite Hr, Hc. clear Hr Hc.
  set (fr := Z.min r1 r2). set (lr := Z.max r1 r2).
  set (fc := Z.min c1 c2). set (lc := Z.max c1 c2).
  unfold array_effect.
  unfold mbind at 1, M_bind at 1, bind at 1. rewrite accepted_check.
  destruct (strip_array_formula formula) as [formula'|e] eqn:Es.
  - destruct (accepted lr lc ws); [|reflexivity]. cbn [truthy Z.eqb negb].
    pose proof (widened_dims lr lc ws) as [Hlo Hhi].
    rewrite bind_lift_ok. rewrite bind_flush by auto.
    unfold store_cell. rewrite bind_modify, bind_get.
    unfold apply_effect, intern. rewrite bump_nothing. cbn [fst snd linked].
    assert (Hpad : (if negb (truthy (optimization ws))
                    then for_each (range_other_cells fr fc lr lc)
                           (fun rc : Z * Z =>
                              write_number py_float rc.1 rc.2 0%Q f;; ret tt)
                    else ret tt) = ret tt).
    { destruct Hmode as [H0|H1].
      - destruct (Hsingle H0) as [-> ->]. subst fr lr fc lc.
        rewrite !Z.min_id, !Z.max_id, range_other_cells_single.
        now destruct (negb _).
      - rewrite H1. reflexivity. }
    match goal with
    | |- context [optimization (id ?w)] =>
        replace (optimization (id w)) with (optimization ws)
          by (symmetry; apply (flush_to_frame fr (widened lr lc ws)))
    end.
    rewrite Hpad. rewrite bind_ret. reflexivity.
  - destruct (accepted lr lc ws); [|reflexivity]. cbn [truthy Z.eqb negb].
    rewrite bind_lift_raise. unfold apply_effect. rewrite bump_nothing.
    reflexivity.
Qed.

Lemma accepted_widened row col r c ws :
  accepted row col (widened r c ws) = accepted row col ws.
Proof. reflexivity. Qed.

Lemma widened_twice row col ws :
  widened row col (widened row col ws) = widened row col ws.
Proof. apply covers_widened, widened_covers. Qed.

Lemma write_formula_spec row col formula f v ws :
  mode_ok ws -> sheet_ok ws ->
  write_formula py_float row col formula f v ws
  = run_spec py_float font_xml t_element_xml default_format
      (WFormula row col formula f v) ws.
Proof.
  intros Hmode Hok. unfold write_formula, run_spec.
  cbn [op_effect op_check op_anchor fst snd].
  unfold mbind at 1, M_bind at 1, bind at 1. rewrite accepted_check.
  destruct (Py.startswith "{" formula && Py.endswith "}" formula)%bool.
  - destruct (accepted row col ws) eqn:Ha.
    + cbn [truthy Z.eqb negb].
      rewrite write_array_formula_spec; auto.
      unfold run_spec. cbn [op_effect op_check op_anchor fst snd].
      rewrite !Z.min_id, !Z.max_id, accepted_widened, Ha, widened_twice.
      unfold array_effect.
      destruct (strip_array_formula formula); reflexivity.
    + unfold array_effect.
      destruct (strip_array_formula formula); reflexivity.
  - destruct (accepted row col ws); [|reflexivity]. cbn [truthy Z.eqb negb].
    pose proof (widened_dims row col ws) as [Hlo Hhi].
    rewrite bind_flush by auto.
    unfold store_cell. rewrite bind_modify. unfold ret.
    unfold apply_effect, intern. rewrite bump_nothing. reflexivity.
Qed.

Lemma write_rich_string_spec row col args ws :
  sheet_ok ws ->
  write_rich_string py_float font_xml t_element_xml default_format
    row col args ws
  = run_spec py_float font_xml t_element_xml default_format
      (WRichString row col args) ws.
Proof.
  intros Hok. unfold write_rich_string, run_spec.
  cbn [op_effect op_check op_anchor fst snd].
  unfold mbind at 1, M_bind at 1, bind at 1. rewrite accepted_check.
  destruct (accepted row col ws).
  2:{ unfold rich_effect.
      repeat case_match; first [reflexivity | discriminate]. }
  cbn [truthy Z.eqb negb]. unfold rich_effect.
  destruct (last args) as [l|] eqn:El.
  2:{ unfold apply_effect. rewrite bump_nothing. reflexivity. }
  set (tc := match l with
             | RFormat f => (removelast args, Some f)
             | RText _ => (args, None)
             end).
  assert (Hl : match l with
               | RFormat f => ret (removelast args, Some f)
               | RText _ => ret (args, @None Format)
               end = ret tc) by (subst tc; now destruct l).
  rewrite Hl. clear Hl. destruct tc as [tokens cf].
  rewrite bind_ret, bind_modify.
  destruct (rich_fragments default_format tokens ([], true, 0, 0))
    as [[fragments len]|] eqn:Ef.
  2:{ unfold apply_effect, ret. rewrite bump_rstring. reflexivity. }
  destruct fragments as [|fr rest].
  { unfold apply_effect. rewrite bump_rstring. reflexivity. }
  rewrite bind_ret, bind_modify, bind_get.
  cbn [rstring set_rstring].
  destruct (xls_strmax <? len)%Z.
  { unfold apply_effect, ret. rewrite bump_rstring. reflexivity. }
  unfold apply_effect. rewrite bump_rstring.
  set (xml := (if is_format fr then EmptyString else "<r>")
              ++ rich_xml font_xml t_element_xml (fr :: rest)).
  change (set_rstring xml (set_rstring EmptyString (widened row col ws)))
    with (set_rstring xml (widened row col ws)).
  set (w := set_rstring xml (widened row col ws)).
  rewrite bind_get. change (id w) with w.
  rewrite (bind_intern xml cf).
  pose proof (widened_dims row col ws) as [Hlo Hhi].
  destruct (intern_frame (String_ (SText xml) cf) w)
    as (Ho & Ht' & Hl & Hh & Hp).
  assert (sheet_ok w) by exact Hok.
  rewrite bind_flush by (rewrite ?Hl, ?Hh; auto using sheet_ok_intern).
  unfold store_cell. rewrite bind_modify. unfold ret.
  rewrite intern_string. reflexivity.
Qed.

Lemma flush_to_idem row ws :
  flush_to py_float row (flush_to py_float row ws) = flush_to py_float row ws.
Proof.
  unfold flush_to at 2 3.
  destruct (truthy (optimization ws) && (previous_row ws <? row)%Z)%bool
    eqn:E; [|unfold flush_to; now rewrite E].
  unfold flush_to. cbn [previous_row flushed set_table set_fh set_previous_row].
  rewrite Z.ltb_irrefl, andb_false_r. reflexivity.
Qed.

Lemma intern_flush_to c row ws :
  intern c (flush_to py_float row ws)
  = ((intern c ws).1, flush_to py_float row (intern c ws).2).
Proof.
  unfold intern. destruct c as [[i|s] f| | | |]; try reflexivity.
  destruct (flush_to_frame row ws) as (Ho & _ & _ & _ & _ & Hs & _).
  cbv zeta in Ho, Hs. rewrite Ho, Hs.
  destruct (optimization ws =? 0)%Z eqn:E; [|reflexivity].
  assert (optimization ws = 0) as H0 by lia.
  unfold flush_to. cbn [fst snd optimization set_str_table]. rewrite H0.
  reflexivity.
Qed.

Lemma accepted_flush_to row col ws :
  accepted row col ws = true ->
  accepted row col (flush_to py_float row ws) = true.
Proof.
  unfold accepted, flush_to. intros H.
  destruct (truthy (optimization ws) && (previous_row ws <? row)%Z)%bool;
    [|exact H].
  cbn [optimization previous_row flushed set_table set_fh set_previous_row].
  rewrite Z.ltb_irrefl, andb_false_r.
  apply andb_true_iff in H as [H _]. rewrite H. reflexivity.
Qed.

Lemma covers_flush_to row col r ws :
  covers row col ws -> covers row col (flush_to py_float r ws).
Proof.
  unfold covers.
  destruct (flush_to_frame r ws) as (_ & -> & -> & -> & -> & _). auto.
Qed.

Lemma sheet_ok_flush_to row ws : sheet_ok ws -> sheet_ok (flush_to py_float row ws).
Proof.
  intros H. unfold flush_to. destruct (_ && _)%bool; [|exact H].
  intros r col c. unfold table_row. cbn. rewrite lookup_empty. cbn.
  rewrite lookup_empty. discriminate.
Qed.

Lemma truncated_short s : (xls_strmax <? Py.len s)%Z = false -> truncated s = (s, 0).
Proof. intros H. unfold truncated. now rewrite H. Qed.

Lemma write_url_spec row col u f str_ tip ws :
  mode_ok ws -> sheet_ok ws ->
  write_url py_float row col u f str_ tip ws
  = run_spec py_float font_xml t_element_xml default_format
      (WUrl row col u f str_ tip) ws.
Proof.
  intros Hmode Hok. unfold write_url, run_spec.
  cbn [op_effect op_check op_anchor fst snd]. unfold url_effect.
  destruct (url_prepare u str_) as [[url0 s0] lt0].
  unfold mbind at 1, M_bind at 1, bind at 1. rewrite accepted_check.
  destruct (accepted row col ws) eqn:Ha.
  2:{ repeat case_match; first [reflexivity | discriminate]. }
  cbn [truthy Z.eqb negb].
  destruct (xls_strmax <? Py.len s0)%Z eqn:Elen.
  { unfold apply_effect, ret. rewrite bump_nothing. reflexivity. }
  destruct (url_target url0 s0 lt0) as [[[url1 loc] lt1]|e].
  2:{ rewrite bind_lift_raise. unfold apply_effect.
      rewrite bump_nothing. reflexivity. }
  rewrite bind_lift_ok.
  destruct (255 <? Py.len url1)%Z.
  { unfold apply_effect, ret. rewrite bump_nothing. reflexivity. }
  rewrite bind_modify, bind_get.
  cbn [id hlink_count set_hlink_count widened set_dim_col set_dim_row].
  destruct (65530 <? hlink_count ws + 1)%Z.
  { unfold apply_effect, ret. rewrite bump_count. reflexivity. }
  unfold apply_effect. rewrite bump_count.
  fold (widened row col ws).
  set (w := set_hlink_count (hlink_count (widened row col ws) + 1)
              (widened row col ws)).
  change (set_hlink_count (hlink_count ws + 1) (widened row col ws)) with w.
  pose proof (widened_dims row col ws) as [Hlo Hhi].
  assert (Hw : sheet_ok w) by exact Hok.
  assert (Hflush :
    (if ((optimization w =? 1)%Z && (previous_row w <? row)%Z)%bool
     then _write_single_row py_float row else ret tt) w
    = (flush_to py_float row w, Ok tt)).
  { unfold flush_to. change (optimization w) with (optimization ws).
    destruct Hmode as [H|H]; rewrite H; cbn [Z.eqb truthy negb andb];
      [reflexivity|].
    destruct (previous_row w <? row)%Z; [|reflexivity].
    apply write_single_row_spec; auto. }
  rewrite bind_ok with (1 := Hflush).
  assert (Hws :
    write_string py_float row col s0 f (flush_to py_float row w)
    = (stored row col (intern (String_ (SText s0) f) w).1
         (flush_to py_float row (intern (String_ (SText s0) f) w).2),
       Ok 0)).
  { rewrite write_string_spec by (apply sheet_ok_flush_to; exact Hw).
    unfold run_spec. cbn [op_effect op_check op_anchor fst snd].
    rewrite (truncated_short _ Elen). cbn [fst snd].
    rewrite accepted_flush_to by exact Ha.
    rewrite (covers_widened row col (flush_to py_float row w))
      by (apply covers_flush_to; apply (widened_covers row col ws)).
    unfold apply_effect. rewrite bump_nothing.
    rewrite intern_flush_to. cbn [fst snd linked].
    rewrite flush_to_idem. reflexivity. }
  rewrite bind_ok with (1 := Hws).
  rewrite bind_modify. reflexivity.
Qed.

(** Every typed write is the function [run_spec]. *)
Lemma run_op_spec op ws :
  mode_ok ws -> sheet_ok ws -> (optimization ws = 0 -> single_cell op) ->
  run op ws
  = run_spec py_float font_xml t_element_xml default_format op ws.
Proof.
  intros Hmode Hok Hsingle. destruct op; cbn [run_op].
  - now apply write_string_spec.
  - now apply write_number_spec.
  - now apply write_blank_spec.
  - now apply write_formula_spec.
  - now apply write_array_formula_spec.
  - now apply write_datetime_spec.
  - now apply write_url_spec.
  - now apply write_rich_string_spec.
Qed.

(** *** Result codes *)

Lemma bind_inv {A B} (m : M A) (k : A -> M B) ws ws' r :
  (m ≫= k) ws = (ws', Ok r) ->
  exists w a, m ws = (w, Ok a) /\ k a w = (ws', Ok r).
Proof.
  unfold mbind, M_bind, bind. destruct (m ws) as [w [a|e]]; [eauto|].
  discriminate.
Qed.

Ltac inv_binds H :=
  repeat (apply bind_inv in H; destruct H as (? & ? & _ & H)).

Ltac inv_ret H :=
  inv_binds H; unfold ret in H; injection H as _ H.

Lemma write_string_codes row col s f ws ws' rc :
  write_string py_float row col s f ws = (ws', Ok rc) ->
  (rc = -1 /\ ws' = ws) \/ rc = 0 \/ (rc = -2 /\ xls_strmax < Py.len s).
Proof.
  unfold write_string. intros H.
  unfold mbind at 1, M_bind at 1, bind at 1 in H. rewrite accepted_check in H.
  destruct (accepted row col ws).
  - right. cbn [truthy Z.eqb negb] in H.
    destruct (xls_strmax <? Py.len s)%Z eqn:E; inv_ret H; subst; [right|left];
      [split; [reflexivity|lia] | reflexivity].
  - left. cbn in H. injection H as <- <-. auto.
Qed.

Lemma write_number_codes row col q f ws ws' rc :
  write_number py_float row col q f ws = (ws', Ok rc) ->
  (rc = -1 /\ ws' = ws) \/ rc = 0.
Proof.
  unfold write_number. intros H.
  unfold mbind at 1, M_bind at 1, bind at 1 in H. rewrite accepted_check in H.
  destruct (accepted row col ws).
  - right. cbn [truthy Z.eqb negb] in H. inv_ret H. now subst.
  - left. cbn in H. injection H as <- <-. auto.
Qed.

Lemma write_blank_codes row col f ws ws' rc :
  write_blank py_float row col f ws = (ws', Ok rc) ->
  (rc = -1 /\ ws' = ws) \/ rc = 0.
Proof.
  unfold write_blank. intros H. destruct f as [f|].
  - unfold mbind at 1, M_bind at 1, bind at 1 in H.
    rewrite accepted_check in H. destruct (accepted row col ws).
    + right. cbn [truthy Z.eqb negb] in H. inv_ret H. now subst.
    + left. cbn in H. injection H as <- <-. auto.
  - right. injection H as _ <-. reflexivity.
Qed.

Lemma write_datetime_codes row col d f ws ws' rc :
  write_datetime py_float row col d f ws = (ws', Ok rc) ->
  (rc = -1 /\ ws' = ws) \/ rc = 0.
Proof.
  unfold write_datetime. intros H.
  unfold mbind at 1, M_bind at 1, bind at 1 in H. rewrite accepted_check in H.
  destruct (accepted row col ws).
  - right. cbn [truthy Z.eqb negb] in H. inv_ret H. now subst.
  - left. cbn in H. injection H as <- <-. auto.
Qed.

Lemma write_array_formula_codes r1 c1 r2 c2 formula f v ws ws' rc :
  write_array_formula py_float r1 c1 r2 c2 formula f v ws = (ws', Ok rc) ->
  (rc = -1 /\ ws' = ws
   /\ accepted (Z.max r1 r2) (Z.max c1 c2) ws = false) \/ rc = 0.
Proof.
  unfold write_array_formula. intros H.
  assert (Hr : (if (r2 <? r1)%Z then (r2, r1) else (r1, r2))
               = (Z.min r1 r2, Z.max r1 r2)).
  { destruct (r2 <? r1)%Z eqn:E; f_equal; lia. }
  assert (Hc : (if (c2 <? c1)%Z then (c2, c1) else (c1, c2))
               = (Z.min c1 c2, Z.max c1 c2)).
  { destruct (c2 <? c1)%Z eqn:E; f_equal; lia. }
  rewrite Hr, Hc in H. clear Hr Hc.
  unfold mbind at 1, M_bind at 1, bind at 1 in H. rewrite accepted_check in H.
  destruct (accepted (Z.max r1 r2) (Z.max c1 c2) ws).
  - right. cbn [truthy Z.eqb negb] in H. inv_ret H. now subst.
  - left. cbn in H. injection H as <- <-. auto.
Qed.

Lemma write_formula_codes row col formula f v ws ws' rc :
  write_formula py_float row col formula f v ws = (ws', Ok rc) ->
  (rc = -1 /\ ws' = ws) \/ rc = 0.
Proof.
  unfold write_formula. intros H.
  unfold mbind at 1, M_bind at 1, bind at 1 in H. rewrite accepted_check in H.
  destruct (accepted row col ws) eqn:Ha.
  - right. cbn [truthy Z.eqb negb] in H.
    destruct (Py.startswith "{" formula && Py.endswith "}" formula)%bool.
    + apply write_array_formula_codes in H as [(_ & _ & H)|H]; [|exact H].
      rewrite !Z.max_id, accepted_widened in H. congruence.
    + inv_ret H. now subst.
  - left. cbn in H. injection H as <- <-. auto.
Qed.

Lemma write_url_codes row col u f str_ tip ws ws' rc :
  write_url py_float row col u f str_ tip ws = (ws', Ok rc) ->
  (rc = -1 /\ ws' = ws) \/ rc = 0
  \/ ((rc = -2 \/ rc = -3) /\ ws' = widened row col ws)
  \/ (rc = -5
      /\ ws' = set_hlink_count (hlink_count ws + 1) (widened row col ws)).
Proof.
  unfold write_url. intros H.
  destruct (url_prepare u str_) as [[url0 s0] lt0].
  unfold mbind at 1, M_bind at 1, bind at 1 in H. rewrite accepted_check in H.
  destruct (accepted row col ws).
  2:{ left. cbn in H. injection H as <- <-. auto. }
  right. cbn [truthy Z.eqb negb] in H.
  destruct (xls_strmax <? Py.len s0)%Z.
  { right. left. injection H as <- <-. auto. }
  destruct (url_target url0 s0 lt0) as [[[url1 loc] lt1]|e];
    [rewrite bind_lift_ok in H | rewrite bind_lift_raise in H; discriminate].
  destruct (255 <? Py.len url1)%Z.
  { right. left. injection H as <- <-. auto. }
  rewrite bind_modify, bind_get in H.
  match type of H with
  | context [(65530 <? ?n)%Z] => destruct (65530 <? n)%Z
  end.
  { right. right. injection H as <- <-. auto. }
  left. inv_ret H. now subst.
Qed.

Lemma write_rich_string_codes row col args ws ws' rc :
  write_rich_string py_float font_xml t_element_xml default_format
    row col args ws = (ws', Ok rc) ->
  (rc = -1 /\ ws' = ws) \/ rc = 0
  \/ ((rc = -2 \/ rc = -3)
      /\ exists x, ws' = set_rstring x (widened row col ws)).
Proof.
  unfold write_rich_string. intros H.
  unfold mbind at 1, M_bind at 1, bind at 1 in H. rewrite accepted_check in H.
  destruct (accepted row col ws).
  2:{ left. cbn in H. injection H as <- <-. auto. }
  right. cbn [truthy Z.eqb negb] in H.
  apply bind_inv in H as (w & [tokens cf] & Hl & H).
  assert (w = widened row col ws) as ->.
  { destruct (last args) as [[?|?]|]; try discriminate;
      now injection Hl as <- _. }
  rewrite bind_modify in H.
  destruct (rich_fragments default_format tokens ([], true, 0, 0))
    as [[fragments len]|].
  2:{ right. injection H as <- <-. split; [auto|]. eauto. }
  destruct fragments as [|fr rest]; [discriminate|].
  rewrite bind_ret, bind_modify, bind_get in H.
  destruct (xls_strmax <? len)%Z.
  { right. injection H as <- <-. split; [auto|]. eexists. reflexivity. }
  left. inv_ret H. now subst.
Qed.

(** C4, amended.  A typed write that returns -1 leaves the worksheet
    exactly as it was.  The other non-zero results are not all-or-nothing:
    -2 from [write_string] is the truncation result, with the cell stored;
    -2, -3 and -5 from [write_url] and [write_rich_string] come after the
    bounds check, so the dimension is already widened to the coordinate,
    and -5 comes after the hyperlink count was advanced by one; the cell
    store, the hyperlinks, the merged ranges, the shared strings and the
    written rows are as before the call. *)
Theorem error_result_state (op : write_op) (ws ws' : worksheet) (rc : Z) :
  run op ws = (ws', Ok rc) -> rc <> 0 ->
  (rc = -1 /\ ws' = ws)
  \/ (rc = -2 /\ is_write_string op)
  \/ ((rc = -2 \/ rc = -3 \/ rc = -5) /\ is_url_or_rich op
      /\ same_content ws ws'
      /\ same_dimension (widened (op_check op).1 (op_check op).2 ws) ws'
      /\ hlink_count ws' = hlink_count ws + (if (rc =? -5)%Z then 1 else 0)).
Proof.
  intros H Hrc. destruct op; cbn [run_op] in H.
  - apply write_string_codes in H as [H|[H|[H _]]]; [auto|tauto|].
    right. left. split; [exact H|exact I].
  - apply write_number_codes in H as [H|H]; [auto|tauto].
  - apply write_blank_codes in H as [H|H]; [auto|tauto].
  - apply write_formula_codes in H as [H|H]; [auto|tauto].
  - apply write_array_formula_codes in H as [(H1 & H2 & _)|H]; [auto|tauto].
  - apply write_datetime_codes in H as [H|H]; [auto|tauto].
  - apply write_url_codes in H as [H|[H|[[H ->]|[H ->]]]]; [auto|tauto| |].
    + right. right. split; [tauto|]. split; [exact I|].
      split; [repeat split|]. split; [repeat split|].
      cbn. destruct H as [-> | ->]; cbn; lia.
    + right. right. split; [tauto|]. split; [exact I|].
      split; [repeat split|]. split; [repeat split|].
      subst rc. reflexivity.
  - apply write_rich_string_codes in H as [H|[H|[H [x ->]]]]; [auto|tauto|].
    right. right. split; [tauto|]. split; [exact I|].
    split; [repeat split|]. split; [repeat split|].
    cbn. destruct H as [-> | ->]; cbn; lia.
Qed.

(** *** Truncation *)

Lemma index_of_text s table i j :
  SharedStrings.index_of s table i = Some j ->
  0 <= i -> i <= j /\ table !! Z.to_nat (j - i) = Some s.
Proof.
  revert i. induction table as [|x rest IH]; intros i H Hi; [discriminate|].
  cbn in H. destruct (String.eqb x s) eqn:E.
  - injection H as <-. apply String.eqb_eq in E as ->.
    split; [lia|]. now rewrite Z.sub_diag.
  - apply IH in H as [H1 H2]; [|lia]. split; [lia|].
    replace (Z.to_nat (j - i)) with (S (Z.to_nat (j - (i + 1)))) by lia.
    exact H2.
Qed.

Lemma interned_text table s :
  SharedStrings.text_of
    (SharedStrings._get_shared_string_index table s).2
    (SharedStrings._get_shared_string_index table s).1 = Some s.
Proof.
  unfold SharedStrings._get_shared_string_index, SharedStrings.text_of.
  destruct (SharedStrings.index_of s table 0) as [j|] eqn:E; cbn [fst snd].
  - apply index_of_text in E as [Hj E]; [|lia].
    replace (j <? 0)%Z with false by lia. now rewrite Z.sub_0_r in E.
  - destruct (Z.of_nat (length table) <? 0)%Z eqn:En.
    { apply Z.ltb_lt in En. pose proof (Zle_0_nat (length table)). lia. }
    rewrite Nat2Z.id. now apply list_lookup_middle.
Qed.

Lemma stored_lookup row col c ws :
  table_row (stored row col c ws) row !! col = Some c.
Proof.
  unfold table_row, stored. cbn. rewrite lookup_insert_eq. cbn.
  apply lookup_insert_eq.
Qed.

(** C6, amended.  [write_string] with a text of more than 32,767
    characters at an accepted coordinate stores the first 32,767
    characters in the cell and returns -2.  [write_url] whose displayed
    string has more than 32,767 characters returns -2 and stores nothing:
    the sheet is as it was but for the dimension, which the bounds check
    has widened. *)
Theorem long_string_results row col ws :
  accepted row col ws = true ->
  (forall s f, mode_ok ws -> sheet_ok ws -> xls_strmax < Py.len s ->
     exists ws' r,
       write_string py_float row col s f ws = (ws', Ok (-2))
       /\ table_row ws' row !! col = Some (String_ r f)
       /\ string_text ws' r = Some (Py.take_str (Z.to_nat xls_strmax) s))
  /\ (forall u f str_ tip,
        xls_strmax < Py.len (url_prepare u str_).1.2 ->
        write_url py_float row col u f str_ tip ws
        = (widened row col ws, Ok (-2))
        /\ same_content ws (widened row col ws)
        /\ hlink_count (widened row col ws) = hlink_count ws).
Proof.
  intros Ha. split.
  - intros s f Hmode Hok Hlen.
    rewrite write_string_spec by exact Hok.
    unfold run_spec. cbn [op_effect op_check op_anchor fst snd]. rewrite Ha.
    unfold truncated. replace (xls_strmax <? Py.len s)%Z with true by lia.
    cbn [fst snd]. unfold apply_effect. rewrite bump_nothing.
    cbn [linked].
    set (t := Py.take_str (Z.to_nat xls_strmax) s).
    set (w := widened row col ws).
    destruct (intern (String_ (SText t) f) w) as [c w'] eqn:Ei.
    cbn [fst snd].
    assert (Hc : exists r, c = String_ r f /\ string_text w' r = Some t).
    { unfold intern in Ei. destruct (optimization w =? 0)%Z.
      - injection Ei as <- <-. eexists. split; [reflexivity|].
        cbn. apply interned_text.
      - injection Ei as <- <-. eexists. split; reflexivity. }
    destruct Hc as (r & -> & Hr).
    eexists _, r. split; [reflexivity|]. split; [apply stored_lookup|].
    destruct r as [i|x]; [|exact Hr]. cbn in *.
    destruct (flush_to_frame row w') as (_ & _ & _ & _ & _ & Hs & _).
    cbv zeta in Hs. rewrite Hs. exact Hr.
  - intros u f str_ tip Hlen. split; [|split; [repeat split|reflexivity]].
    unfold write_url. destruct (url_prepare u str_) as [[url0 s0] lt0].
    cbn [fst snd] in Hlen.
    unfold mbind at 1, M_bind at 1, bind at 1. rewrite accepted_check, Ha.
    cbn [truthy Z.eqb negb].
    replace (xls_strmax <? Py.len s0)%Z with true by lia. reflexivity.
Qed.

(** *** Streaming order *)

Lemma op_effect_skips op ws :
  op_effect font_xml t_element_xml default_format op ws = Skips ->
  formatless_blank op.
Proof.
  destruct op; cbn [op_effect formatless_blank]; try discriminate.
  - destruct f; [discriminate|auto].
  - unfold array_effect. repeat case_match; discriminate.
  - unfold array_effect. repeat case_match; discriminate.
  - unfold url_effect. repeat case_match; discriminate.
  - unfold rich_effect. repeat case_match; discriminate.
Qed.

Lemma op_effect_fails op ws rc count rs :
  op_effect font_xml t_element_xml default_format op ws
  = Fails (Ok rc) count rs ->
  rc <> 0 /\ ~ is_write_string op.
Proof.
  destruct op; cbn [op_effect is_write_string]; try discriminate.
  - destruct f; discriminate.
  - unfold array_effect. repeat case_match; try discriminate.
  - unfold array_effect. repeat case_match; discriminate.
  - unfold url_effect. intros H.
    repeat case_match; try discriminate; injection H as <- _ _;
      split; (lia || auto).
  - unfold rich_effect. intros H.
    repeat case_match; try discriminate; injection H as <- _ _;
      split; (lia || auto).
Qed.

Lemma op_effect_stores op ws c rc count rs link :
  op_effect font_xml t_element_xml default_format op ws
  = Stores c rc count rs link ->
  forall opt, cell_ok opt c = true.
Proof.
  destruct op; cbn [op_effect]; intros H opt.
  - now injection H as <- _ _ _ _.
  - now injection H as <- _ _ _ _.
  - destruct f; [|discriminate]. now injection H as <- _ _ _ _.
  - unfold array_effect in H.
    repeat case_match; try discriminate; now injection H as <- _ _ _ _.
  - unfold array_effect in H.
    repeat case_match; try discriminate; now injection H as <- _ _ _ _.
  - now injection H as <- _ _ _ _.
  - unfold url_effect in H.
    repeat case_match; try discriminate; now injection H as <- _ _ _ _.
  - unfold rich_effect in H.
    repeat case_match; try discriminate; now injection H as <- _ _ _ _.
Qed.

Lemma row_xml_frame ws1 ws2 row span cols :
  same_view ws1 ws2 ->
  row_xml py_float ws1 row span cols = row_xml py_float ws2 row span cols.
Proof.
  intros (Ho & Hv & Hh & Ht & Hr & Hc & Hm). unfold row_xml.
  rewrite !(row_tag_frame ws1 ws2) by assumption.
  unfold cells_xml, table_row, cell_xml, cell_style.
  rewrite Ho, Ht, Hr, Hc, Hm. reflexivity.
Qed.

Lemma run_rejected op ws :
  mode_ok ws -> sheet_ok ws -> (optimization ws = 0 -> single_cell op) ->
  ~ formatless_blank op ->
  accepted (op_check op).1 (op_check op).2 ws = false ->
  run op ws = (ws, Ok (-1)).
Proof.
  intros Hm Hok Hs Hb Ha. rewrite run_op_spec by assumption.
  unfold run_spec. rewrite Ha.
  destruct (op_effect _ _ _ op ws) eqn:E; try reflexivity.
  apply op_effect_skips in E. contradiction.
Qed.

Lemma stores_streaming row col c rc count rs link w :
  optimization w = 1 ->
  apply_effect py_float row col (Stores c rc count rs link) w
  = (linked row col link
       (stored row col c (flush_to py_float row (bump count rs w))), Ok rc).
Proof.
  intros Ho. unfold apply_effect, intern.
  change (optimization (bump count rs w)) with (optimization w). rewrite Ho.
  destruct c as [[i|s] f| | | |]; reflexivity.
Qed.

Lemma linked_frame row col link ws :
  let ws' := linked row col link ws in
  table ws' = table ws /\ previous_row ws' = previous_row ws
  /\ fh ws' = fh ws /\ optimization ws' = optimization ws.
Proof. destruct link; cbn; auto. Qed.

Lemma accepted_order row col ws :
  optimization ws = 1 -> row < previous_row ws -> accepted row col ws = false.
Proof.
  intros Ho Hr. unfold accepted. rewrite Ho.
  replace (row <? previous_row ws)%Z with true by lia.
  cbn. now rewrite andb_false_r.
Qed.

Lemma accepted_true row col ws :
  accepted row col ws = true ->
  in_bounds row col /\ (optimization ws = 1 -> previous_row ws <= row).
Proof.
  unfold accepted, in_bounds. intros H.
  apply andb_true_iff in H as [H H3]. apply andb_true_iff in H as [H1 H2].
  split; [lia|]. intros Ho. rewrite Ho in H3. cbn in H3. lia.
Qed.

(** C3, amended.  In streaming mode a typed write other than a
    format-less [write_blank] whose checked row is below the row being
    buffered returns -1 and changes nothing; the last flushed row is below
    the buffered row, so this holds for every row at or below it.  A write
    that stores a cell in a row after the buffered row first writes the
    buffered row out and empties the cell store, so that the new cell is
    the only one kept.  With these two cases (an array formula whose range
    starts before the buffered row and ends at or after it is left out)
    the cell store never holds cells of more than one row. *)
Theorem streaming_order (op : write_op) (ws : worksheet) :
  optimization ws = 1 -> sheet_ok ws ->
  (~ formatless_blank op -> (op_check op).1 < previous_row ws ->
     run op ws = (ws, Ok (-1)))
  /\ (~ formatless_blank op -> previous_row ws < (op_anchor op).1 ->
      forall ws' rc, run op ws = (ws', Ok rc) -> stores_result op rc ->
        previous_row ws' = (op_anchor op).1
        /\ fh ws'
           = (fh ws
              ++ row_xml py_float ws (previous_row ws) None
                   (dim_cols (widened (op_check op).1 (op_check op).2 ws)))%list
        /\ exists c,
             table ws'
             = {[ (op_anchor op).1 := {[ (op_anchor op).2 := c ]} ]})
  /\ (one_row ws ->
      (op_check op).1 < previous_row ws \/ previous_row ws <= (op_anchor op).1 ->
      one_row (run op ws).1 /\ sheet_ok (run op ws).1
      /\ optimization (run op ws).1 = 1).
Proof.
  intros Ho Hok.
  assert (Hmode : mode_ok ws) by (now right).
  assert (Hsingle : optimization ws = 0 -> single_cell op) by lia.
  split; [|split].
  - intros Hb Hrow. apply run_rejected; auto. now apply accepted_order.
  - intros Hb Hrow ws' rc Hrun Hrc.
    rewrite run_op_spec in Hrun by assumption. unfold run_spec in Hrun.
    destruct (op_effect _ _ _ op ws) as [|r count rs|c rc' count rs link]
      eqn:E.
    + apply op_effect_skips in E. contradiction.
    + destruct (accepted _ _ ws).
      * cbn in Hrun. injection Hrun as _ ->.
        apply op_effect_fails in E as [E1 E2].
        destruct Hrc as [?|[_ ?]]; contradiction.
      * injection Hrun as _ <-. destruct Hrc as [?|[? _]]; lia.
    + destruct (accepted _ _ ws).
      2:{ injection Hrun as _ <-. destruct Hrc as [?|[? _]]; lia. }
      rewrite stores_streaming in Hrun by exact Ho.
      injection Hrun as <- _.
      set (cr := (op_check op).1). set (cc := (op_check op).2).
      set (row := (op_anchor op).1) in *. set (col := (op_anchor op).2).
      set (w := bump count rs (widened cr cc ws)).
      assert (Hf : flush_to py_float row w = flushed py_float row w).
      { unfold flush_to. change (optimization w) with (optimization ws).
        change (previous_row w) with (previous_row ws). rewrite Ho.
        replace (previous_row ws <? row)%Z with true by lia. reflexivity. }
      rewrite Hf.
      destruct (linked_frame row col link
                  (stored row col c (flushed py_float row w)))
        as (-> & -> & -> & _).
      split; [reflexivity|]. split.
      * cbn [fh stored set_table flushed set_fh set_previous_row].
        change (fh w) with (fh ws).
        change (previous_row w) with (previous_row ws).
        change (dim_cols w) with (dim_cols (widened cr cc ws)).
        f_equal. apply row_xml_frame. repeat split.
      * exists c. unfold stored, table_row. cbn [table flushed set_table].
        rewrite lookup_empty. cbn [default]. rewrite !insert_empty.
        reflexivity.
  - intros Hone Hcase.
    assert (Hdec : formatless_blank op \/ ~ formatless_blank op).
    { destruct op; cbn; auto. destruct f; auto. }
    destruct Hdec as [Hb|Hb].
    { destruct op; try contradiction. destruct f; [contradiction|].
      cbn. auto. }
    destruct Hcase as [Hrow|Hrow].
    { rewrite run_rejected; auto. now apply accepted_order. }
    rewrite run_op_spec by assumption. unfold run_spec.
    destruct (op_effect _ _ _ op ws) as [|r count rs|c rc' count rs link]
      eqn:E.
    + auto.
    + destruct (accepted _ _ ws); cbn; auto.
    + destruct (accepted _ _ ws); [|cbn; auto].
      rewrite stores_streaming by exact Ho. cbn [fst].
      set (cr := (op_check op).1). set (cc := (op_check op).2).
      set (row := (op_anchor op).1) in *. set (col := (op_anchor op).2).
      set (w := bump count rs (widened cr cc ws)).
      assert (Hw : sheet_ok w) by exact Hok.
      pose proof (sheet_ok_flush_to row w Hw) as Hfl.
      destruct (flush_to_frame row w) as (Hfo & _).
      cbv zeta in Hfo. change (optimization w) with (optimization ws) in Hfo.
      destruct (linked_frame row col link
                  (stored row col c (flush_to py_float row w)))
        as (Ht & Hp & _ & Hop).
      cbv zeta in Ht, Hp, Hop.
      assert (Hprev : previous_row (flush_to py_float row w) = row
                      /\ one_row (flush_to py_float row w)).
      { unfold flush_to. change (optimization w) with (optimization ws).
        change (previous_row w) with (previous_row ws). rewrite Ho.
        destruct (previous_row ws <? row)%Z eqn:El; cbn [truthy Z.eqb negb andb].
        - split; [reflexivity|]. intros r _. cbn. apply lookup_empty.
        - split; [change (previous_row w) with (previous_row ws); lia|].
          exact Hone. }
      destruct Hprev as [Hprev Hone'].
      split; [|split].
      * intros r Hr. rewrite Ht. rewrite Hp in Hr. cbn in Hr.
        cbn [stored table set_table]. rewrite Hprev in Hr.
        rewrite lookup_insert_ne by congruence.
        apply Hone'. now rewrite Hprev.
      * intros r col' c'. unfold table_row. rewrite Ht, Hop.
        cbn [stored table set_table optimization]. rewrite Hfo.
        destruct (decide (r = row)) as [->|Hne].
        -- rewrite lookup_insert_eq. cbn [default id].
           destruct (decide (col' = col)) as [Heq|Hnc].
           ++ rewrite Heq, lookup_insert_eq. intros [= <-].
              eapply op_effect_stores. exact E.
           ++ rewrite lookup_insert_ne by congruence.
              intros H. specialize (Hfl row col' c' H).
              now rewrite Hfo in Hfl.
        -- rewrite lookup_insert_ne by congruence.
           intros H. specialize (Hfl r col' c' H). now rewrite Hfo in Hfl.
      * rewrite Hop. cbn [stored optimization set_table]. now rewrite Hfo.
Qed.

(** *** Merged ranges *)

Lemma sheet_ok_buffered ws : optimization ws = 0 -> sheet_ok ws.
Proof.
  intros Ho r col c _. rewrite Ho. destruct c as [[i|s] f| | | |]; reflexivity.
Qed.



Lemma run_spec_frame op ws :
  let ws' := (run_spec py_float font_xml t_element_xml default_format op ws).1 in
  merge ws' = merge ws /\ optimization ws' = optimization ws.
Proof.
  unfold run_spec.
  destruct (op_effect _ _ _ op ws) as [|r count rs|c rc count rs link];
    [cbn; auto| |]; destruct (accepted _ _ ws);
    unfold apply_effect; cbn [fst]; auto.
  set (w := bump count rs (widened _ _ ws)).
    destruct (intern_frame c w) as (Hio & _).
    assert (Him : merge (intern c w).2 = merge ws).
    { unfold intern. repeat case_match; reflexivity. }
    set (w2 := (intern c w).2) in *.
    destruct (flush_to_frame (op_anchor op).1 w2)
      as (Hfo & _ & _ & _ & _ & _ & _ & _ & Hfm & _).
    cbv zeta in Hfo, Hfm, Hio.
    destruct link; cbn; rewrite ?Hfo, ?Hfm, ?Hio; auto.
Qed.


Lemma elem_of_range_other_cells r1 c1 r2 c2 r c :
  (r, c) ∈ range_other_cells r1 c1 r2 c2 <-> other_cell r1 c1 r2 c2 r c.
Proof.
  unfold range_other_cells, other_cell, py_range.
  rewrite list_elem_of_bind. split.
  - intros (r' & H & Hr). apply elem_of_seqZ in Hr.
    apply list_elem_of_bind in H as (c' & H & Hc). apply elem_of_seqZ in Hc.
    destruct (negb (r' =? r1)%Z || negb (c' =? c1)%Z)%bool eqn:E;
      [|inversion H].
    apply list_elem_of_singleton in H. injection H as -> ->.
    apply orb_true_iff in E. repeat split; lia.
  - intros (Hr & Hc & Hne). exists r. split; [|apply elem_of_seqZ; lia].
    apply list_elem_of_bind. exists c. split; [|apply elem_of_seqZ; lia].
    assert (E : (negb (r =? r1)%Z || negb (c =? c1)%Z)%bool = true).
    { apply orb_true_iff. destruct Hne; [left|right];
        apply negb_true_iff; lia. }
    rewrite E. apply list_elem_of_singleton. reflexivity.
Qed.


Lemma swap_min_max (a b : Z) :
  (if (b <? a)%Z then (b, a) else (a, b)) = (Z.min a b, Z.max a b).
Proof. destruct (b <? a)%Z eqn:E; f_equal; lia. Qed.


(** *** Array formulas in buffered mode *)

Lemma write_number_buffered row col q f ws :
  optimization ws = 0 -> in_bounds row col ->
  write_number py_float row col q f ws
  = (stored row col (Number q f) (widened row col ws), Ok 0).
Proof.
  intros Ho [Hr Hc].
  rewrite write_number_spec by now apply sheet_ok_buffered.
  unfold run_spec. cbn [op_effect op_check op_anchor fst snd].
  unfold accepted. rewrite Ho.
  replace (row <? xls_rowmax)%Z with true by lia.
  replace (col <? xls_colmax)%Z with true by lia.
  cbn [andb negb Z.eqb].
  unfold apply_effect, intern. rewrite bump_nothing. cbn [fst snd].
  unfold flush_to.
  change (optimization (widened row col ws)) with (optimization ws).
  rewrite Ho. reflexivity.
Qed.

Lemma same_apart_cells_stored row col c ws :
  same_apart_cells ws (stored row col c (widened row col ws)).
Proof. repeat split. Qed.

Lemma same_apart_cells_trans ws1 ws2 ws3 :
  same_apart_cells ws1 ws2 -> same_apart_cells ws2 ws3 ->
  same_apart_cells ws1 ws3.
Proof.
  unfold same_apart_cells. intros H1 H2.
  repeat match goal with H : _ /\ _ |- _ => destruct H end.
  repeat split; congruence.
Qed.

Lemma stored_other row col c ws r c0 :
  (r, c0) <> (row, col) ->
  table_row (stored row col c ws) r !! c0 = table_row ws r !! c0.
Proof.
  intros H. unfold stored, table_row. cbn [table set_table].
  destruct (decide (r = row)) as [Hr|Hr].
  - rewrite Hr, lookup_insert_eq. cbn [default id].
    rewrite lookup_insert_ne; [reflexivity|]. congruence.
  - rewrite lookup_insert_ne by congruence. reflexivity.
Qed.

(** A loop that stores the same cell at each coordinate of a list. *)
Lemma fill_spec (w : Z -> Z -> M Z) (c : cell) (cells : list (Z * Z)) ws :
  (forall row col ws, optimization ws = 0 -> in_bounds row col ->
     w row col ws = (stored row col c (widened row col ws), Ok 0)) ->
  optimization ws = 0 ->
  (forall rc, rc ∈ cells -> in_bounds rc.1 rc.2) ->
  exists ws',
    for_each cells (fun rc => w rc.1 rc.2;; ret tt) ws = (ws', Ok tt)
    /\ same_apart_cells ws ws'
    /\ forall r c0,
         ((r, c0) ∈ cells -> table_row ws' r !! c0 = Some c)
         /\ ((r, c0) ∉ cells -> table_row ws' r !! c0 = table_row ws r !! c0).
Proof.
  intros Hw. revert ws. induction cells as [|[r0 c1] cells IH]; intros ws Ho Hin.
  - exists ws. split; [reflexivity|]. split; [repeat split|].
    intros r c0. split; [|reflexivity]. intros H. inversion H.
  - cbn [for_each].
    assert (Hb : in_bounds r0 c1) by (apply (Hin (r0, c1)); left).
    set (w1 := stored r0 c1 c (widened r0 c1 ws)).
    destruct (IH w1) as (ws' & Hrun & Hsame & Hcells).
    { exact Ho. }
    { intros rc H. apply Hin. now right. }
    exists ws'. split.
    { rewrite bind_bind.
      rewrite bind_ok with (1 := Hw r0 c1 ws Ho Hb).
      rewrite bind_ret. exact Hrun. }
    split.
    { eapply same_apart_cells_trans; [|exact Hsame].
      apply same_apart_cells_stored. }
    intros r c0. destruct (Hcells r c0) as [Hyes Hno].
    destruct (decide ((r, c0) ∈ cells)) as [Hel|Hel].
    + split; [intros _; now apply Hyes|].
      intros H. exfalso. apply H. now right.
    + rewrite (Hno Hel). split.
      * intros H. apply elem_of_cons in H as [H|H]; [|contradiction].
        injection H as H1 H2. rewrite H1, H2. apply stored_lookup.
      * intros H. unfold w1. rewrite stored_other; [reflexivity|].
        intros Heq. apply H. rewrite Heq. left.
Qed.

Lemma array_formula_buffered (first_row first_col last_row last_col : Z)
    (formula : string) (f : option Format) (v : fvalue) (ws : worksheet) :
  let r1 := Z.min first_row last_row in
  let r2 := Z.max first_row last_row in
  let c1 := Z.min first_col last_col in
  let c2 := Z.max first_col last_col in
  optimization ws = 0 -> in_bounds r2 c2 ->
  (forall formula', strip_array_formula formula = Ok formula' ->
     exists ws',
       write_array_formula py_float first_row first_col last_row last_col
         formula f v ws = (ws', Ok 0)
       /\ same_apart_cells ws ws'
       /\ table_row ws' r1 !! c1
          = Some (ArrayFormula formula' f v (array_range r1 c1 r2 c2))
       /\ (forall r c, other_cell r1 c1 r2 c2 r c ->
             table_row ws' r !! c = Some (Number 0%Q f))
       /\ (forall r c, ~ in_range r1 c1 r2 c2 r c ->
             table_row ws' r !! c = table_row ws r !! c))
  /\ (forall e, strip_array_formula formula = Raise e ->
      write_array_formula py_float first_row first_col last_row last_col
        formula f v ws = (widened r2 c2 ws, Raise e)).
Proof.
  intros r1 r2 c1 c2 Ho [Hr Hc].
  assert (Hstart : forall k : Z -> M Z,
    (x ← _check_dimensions r2 c2 false false; k x) ws
    = k 0 (widened r2 c2 ws)).
  { intros k. unfold mbind at 1, M_bind at 1, bind at 1.
    rewrite accepted_check. unfold accepted. rewrite Ho.
    replace (r2 <? xls_rowmax)%Z with true by lia.
    replace (c2 <? xls_colmax)%Z with true by lia.
    reflexivity. }
  split.
  - intros formula' Hstrip.
    set (w0 := stored r1 c1 (ArrayFormula formula' f v (array_range r1 c1 r2 c2))
                 (widened r2 c2 ws)).
    destruct (fill_spec (fun row col => write_number py_float row col 0%Q f)
                (Number 0%Q f) (range_other_cells r1 c1 r2 c2) w0)
      as (ws' & Hrun & Hsame & Hcells).
    { intros row col w Hw Hb. now apply write_number_buffered. }
    { exact Ho. }
    { intros [r c] H. apply elem_of_range_other_cells in H.
      destruct H as (H1 & H2 & _). split; cbn [fst snd]; lia. }
    exists ws'. split.
    { unfold write_array_formula. rewrite !swap_min_max. fold r1 r2 c1 c2.
      rewrite Hstart. cbn [truthy Z.eqb negb].
      rewrite Hstrip. rewrite bind_lift_ok.
      unfold flush_previous_row. rewrite bind_bind, bind_get.
      change (optimization (id (widened r2 c2 ws))) with (optimization ws).
      rewrite Ho. cbn [truthy Z.eqb negb andb]. rewrite bind_ret.
      unfold store_cell. rewrite bind_modify, bind_get.
      cbn [id]. change (set_table _ (widened r2 c2 ws)) with w0.
      change (optimization w0) with (optimization ws). rewrite Ho.
      cbn [truthy Z.eqb negb].
      rewrite bind_ok with (1 := Hrun). reflexivity. }
    split.
    { eapply same_apart_cells_trans; [|exact Hsame]. repeat split. }
    assert (Hanchor : (r1, c1) ∉ range_other_cells r1 c1 r2 c2).
    { intros H. apply elem_of_range_other_cells in H.
      destruct H as (_ & _ & [H|H]); now apply H. }
    split.
    { destruct (Hcells r1 c1) as [_ Hs]. rewrite (Hs Hanchor).
      apply stored_lookup. }
    split.
    { intros r c H. apply Hcells. now apply elem_of_range_other_cells. }
    intros r c Hout. destruct (Hcells r c) as [_ Hs]. rewrite Hs.
    + unfold w0. rewrite stored_other; [reflexivity|].
      intros Heq. injection Heq as -> ->. apply Hout.
      unfold in_range, r1, r2, c1, c2. lia.
    + intros H. apply elem_of_range_other_cells in H.
      destruct H as (H1 & H2 & _). apply Hout. split; assumption.
  - intros e Hstrip.
    unfold write_array_formula. rewrite !swap_min_max. fold r1 r2 c1 c2.
    rewrite Hstart. cbn [truthy Z.eqb negb]. rewrite Hstrip. reflexivity.
Qed.


Lemma strip_last_cons (c a : ascii) (t : string) :
  exists s, strip_last c (String a t) = Ok s.
Proof.
  unfold strip_last.
  assert (H : exists x, Py.last_char (String a t) = Some x).
  { revert a. induction t as [|b t IH]; intros a; [now exists a|].
    destruct (IH b) as [x Hx]. exists x.
    change (Py.last_char (String a (String b t)))
      with (Py.last_char (String b t)). exact Hx. }
  destruct H as [x ->]. eauto.
Qed.

(** The three removals raise on four texts only. *)
Lemma strip_array_formula_cases (formula : string) :
  (only_braces formula -> strip_array_formula formula = Raise "IndexError")
  /\ (~ only_braces formula ->
      exists formula', strip_array_formula formula = Ok formula').
Proof.
  unfold only_braces. split.
  - intros [-> | [-> | [-> | ->]]]; reflexivity.
  - intros Hn. unfold strip_array_formula, strip_first.
    destruct formula as [|c t]; [exfalso; auto|].
    cbn [Py.first_char Py.drop_str]. unfold Py.ascii_eqb.
    destruct (Ascii.eqb_spec c "{"%char) as [-> | Hc].
    + destruct t as [|d u]; [exfalso; auto|].
      cbn [Py.first_char Py.drop_str].
      destruct (Ascii.eqb_spec d "="%char) as [-> | Hd].
      * destruct u as [|e w]; [exfalso; auto 6|]. apply strip_last_cons.
      * apply strip_last_cons.
    + cbn [Py.first_char Py.drop_str].
      destruct (Ascii.eqb_spec c "="%char) as [-> | Hd].
      * destruct t as [|d u]; [exfalso; auto 6|]. apply strip_last_cons.
      * apply strip_last_cons.
Qed.

(** X2: in buffered mode [write_array_formula] over an in-bounds range
    (corners in either order) raises IndexError, after the bounds check
    has widened the dimension and with nothing else changed, when the
    formula text is empty or is only an opening brace, an equals sign or
    both; for every other formula text it returns 0, stores the array
    formula, without its braces and leading equals sign, at the first
    cell of the range, stores the number 0 with the format of the call
    at every other cell of the range, and changes no cell outside the
    range and nothing but cells and dimension. *)
Theorem array_formula_pads_range (first_row first_col last_row last_col : Z)
    (formula : string) (f : option Format) (v : fvalue) (ws : worksheet) :
  let r1 := Z.min first_row last_row in
  let r2 := Z.max first_row last_row in
  let c1 := Z.min first_col last_col in
  let c2 := Z.max first_col last_col in
  optimization ws = 0 -> in_bounds r2 c2 ->
  (~ only_braces formula ->
     exists formula' ws',
       strip_array_formula formula = Ok formula'
       /\ write_array_formula py_float first_row first_col last_row last_col
            formula f v ws = (ws', Ok 0)
       /\ same_apart_cells ws ws'
       /\ table_row ws' r1 !! c1
          = Some (ArrayFormula formula' f v (array_range r1 c1 r2 c2))
       /\ (forall r c, other_cell r1 c1 r2 c2 r c ->
             table_row ws' r !! c = Some (Number 0%Q f))
       /\ (forall r c, ~ in_range r1 c1 r2 c2 r c ->
             table_row ws' r !! c = table_row ws r !! c))
  /\ (only_braces formula ->
      write_array_formula py_float first_row first_col last_row last_col
        formula f v ws = (widened r2 c2 ws, Raise "IndexError")).
Proof.
  intros r1 r2 c1 c2 Ho Hb.
  destruct (array_formula_buffered first_row first_col last_row last_col
              formula f v ws Ho Hb) as [Hok Hraise].
  destruct (strip_array_formula_cases formula) as [Hbad Hgood].
  split.
  - intros Hn. destruct (Hgood Hn) as [formula' Hs].
    destruct (Hok formula' Hs) as (ws' & H).
    exists formula', ws'. split; [exact Hs|exact H].
  - intros Hn. apply Hraise. now apply Hbad.
Qed.

(** *** What a buffered write leaves alone *)

Lemma flush_to_buffered row ws :
  optimization ws = 0 -> flush_to py_float row ws = ws.
Proof. intros Ho. unfold flush_to. rewrite Ho. reflexivity. Qed.

Lemma run_spec_buffered op ws :
  optimization ws = 0 ->
  let ws' := (run_spec py_float font_xml t_element_xml default_format op ws).1 in
  fh ws' = fh ws /\ previous_row ws' = previous_row ws
  /\ forall r c, (r, c) <> op_anchor op ->
       table_row ws' r !! c = table_row ws r !! c.
Proof.
  intros Ho. unfold run_spec.
  destruct (op_effect _ _ _ op ws) as [|r count rs|c rc count rs link];
    [cbn; auto| |]; destruct (accepted _ _ ws);
    unfold apply_effect; cbn [fst]; auto.
  set (w := bump count rs (widened _ _ ws)).
  assert (Hw : optimization (intern c w).2 = 0).
  { destruct (intern_frame c w) as (H & _). cbv zeta in H. now rewrite H. }
  rewrite (flush_to_buffered _ _ Hw).
  assert (Hi : fh (intern c w).2 = fh ws
               /\ previous_row (intern c w).2 = previous_row ws
               /\ table (intern c w).2 = table ws).
  { unfold intern. repeat case_match; repeat split. }
  destruct Hi as (Hf & Hp & Ht).
  split; [destruct link; cbn; exact Hf|].
  split; [destruct link; cbn; exact Hp|].
  intros r c0 Hne.
  assert (Hl : forall x, table_row (linked (op_anchor op).1 (op_anchor op).2
                                      link x) r = table_row x r).
  { intros x. destruct link; reflexivity. }
  rewrite Hl. rewrite stored_other.
  - unfold table_row. now rewrite Ht.
  - destruct (op_anchor op). exact Hne.
Qed.

(** X3: in buffered mode no typed write, whatever its arguments and its
    result, writes to the output, moves the buffered row, changes the
    list of merged ranges, or changes a cell outside the range of cells
    it names (the one cell of the call; for an array formula, its
    range). *)
Theorem buffered_write_frame (op : write_op) (ws : worksheet) :
  optimization ws = 0 ->
  let ws' := (run op ws).1 in
  optimization ws' = 0 /\ fh ws' = fh ws
  /\ previous_row ws' = previous_row ws /\ merge ws' = merge ws
  /\ forall r c,
       ~ in_range (op_anchor op).1 (op_anchor op).2
           (op_check op).1 (op_check op).2 r c ->
       table_row ws' r !! c = table_row ws r !! c.
Proof.
  intros Ho.
  assert (Hsingle : single_cell op ->
    let ws' := (run op ws).1 in
    optimization ws' = 0 /\ fh ws' = fh ws
    /\ previous_row ws' = previous_row ws /\ merge ws' = merge ws
    /\ forall r c, (r, c) <> op_anchor op ->
         table_row ws' r !! c = table_row ws r !! c).
  { intros Hs. cbv zeta.
    rewrite run_op_spec;
      [|now left|now apply sheet_ok_buffered|intros _; exact Hs].
    destruct (run_spec_frame op ws) as [Hm Hopt].
    destruct (run_spec_buffered op ws Ho) as (Hf & Hp & Ht).
    cbv zeta in *. rewrite Hopt. auto. }
  assert (Hcell : forall r c,
    ~ in_range (op_anchor op).1 (op_anchor op).2
        (op_check op).1 (op_check op).2 r c -> (r, c) <> op_anchor op).
  { intros r c Hout Heq. apply Hout. unfold in_range.
    destruct op; cbn [op_anchor op_check fst snd] in *;
      injection Heq as -> ->; lia. }
  destruct op as [row col s f|row col q f|row col f|row col fm f v
                 |r1 c1 r2 c2 fm f v|row col d f|row col u f s0 tip
                 |row col args];
    try (destruct (Hsingle I) as (H1 & H2 & H3 & H4 & H5);
         cbv zeta; repeat split; auto).
  cbv zeta. cbn [run_op op_anchor op_check fst snd].
  destruct (Z_lt_ge_dec (Z.max r1 r2) xls_rowmax) as [Hr|Hr];
    [destruct (Z_lt_ge_dec (Z.max c1 c2) xls_colmax) as [Hc|Hc]|].
  - destruct (array_formula_buffered r1 c1 r2 c2 fm f v ws Ho (conj Hr Hc))
      as [Hok Hraise].
    destruct (strip_array_formula fm) as [fm'|e] eqn:Hstrip.
    + destruct (Hok fm' eq_refl) as (ws' & Hrun & Hsame & _ & _ & Hout).
      rewrite Hrun. cbn [fst].
      destruct Hsame as (H1 & H2 & H3 & H4 & _).
      rewrite H1. auto.
    + rewrite (Hraise e eq_refl). cbn [fst]. repeat split; auto.
  - rewrite write_array_formula_out_of_bounds; [cbn [fst]; auto|].
    unfold out_of_bounds. lia.
  - rewrite write_array_formula_out_of_bounds; [cbn [fst]; auto|].
    unfold out_of_bounds. lia.
Qed.

(** *** Cells and the dimension *)

Lemma inside_widened_self row col ws : inside row col (widened row col ws).
Proof.
  unfold inside, widened, widen_lo, widen_hi. cbn.
  destruct (dim_rowmin ws), (dim_rowmax ws), (dim_colmin ws), (dim_colmax ws);
    repeat match goal with
           | |- context [(?a <? ?b)%Z] => destruct (Z.ltb_spec a b)
           end; lia.
Qed.

Lemma inside_widened_mono row col r c ws :
  inside r c ws -> inside r c (widened row col ws).
Proof.
  unfold inside, widened, widen_lo, widen_hi. cbn.
  destruct (dim_rowmin ws), (dim_rowmax ws), (dim_colmin ws), (dim_colmax ws);
    try contradiction;
    repeat match goal with
           | |- context [(?a <? ?b)%Z] => destruct (Z.ltb_spec a b)
           end; lia.
Qed.

Lemma inside_same_dimension r c ws ws' :
  same_dimension ws ws' -> inside r c ws -> inside r c ws'.
Proof. intros (H1 & H2 & H3 & H4). unfold inside. now rewrite H1, H2, H3, H4. Qed.

Lemma run_spec_dimension op ws :
  let ws' := (run_spec py_float font_xml t_element_xml default_format op ws).1 in
  ws' = ws
  \/ (same_dimension (widened (op_check op).1 (op_check op).2 ws) ws'
      /\ forall r c x, table_row ws' r !! c = Some x ->
           (r, c) = op_anchor op \/ table_row ws r !! c = Some x).
Proof.
  unfold run_spec.
  destruct (op_effect _ _ _ op ws) as [|r count rs|c rc count rs link];
    [left; reflexivity| |]; destruct (accepted _ _ ws); auto; right;
    unfold apply_effect; cbn [fst].
  { split; [repeat split|]. intros r0 c0 x H. right. exact H. }
  set (w := bump count rs (widened _ _ ws)).
  assert (Hi : same_dimension (widened (op_check op).1 (op_check op).2 ws)
                 (intern c w).2 /\ table (intern c w).2 = table ws).
  { unfold intern. repeat case_match; repeat split. }
  destruct Hi as [Hd Ht].
  set (w2 := (intern c w).2) in *.
  destruct (flush_to_frame (op_anchor op).1 w2)
    as (_ & F1 & F2 & F3 & F4 & _).
  cbv zeta in F1, F2, F3, F4.
  split.
  { destruct Hd as (D1 & D2 & D3 & D4). unfold same_dimension.
    destruct link;
      cbn [linked stored set_table set_hyperlinks
           dim_rowmin dim_rowmax dim_colmin dim_colmax];
      rewrite F1, F2, F3, F4; auto. }
  intros r0 c0 x H.
  assert (Hl : forall y, table_row (linked (op_anchor op).1 (op_anchor op).2
                                      link y) r0 = table_row y r0).
  { intros y. destruct link; reflexivity. }
  rewrite Hl in H.
  destruct (decide ((r0, c0) = op_anchor op)) as [Heq|Hne]; [now left|right].
  rewrite stored_other in H by (destruct (op_anchor op); exact Hne).
  unfold flush_to in H.
  destruct (truthy (optimization w2) && (previous_row w2 <? (op_anchor op).1)%Z)%bool.
  - unfold flushed, table_row in H. cbn [table set_table] in H.
    rewrite lookup_empty in H. cbn in H. rewrite lookup_empty in H.
    discriminate.
  - unfold table_row in *. now rewrite Ht in H.
Qed.

(** X4: a typed write that names one cell keeps every stored cell within
    the recorded dimension of the sheet, in buffered and in streaming
    mode, and never shrinks the dimension: a coordinate within it before
    the write is within it afterwards. *)
Theorem cells_stay_inside (op : write_op) (ws : worksheet) :
  mode_ok ws -> sheet_ok ws -> single_cell op -> cells_inside ws ->
  cells_inside (run op ws).1
  /\ forall r c, inside r c ws -> inside r c (run op ws).1.
Proof.
  intros Hmode Hok Hsingle Hin.
  rewrite run_op_spec by auto.
  destruct (run_spec_dimension op ws) as [Heq|[Hd Ht]]; cbv zeta in *.
  { rewrite Heq. auto. }
  assert (Hanchor : op_anchor op = op_check op).
  { destruct op; try reflexivity. destruct Hsingle as [-> ->].
    cbn. now rewrite !Z.min_id, !Z.max_id. }
  split.
  - intros r c x H. apply (inside_same_dimension _ _ _ _ Hd).
    destruct (Ht r c x H) as [Heq|Hold].
    + rewrite Hanchor in Heq. rewrite <- Heq. cbn [fst snd].
      apply inside_widened_self.
    + apply inside_widened_mono. now apply (Hin r c x).
  - intros r c H. apply (inside_same_dimension _ _ _ _ Hd).
    now apply inside_widened_mono.
Qed.

(** *** Rows and columns of data *)

Lemma bind_unfold {A B} (m : M A) (k : A -> M B) ws :
  (m ≫= k) ws
  = match m ws with
    | (ws', Ok a) => k a ws'
    | (ws', Raise e) => (ws', Raise e)
    end.
Proof. reflexivity. Qed.

Lemma write_row_app row col xs ys f ws :
  write_row py_float row col (xs ++ ys) f ws
  = match write_row py_float row col xs f ws with
    | (ws', Ok 0) =>
        write_row py_float row (col + Z.of_nat (length xs)) ys f ws'
    | r => r
    end.
Proof.
  revert col ws. induction xs as [|x xs IH]; intros col ws.
  - cbn. now rewrite Z.add_0_r.
  - cbn [app write_row length].
    rewrite !bind_unfold.
    destruct (write py_float row col x f ws) as [ws1 [e|e]]; [|reflexivity].
    destruct (truthy e) eqn:E.
    + unfold ret. unfold truthy in E. destruct e; try discriminate; reflexivity.
    + rewrite IH.
      replace (col + 1 + Z.of_nat (length xs))
        with (col + Z.of_nat (S (length xs))) by lia.
      reflexivity.
Qed.

Lemma write_column_app row col xs ys f ws :
  write_column py_float row col (xs ++ ys) f ws
  = match write_column py_float row col xs f ws with
    | (ws', Ok 0) =>
        write_column py_float (row + Z.of_nat (length xs)) col ys f ws'
    | r => r
    end.
Proof.
  revert row ws. induction xs as [|x xs IH]; intros row ws.
  - cbn. now rewrite Z.add_0_r.
  - cbn [app write_column length].
    rewrite !bind_unfold.
    destruct (write py_float row col x f ws) as [ws1 [e|e]]; [|reflexivity].
    destruct (truthy e) eqn:E.
    + unfold ret. unfold truthy in E. destruct e; try discriminate; reflexivity.
    + rewrite IH.
      replace (row + 1 + Z.of_nat (length xs))
        with (row + Z.of_nat (S (length xs))) by lia.
      reflexivity.
Qed.

Lemma write_row_numbers row col (numbers : list Q) f ws :
  optimization ws = 0 ->
  row < xls_rowmax -> col + Z.of_nat (length numbers) <= xls_colmax ->
  exists ws',
    write_row py_float row col (TNumber <$> numbers) f ws = (ws', Ok 0)
    /\ same_apart_cells ws ws'
    /\ (forall (i : nat) q, numbers !! i = Some q ->
          table_row ws' row !! (col + Z.of_nat i) = Some (Number q f))
    /\ (forall r c,
          ~ (r = row /\ col <= c < col + Z.of_nat (length numbers)) ->
          table_row ws' r !! c = table_row ws r !! c).
Proof.
  revert col ws. induction numbers as [|q0 numbers IH]; intros col ws Ho Hr Hc.
  - exists ws. split; [reflexivity|]. split; [repeat split|].
    split; [intros i q H; inversion H|reflexivity].
  - cbn [fmap list_fmap write_row length] in *.
    assert (Hw : write py_float row col (TNumber q0) f ws
                 = (stored row col (Number q0 f) (widened row col ws), Ok 0)).
    { cbn [write]. apply write_number_buffered; [exact Ho|]. split; lia. }
    set (w1 := stored row col (Number q0 f) (widened row col ws)) in *.
    destruct (IH (col + 1) w1) as (ws' & Hrun & Hsame & Hcells & Hout);
      [exact Ho|exact Hr|lia|].
    exists ws'. split.
    { rewrite bind_ok with (1 := Hw). exact Hrun. }
    split.
    { eapply same_apart_cells_trans; [|exact Hsame]. repeat split. }
    split.
    + intros [|i] q Hq.
      * injection Hq as <-. rewrite Z.add_0_r. rewrite Hout by lia.
        apply stored_lookup.
      * replace (col + Z.of_nat (S i)) with (col + 1 + Z.of_nat i) by lia.
        now apply Hcells.
    + intros r c Hnot. rewrite Hout by lia.
      unfold w1. rewrite stored_other; [reflexivity|].
      intros Heq. injection Heq as -> ->. apply Hnot. lia.
Qed.

Lemma write_column_numbers row col (numbers : list Q) f ws :
  optimization ws = 0 ->
  row + Z.of_nat (length numbers) <= xls_rowmax -> col < xls_colmax ->
  exists ws',
    write_column py_float row col (TNumber <$> numbers) f ws = (ws', Ok 0)
    /\ same_apart_cells ws ws'
    /\ (forall (i : nat) q, numbers !! i = Some q ->
          table_row ws' (row + Z.of_nat i) !! col = Some (Number q f))
    /\ (forall r c,
          ~ (c = col /\ row <= r < row + Z.of_nat (length numbers)) ->
          table_row ws' r !! c = table_row ws r !! c).
Proof.
  revert row ws. induction numbers as [|q0 numbers IH]; intros row ws Ho Hr Hc.
  - exists ws. split; [reflexivity|]. split; [repeat split|].
    split; [intros i q H; inversion H|reflexivity].
  - cbn [fmap list_fmap write_column length] in *.
    assert (Hw : write py_float row col (TNumber q0) f ws
                 = (stored row col (Number q0 f) (widened row col ws), Ok 0)).
    { cbn [write]. apply write_number_buffered; [exact Ho|]. split; lia. }
    set (w1 := stored row col (Number q0 f) (widened row col ws)) in *.
    destruct (IH (row + 1) w1) as (ws' & Hrun & Hsame & Hcells & Hout);
      [exact Ho|lia|exact Hc|].
    exists ws'. split.
    { rewrite bind_ok with (1 := Hw). exact Hrun. }
    split.
    { eapply same_apart_cells_trans; [|exact Hsame]. repeat split. }
    split.
    + intros [|i] q Hq.
      * injection Hq as <-. rewrite Z.add_0_r. rewrite Hout by lia.
        apply stored_lookup.
      * replace (row + Z.of_nat (S i)) with (row + 1 + Z.of_nat i) by lia.
        now apply Hcells.
    + intros r c Hnot. rewrite Hout by lia.
      unfold w1. rewrite stored_other; [reflexivity|].
      intros Heq. injection Heq as -> ->. apply Hnot. lia.
Qed.

(** X10: [write_row] and [write_column] compose: writing the data
    [xs ++ ys] is writing [xs] and, when that returned 0, writing [ys]
    from the cell after the last one of [xs]; a result that is not 0 (or
    an exception) ends the call there and the rest of the data is not
    written.  In buffered mode a list of numbers that fits in the sheet
    is written in full: the call returns 0, the cells hold the numbers in
    order with the format of the call, and nothing else changes. *)
Theorem write_row_and_column (row col : Z) (f : option Format)
    (ws : worksheet) :
  (forall xs ys,
     write_row py_float row col (xs ++ ys) f ws
     = match write_row py_float row col xs f ws with
       | (ws', Ok 0) =>
           write_row py_float row (col + Z.of_nat (length xs)) ys f ws'
       | r => r
       end)
  /\ (forall xs ys,
        write_column py_float row col (xs ++ ys) f ws
        = match write_column py_float row col xs f ws with
          | (ws', Ok 0) =>
              write_column py_float (row + Z.of_nat (length xs)) col ys f ws'
          | r => r
          end)
  /\ (forall numbers : list Q,
        optimization ws = 0 -> row < xls_rowmax ->
        col + Z.of_nat (length numbers) <= xls_colmax ->
        exists ws',
          write_row py_float row col (TNumber <$> numbers) f ws = (ws', Ok 0)
          /\ same_apart_cells ws ws'
          /\ (forall (i : nat) q, numbers !! i = Some q ->
                table_row ws' row !! (col + Z.of_nat i) = Some (Number q f))
          /\ (forall r c,
                ~ (r = row /\ col <= c < col + Z.of_nat (length numbers)) ->
                table_row ws' r !! c = table_row ws r !! c))
  /\ (forall numbers : list Q,
        optimization ws = 0 -> col < xls_colmax ->
        row + Z.of_nat (length numbers) <= xls_rowmax ->
        exists ws',
          write_column py_float row col (TNumber <$> numbers) f ws
          = (ws', Ok 0)
          /\ same_apart_cells ws ws'
          /\ (forall (i : nat) q, numbers !! i = Some q ->
                table_row ws' (row + Z.of_nat i) !! col = Some (Number q f))
          /\ (forall r c,
                ~ (c = col /\ row <= r < row + Z.of_nat (length numbers)) ->
                table_row ws' r !! c = table_row ws r !! c)).
Proof.
  split; [intros xs ys; apply write_row_app|].
  split; [intros xs ys; apply write_column_app|].
  split.
  - intros numbers Ho Hr Hc. now apply write_row_numbers.
  - intros numbers Ho Hc Hr. now apply write_column_numbers.
Qed.

(** *** In-line strings *)

Lemma all_chars_app P s t :
  all_chars P (s ++ t) = (all_chars P s && all_chars P t)%bool.
Proof.
  induction s as [|c s IH]; [reflexivity|].
  simpl. rewrite IH. now rewrite andb_assoc.
Qed.

Lemma control_escape_printable c :
  all_chars printable (Inline.control_escape c) = true.
Proof.
  destruct c as [[] [] [] [] [] [] [] []]; vm_compute; reflexivity.
Qed.

Lemma escape_controls_printable s :
  all_chars printable (Inline.escape_controls s) = true.
Proof.
  induction s as [|c s IH]; [reflexivity|]. cbn [Inline.escape_controls].
  destruct (Inline.is_control c) eqn:E.
  - rewrite all_chars_app, control_escape_printable, IH. reflexivity.
  - cbn [all_chars]. unfold printable at 1. rewrite E, IH. reflexivity.
Qed.

Lemma escape_controls_clean s :
  all_chars printable s = true -> Inline.escape_controls s = s.
Proof.
  induction s as [|c s IH]; [reflexivity|]. cbn [all_chars Inline.escape_controls].
  intros H. apply andb_true_iff in H as [Hc Hs].
  unfold printable in Hc. apply negb_true_iff in Hc. rewrite Hc.
  now rewrite IH.
Qed.

Lemma escape_escapes_clean s :
  no_escape_pattern s = true -> Inline.escape_escapes O s = s.
Proof.
  induction s as [|c s IH]; [reflexivity|].
  cbn [no_escape_pattern]. intros H. apply andb_true_iff in H as [Hc Hs].
  apply negb_true_iff in Hc. cbn [Inline.escape_escapes]. rewrite Hc.
  now rewrite IH.
Qed.

(** X11: in streaming mode [_write_cell] writes a text cell as one
    in-line string call whose text is the escaped text of the cell; the
    escaped text holds no control character of the class the method
    escapes, and a text without such characters and without the pattern
    [_xHHHH_] is written as it is. *)
Theorem inline_string_escaped (row col : Z) (s : string)
    (f : option Format) (ws : worksheet) :
  truthy (optimization ws) = true ->
  (exists call,
     _write_cell py_float row col (String_ (SText s) f) ws
     = (set_fh (fh ws ++ [call])%list ws, Ok tt)
     /\ inline_text call = Some (Inline.escape s))
  /\ all_chars printable (Inline.escape s) = true
  /\ (all_chars printable s = true -> no_escape_pattern s = true ->
      Inline.escape s = s).
Proof.
  intros Hopt. split; [|split].
  - rewrite write_cell_spec.
    + unfold cell_xml. rewrite Hopt. cbn [negb].
      destruct (Inline.is_rich (Inline.escape s)); eexists; split; reflexivity.
    + reflexivity.
  - apply escape_controls_printable.
  - intros Hp He. unfold Inline.escape.
    rewrite escape_escapes_clean by exact He.
    now apply escape_controls_clean.
Qed.

(** *** The output of streaming writes *)

(** X12: in streaming mode a typed write, whatever its arguments and
    result, only appends to the output, never moves the buffered row
    back, and appends something only when the buffered row moves on. *)
Theorem streaming_output_grows (op : write_op) (ws : worksheet) :
  optimization ws = 1 -> sheet_ok ws ->
  exists out,
    fh (run op ws).1 = (fh ws ++ out)%list
    /\ previous_row ws <= previous_row (run op ws).1
    /\ (out <> [] -> previous_row ws < previous_row (run op ws).1).
Proof.
  intros Ho Hok.
  rewrite run_op_spec; [|now right|exact Hok|intros H; congruence].
  assert (Hsame : forall w : worksheet,
            fh w = fh ws -> previous_row w = previous_row ws ->
            exists out,
              fh w = (fh ws ++ out)%list
              /\ previous_row ws <= previous_row w
              /\ (out <> [] -> previous_row ws < previous_row w)).
  { intros w Hf Hp. exists []. rewrite app_nil_r, Hp.
    split; [exact Hf|]. split; [lia|]. intros H. now contradiction H. }
  unfold run_spec.
  destruct (op_effect _ _ _ op ws) as [|r count rs|c rc count rs link];
    [apply Hsame; reflexivity| |]; destruct (accepted _ _ ws);
    try (apply Hsame; reflexivity).
  unfold apply_effect. cbn [fst].
  set (w := bump count rs (widened _ _ ws)).
  assert (Hi : fh (intern c w).2 = fh ws
               /\ previous_row (intern c w).2 = previous_row ws).
  { unfold intern. repeat case_match; split; reflexivity. }
  destruct Hi as [Hf Hp].
  set (w2 := (intern c w).2) in *.
  assert (Hl : forall x, fh (linked (op_anchor op).1 (op_anchor op).2 link
                               (stored (op_anchor op).1 (op_anchor op).2
                                  (intern c w).1 x)) = fh x
                         /\ previous_row
                              (linked (op_anchor op).1 (op_anchor op).2 link
                                 (stored (op_anchor op).1 (op_anchor op).2
                                    (intern c w).1 x)) = previous_row x).
  { intros x. destruct link; split; reflexivity. }
  destruct (Hl (flush_to py_float (op_anchor op).1 w2)) as [-> ->].
  unfold flush_to.
  destruct (truthy (optimization w2)
            && (previous_row w2 <? (op_anchor op).1)%Z)%bool eqn:E.
  - apply andb_true_iff in E as [_ E]. apply Z.ltb_lt in E.
    eexists. unfold flushed. cbn [fh previous_row set_table set_fh
                                   set_previous_row].
    rewrite Hf. split; [reflexivity|]. rewrite Hp in E. split; [lia|].
    intros _. exact E.
  - apply Hsame; assumption.
Qed.

(** *** Merged ranges with and without a format *)



End Properties.

(** ** The spans of the rows *)

Lemma span_of_ext (S S' : Z -> Prop) span :
  (forall c, S c <-> S' c) -> span_of S span -> span_of S' span.
Proof.
  intros He. destruct span as [[lo|] [hi|]]; cbn; try tauto.
  - intros (H1 & H2 & H3). split; [now apply He|]. split; [now apply He|].
    intros c Hc. apply H3. now apply He.
  - intros H c Hc. apply (H c). now apply He.
  - intros H c Hc. apply (H c). now apply He.
Qed.

Lemma span_step_of (S : Z -> Prop) span c :
  span_of S span -> span_of (fun x => S x \/ x = c) (span_step span c).
Proof.
  destruct span as [[lo|] [hi|]]; cbn; try tauto.
  - intros (H1 & H2 & H3).
    destruct (Z.ltb_spec c lo), (Z.ltb_spec hi c);
      (split; [|split]); try (left; assumption); try (right; reflexivity);
      intros x [Hx| ->]; try (specialize (H3 x Hx)); lia.
  - intros H. split; [now right|]. split; [now right|].
    intros x [Hx| ->]; [now apply H in Hx|lia].
  - intros H. split; [now right|]. split; [now right|].
    intros x [Hx| ->]; [now apply H in Hx|lia].
Qed.

Lemma span_scan_of {V} (r : gmap Z V) cols (S : Z -> Prop) span :
  span_of S span ->
  span_of (fun x => S x \/ (x ∈ cols /\ is_Some (r !! x)))
    (span_scan r cols span).
Proof.
  revert S span. induction cols as [|c cols IH]; intros S span H.
  - cbn. eapply span_of_ext; [|exact H]. intros x. split; [auto|].
    intros [Hx|[Hx _]]; [exact Hx|]. now apply elem_of_nil in Hx.
  - unfold span_scan. cbn [foldl]. fold (span_scan r cols).
    destruct (bool_decide (is_Some (r !! c))) eqn:E.
    + apply bool_decide_eq_true in E.
      eapply span_of_ext; [|apply IH, (span_step_of S span c), H].
      intros x. cbn. rewrite elem_of_cons. split.
      * intros [[Hx| ->]|[Hx Hs]]; auto.
      * intros [Hx|[[->|Hx] Hs]]; auto.
    + apply bool_decide_eq_false in E.
      eapply span_of_ext; [|apply IH, H].
      intros x. cbn. rewrite elem_of_cons. split.
      * intros [Hx|[Hx Hs]]; auto.
      * intros [Hx|[[->|Hx] Hs]]; auto. contradiction.
Qed.

Lemma spans_loop_cons ws clo chi r rest spans span :
  dim_colmin ws = Some clo -> dim_colmax ws = Some chi ->
  spans_loop (r :: rest) spans span ws
  = let cols := py_range clo (chi + 1) in
    let span1 :=
      match table ws !! r with
      | Some row => span_scan row cols span
      | None => span
      end in
    let span2 :=
      match comments ws !! r with
      | Some row => span_scan row cols span1
      | None => span1
      end in
    if (((r + 1) mod 16 =? 0)%Z || bool_decide (Some r = dim_rowmax ws))%bool
    then
      match span2 with
      | (Some mn, Some mx) =>
          spans_loop rest (<[Z.quot r 16 := span_text mn mx]> spans)
            (None, Some (mx + 1)) ws
      | _ => spans_loop rest spans span2 ws
      end
    else spans_loop rest spans span2 ws.
Proof.
  intros Hlo Hhi. cbn [spans_loop]. rewrite bind_get. change (id ws) with ws.
  rewrite Hlo, Hhi. cbv zeta.
  destruct (table ws !! r), (comments ws !! r);
    (destruct (_ || _)%bool;
     [match goal with
      | |- _ = match ?sp with _ => _ end => destruct sp as [[?|] [?|]] eqn:E
      end|]);
    cbn [dim_range]; unfold mbind, M_bind, bind, ret; cbn beta iota;
    rewrite ?E; reflexivity.
Qed.

(** The columns the scan of a row adds. *)
Lemma row_scan_of ws clo chi r (S : Z -> Prop) span :
  span_of S span ->
  span_of (fun c => S c \/ (clo <= c <= chi /\ marked ws r c))
    (match comments ws !! r with
     | Some row =>
         span_scan row (py_range clo (chi + 1))
           (match table ws !! r with
            | Some row => span_scan row (py_range clo (chi + 1)) span
            | None => span
            end)
     | None =>
         match table ws !! r with
         | Some row => span_scan row (py_range clo (chi + 1)) span
         | None => span
         end
     end).
Proof.
  intros H.
  assert (Hin : forall x, x ∈ py_range clo (chi + 1) <-> clo <= x <= chi).
  { intros x. unfold py_range. rewrite elem_of_seqZ. lia. }
  unfold marked, table_row.
  destruct (table ws !! r) as [trow|] eqn:Et,
           (comments ws !! r) as [crow|] eqn:Ec; cbn [default].
  - eapply span_of_ext;
      [|apply (span_scan_of crow), (span_scan_of trow), H].
    intros x. cbn. rewrite !Hin. tauto.
  - eapply span_of_ext; [|apply (span_scan_of trow), H].
    intros x. cbn. rewrite !Hin, lookup_empty. split; [tauto|].
    intros [Hx|[Hr [Hs|Hs]]]; auto. now destruct Hs.
  - eapply span_of_ext; [|apply (span_scan_of crow), H].
    intros x. cbn. rewrite !Hin, lookup_empty. split; [tauto|].
    intros [Hx|[Hr [Hs|Hs]]]; auto. now destruct Hs.
  - eapply span_of_ext; [|exact H].
    intros x. rewrite !lookup_empty. split; [tauto|].
    intros [Hx|[Hr [Hs|Hs]]]; auto; now destruct Hs.
Qed.

Section Spans.

Variable ws : worksheet.
Variables rlo rhi clo chi : Z.
Hypothesis Hrlo : dim_rowmin ws = Some rlo.
Hypothesis Hrhi : dim_rowmax ws = Some rhi.
Hypothesis Hclo : dim_colmin ws = Some clo.
Hypothesis Hchi : dim_colmax ws = Some chi.
Hypothesis Hpos : 0 <= rlo.

Lemma inside_dims row col :
  inside row col ws <-> rlo <= row <= rhi /\ clo <= col <= chi.
Proof. unfold inside. rewrite Hrlo, Hrhi, Hclo, Hchi. tauto. Qed.

Lemma spans_loop_spec (n : nat) :
  forall r spans span,
    rlo <= r -> r + Z.of_nat n = rhi + 1 ->
    (n <> 0%nat ->
     span_of (open_marked ws r) span
     /\ (forall b, b < r / 16 -> entry_ok ws b (spans !! b))
     /\ (forall b, r / 16 <= b -> spans !! b = None)) ->
    (n = 0%nat -> forall b, entry_ok ws b (spans !! b)) ->
    exists spans',
      spans_loop (seqZ r (Z.of_nat n)) spans span ws = (ws, Ok spans')
      /\ forall b, entry_ok ws b (spans' !! b).
Proof.
  induction n as [|n IH]; intros r spans span Hr Hn Hinv Hpost.
  { exists spans. split; [reflexivity|]. now apply Hpost. }
  destruct Hinv as (Hopen & Hclosed & Hnone); [discriminate|]. clear Hpost.
  rewrite seqZ_cons by lia.
  replace (Z.pred (Z.of_nat (S n))) with (Z.of_nat n) by lia.
  rewrite (spans_loop_cons ws clo chi) by assumption. cbv zeta.
  pose proof (row_scan_of ws clo chi r _ span Hopen) as Hscan.
  set (span2 := match comments ws !! r with
                | Some row => _
                | None => _
                end) in *.
  rewrite Hrhi.
  assert (Hq : Z.quot r 16 = r / 16) by (apply Z.quot_div_nonneg; lia).
  destruct ((_ =? 0)%Z || bool_decide (Some r = Some rhi))%bool eqn:Eclose.
  - (* the row closes its block *)
    assert (Hlast : (r + 1) mod 16 = 0 \/ r = rhi).
    { apply orb_true_iff in Eclose as [E|E].
      - left. now apply Z.eqb_eq in E.
      - right. apply bool_decide_eq_true in E. congruence. }
    assert (Hblock : forall c,
              block_marked ws (r / 16) c
              <-> open_marked ws r c \/ (clo <= c <= chi /\ marked ws r c)).
    { intros c. unfold block_marked, open_marked. split.
      - intros (x & Hin & Hx & Hm).
        pose proof (proj1 (inside_dims x c) Hin) as [Hxr Hxc].
        assert (Hle : x <= r) by (Z.div_mod_to_equations; lia).
        destruct (Z.eq_dec x r) as [->|Hne]; [right; tauto|].
        left. exists x. repeat split; try assumption; lia.
      - intros [(x & Hin & Hlt & Hx & Hm)|[Hc Hm]].
        + exists x. tauto.
        + exists r. split; [apply inside_dims; lia|]. tauto. }
    assert (Hnext : n <> 0%nat -> forall c, ~ open_marked ws (r + 1) c).
    { intros Hn0 c (x & Hin & Hlt & Hx & _).
      Z.div_mod_to_equations. lia. }
    assert (Hafter : n = 0%nat -> forall b c,
              r / 16 < b -> ~ block_marked ws b c).
    { intros Hn0 b c Hb (x & Hin & Hx & _).
      pose proof (proj1 (inside_dims x c) Hin) as [Hxr Hxc].
      Z.div_mod_to_equations. lia. }
    destruct span2 as [[mn|] [mx|]] eqn:E2.
    + (* the block has columns *)
      rewrite Hq.
      apply (IH (r + 1)); [lia|lia| |].
      * intros Hn0. split; [cbn; now apply Hnext|]. split.
        -- intros b Hb. destruct (Z.eq_dec b (r / 16)) as [->|Hne].
           ++ rewrite lookup_insert_eq. exists (Some mn, Some mx).
              split; [|reflexivity].
              eapply span_of_ext; [|exact Hscan].
              intros c. symmetry. apply Hblock.
           ++ rewrite lookup_insert_ne by congruence. apply Hclosed.
              Z.div_mod_to_equations. lia.
        -- intros b Hb. rewrite lookup_insert_ne.
           ++ apply Hnone. Z.div_mod_to_equations. lia.
           ++ Z.div_mod_to_equations. lia.
      * intros Hn0 b.
        destruct (Z.lt_trichotomy b (r / 16)) as [Hb|[->|Hb]].
        -- rewrite lookup_insert_ne by lia. now apply Hclosed.
        -- rewrite lookup_insert_eq. exists (Some mn, Some mx).
           split; [|reflexivity].
           eapply span_of_ext; [|exact Hscan].
           intros c. symmetry. apply Hblock.
        -- rewrite lookup_insert_ne by lia. rewrite Hnone by lia.
           exists (None, None). split; [|reflexivity].
           cbn. intros c. now apply Hafter.
    + destruct Hscan.
    + (* the block has no column *)
      apply (IH (r + 1)); [lia|lia| |].
      * intros Hn0. split; [cbn; now apply Hnext|]. split.
        -- intros b Hb. destruct (Z.eq_dec b (r / 16)) as [->|Hne].
           ++ rewrite Hnone by lia. exists (None, Some mx).
              split; [|reflexivity].
              eapply span_of_ext; [|exact Hscan].
              intros c. symmetry. apply Hblock.
           ++ apply Hclosed. Z.div_mod_to_equations. lia.
        -- intros b Hb. apply Hnone. Z.div_mod_to_equations. lia.
      * intros Hn0 b.
        destruct (Z.lt_trichotomy b (r / 16)) as [Hb|[->|Hb]].
        -- now apply Hclosed.
        -- rewrite Hnone by lia. exists (None, Some mx).
           split; [|reflexivity].
           eapply span_of_ext; [|exact Hscan].
           intros c. symmetry. apply Hblock.
        -- rewrite Hnone by lia.
           exists (None, None). split; [|reflexivity].
           cbn. intros c. now apply Hafter.
    + apply (IH (r + 1)); [lia|lia| |].
      * intros Hn0. split; [cbn; now apply Hnext|]. split.
        -- intros b Hb. destruct (Z.eq_dec b (r / 16)) as [->|Hne].
           ++ rewrite Hnone by lia. exists (None, None).
              split; [|reflexivity].
              eapply span_of_ext; [|exact Hscan].
              intros c. symmetry. apply Hblock.
           ++ apply Hclosed. Z.div_mod_to_equations. lia.
        -- intros b Hb. apply Hnone. Z.div_mod_to_equations. lia.
      * intros Hn0 b.
        destruct (Z.lt_trichotomy b (r / 16)) as [Hb|[->|Hb]].
        -- now apply Hclosed.
        -- rewrite Hnone by lia. exists (None, None).
           split; [|reflexivity].
           eapply span_of_ext; [|exact Hscan].
           intros c. symmetry. apply Hblock.
        -- rewrite Hnone by lia.
           exists (None, None). split; [|reflexivity].
           cbn. intros c. now apply Hafter.
  - (* the block stays open *)
    apply orb_false_iff in Eclose as [E1 E2].
    apply Z.eqb_neq in E1. apply bool_decide_eq_false in E2.
    assert (Hlt : r < rhi).
    { assert (r <> rhi) by congruence. lia. }
    apply (IH (r + 1)); [lia|lia| |].
    + intros Hn0. split; [|split].
      * eapply span_of_ext; [|exact Hscan].
        intros c. unfold open_marked. split.
        -- intros [(x & Hin & Hx1 & Hx2 & Hm)|[Hc Hm]].
           ++ exists x. repeat split; try assumption; try lia.
              Z.div_mod_to_equations. lia.
           ++ exists r. split; [apply inside_dims; lia|].
              repeat split; try assumption; try lia.
              Z.div_mod_to_equations. lia.
        -- intros (x & Hin & Hx1 & Hx2 & Hm).
           pose proof (proj1 (inside_dims x c) Hin) as [Hxr Hxc].
           destruct (Z.eq_dec x r) as [->|Hne]; [right; tauto|].
           left. exists x. repeat split; try assumption; try lia.
           Z.div_mod_to_equations. lia.
      * intros b Hb. apply Hclosed. Z.div_mod_to_equations. lia.
      * intros b Hb. apply Hnone. Z.div_mod_to_equations. lia.
    + intros Hn0. lia.
Qed.

End Spans.

(** X18: on a sheet whose dimension is recorded and holds no negative
    row, [_calculate_spans] does not raise and changes nothing but the
    table of spans; every cell and every comment inside the dimension
    lies within the span recorded for its block of 16 rows; and every
    recorded span is the text [first:last], columns counted from 1, of
    two columns that hold a cell or a comment in a row of that block
    inside the dimension, so the span is the least one that covers the
    block. *)
Theorem calculate_spans_cover (ws : worksheet) (rlo rhi clo chi : Z) :
  dim_rowmin ws = Some rlo -> dim_rowmax ws = Some rhi ->
  dim_colmin ws = Some clo -> dim_colmax ws = Some chi ->
  0 <= rlo ->
  exists spans,
    _calculate_spans ws = (set_row_spans spans ws, Ok tt)
    /\ (forall row col,
          inside row col ws -> marked ws row col ->
          exists lo hi,
            spans !! (row / 16) = Some (span_text lo hi) /\ lo <= col <= hi)
    /\ (forall b s,
          spans !! b = Some s ->
          exists lo hi,
            s = span_text lo hi
            /\ block_marked ws b lo /\ block_marked ws b hi).
Proof.
  intros Hrlo Hrhi Hclo Hchi Hpos.
  assert (Hin : forall x c, inside x c ws -> rlo <= x <= rhi).
  { intros x c H. now apply (inside_dims ws rlo rhi clo chi) in H. }
  assert (Hloop : exists spans,
            spans_loop (py_range rlo (rhi + 1)) ∅ (None, None) ws
            = (ws, Ok spans)
            /\ forall b, entry_ok ws b (spans !! b)).
  { unfold py_range.
    destruct (Z.le_gt_cases 0 (rhi + 1 - rlo)) as [Hn|Hn].
    - rewrite <- (Z2Nat.id (rhi + 1 - rlo)) by exact Hn.
      apply (spans_loop_spec ws rlo rhi clo chi); try assumption; try lia.
      + intros _. split; [|split].
        * cbn. intros c (x & Hx & Hlt & _). apply Hin in Hx. lia.
        * intros b Hb. rewrite lookup_empty. exists (None, None).
          split; [|reflexivity]. cbn. intros c (x & Hx & Hq & _).
          apply Hin in Hx. Z.div_mod_to_equations. lia.
        * intros b _. apply lookup_empty.
      + intros Hz b. rewrite lookup_empty. exists (None, None).
        split; [|reflexivity]. cbn. intros c (x & Hx & _).
        apply Hin in Hx. lia.
    - rewrite seqZ_nil by lia. exists ∅. split; [reflexivity|].
      intros b. rewrite lookup_empty. exists (None, None).
      split; [|reflexivity]. cbn. intros c (x & Hx & _).
      apply Hin in Hx. lia. }
  destruct Hloop as (spans & Hrun & Hpost).
  exists spans. split; [|split].
  - unfold _calculate_spans. rewrite !bind_get, Hrlo, Hrhi.
    cbn [dim_range]. rewrite bind_ret.
    rewrite bind_ok with (1 := Hrun). reflexivity.
  - intros row col Hi Hm.
    destruct (Hpost (row / 16)) as (span & Hspan & ->).
    assert (Hb : block_marked ws (row / 16) col) by (exists row; tauto).
    destruct span as [[lo|] [hi|]]; cbn in Hspan.
    + destruct Hspan as (_ & _ & Hall). exists lo, hi.
      split; [reflexivity|]. now apply Hall.
    + destruct Hspan.
    + now apply Hspan in Hb.
    + now apply Hspan in Hb.
  - intros b s Hs.
    destruct (Hpost b) as (span & Hspan & He). rewrite Hs in He.
    destruct span as [[lo|] [hi|]]; cbn in Hspan, He; try discriminate.
    injection He as ->. destruct Hspan as (H1 & H2 & _).
    exists lo, hi. auto.
Qed.


(** ** Page breaks *)

Lemma strictly_sorted (l : list Z) :
  StronglySorted Z.le l -> NoDup l -> StronglySorted Z.lt l.
Proof.
  induction 1 as [|x l Hs IH Hall]; intros Hnd; constructor.
  - apply IH. now apply NoDup_cons in Hnd as [_ ?].
  - apply NoDup_cons in Hnd as [Hx _].
    rewrite Forall_forall in *. intros y Hy.
    assert (x <> y) by (intros ->; apply Hx; now apply list_elem_of_In).
    specialize (Hall y Hy). lia.
Qed.

Lemma sort_pagebreaks_some (breaks : list Z) :
  breaks <> [] ->
  exists l, PageBreaks._sort_pagebreaks breaks = Some l
    /\ StronglySorted Z.lt l /\ (length l <= 1023)%nat
    /\ (forall x, x ∈ l -> x ∈ breaks /\ x <> 0)
    /\ (forall x, x ∈ breaks -> x <> 0 ->
          x ∈ l \/ (length l = 1023%nat /\ forall y, y ∈ l -> y < x)).
Proof.
  intros Hne.
  unfold PageBreaks._sort_pagebreaks.
  rewrite bool_decide_eq_false_2 by exact Hne. cbv zeta.
  set (S := if bool_decide (0 ∈ (list_to_set breaks : gset Z))
            then (list_to_set breaks : gset Z) ∖ {[0]}
            else list_to_set breaks).
  assert (HS : forall x, x ∈ S <-> x ∈ breaks /\ x <> 0).
  { intros x. unfold S. destruct (bool_decide _) eqn:E.
    - rewrite elem_of_difference, elem_of_list_to_set, elem_of_singleton.
      tauto.
    - apply bool_decide_eq_false in E.
      rewrite elem_of_list_to_set in *. split; [|tauto].
      intros H. split; [exact H|]. intros ->. contradiction. }
  set (l0 := merge_sort Z.le (elements S)).
  assert (Hperm : l0 ≡ₚ elements S) by apply merge_sort_Permutation.
  assert (Hin : forall x, x ∈ l0 <-> x ∈ breaks /\ x <> 0).
  { intros x. rewrite Hperm, elem_of_elements. apply HS. }
  assert (Hsorted : StronglySorted Z.lt l0).
  { apply strictly_sorted.
    - apply StronglySorted_merge_sort; apply _.
    - rewrite Hperm. apply NoDup_elements. }
  destruct (Nat.ltb_spec 1023 (length l0)) as [Hlong|Hshort].
  - exists (take 1023 l0). split; [reflexivity|].
    rewrite <- (take_drop 1023 l0) in Hsorted.
    split; [now apply StronglySorted_app_1_l in Hsorted|].
    assert (Hlen : length (take 1023 l0) = 1023%nat)
      by (rewrite length_take; lia).
    split; [lia|]. split.
    + intros x Hx. apply Hin. rewrite <- (take_drop 1023 l0).
      apply elem_of_app. now left.
    + intros x Hx H0. assert (Hl : x ∈ l0) by (apply Hin; auto).
      rewrite <- (take_drop 1023 l0) in Hl.
      apply elem_of_app in Hl as [Hl|Hl]; [now left|right].
      split; [exact Hlen|]. intros y Hy.
      exact (StronglySorted_app_1_elem_of _ _ _ _ _ Hsorted Hy Hl).
  - exists l0. split; [reflexivity|]. split; [exact Hsorted|].
    split; [exact Hshort|]. split.
    + intros x Hx. now apply Hin.
    + intros x Hx H0. left. apply Hin. auto.
Qed.

(** X7: [_sort_pagebreaks] returns nothing for the empty list; for any
    other list of breaks it returns a strictly increasing list (sorted,
    no duplicates) of at most 1023 breaks, each a break of the input other
    than 0; a nonzero break of the input is left out only when 1023
    smaller breaks were kept. *)
Theorem sort_pagebreaks_result (breaks : list Z) :
  (PageBreaks._sort_pagebreaks [] = None)
  /\ (breaks <> [] ->
      exists l, PageBreaks._sort_pagebreaks breaks = Some l
        /\ StronglySorted Z.lt l /\ (length l <= 1023)%nat
        /\ (forall x, x ∈ l -> x ∈ breaks /\ x <> 0)
        /\ (forall x, x ∈ breaks -> x <> 0 ->
              x ∈ l \/ (length l = 1023%nat /\ forall y, y ∈ l -> y < x))).
Proof.
  split; [reflexivity|]. intros Hne.
  destruct (sort_pagebreaks_some breaks Hne) as (l & H1 & H2 & H3 & H4 & H5).
  exists l. repeat split; auto; now apply H4.
Qed.

Lemma for_each_emit {X} (g : X -> xml_call) (l : list X) ws :
  for_each l (fun x => emit (g x)) ws
  = (set_fh (fh ws ++ map g l)%list ws, Ok tt).
Proof.
  revert ws. induction l as [|x l IH]; intros ws.
  - cbn [for_each map]. rewrite app_nil_r. now destruct ws.
  - cbn [for_each map]. rewrite bind_ok with (1 := emit_spec (g x) ws).
    rewrite IH. cbn [fh set_fh]. rewrite <- app_assoc. reflexivity.
Qed.

(** X8: [_write_row_breaks] and [_write_col_breaks] never raise and only
    append to the output: nothing when the sorted breaks are none (no
    breaks set, or only the break 0), and otherwise one element whose
    [count] and [manualBreakCount] are the number of [brk] children, one
    child for each sorted break in order, with [max] 16383 for row breaks
    and 1048575 for column breaks. *)
Theorem page_breaks_output (breaks : list Z) (ws : worksheet) :
  PageBreaks._write_row_breaks breaks ws
  = (set_fh (fh ws ++ breaks_xml "rowBreaks" 16383
                        (default [] (PageBreaks._sort_pagebreaks breaks)))%list
       ws, Ok tt)
  /\ PageBreaks._write_col_breaks breaks ws
     = (set_fh (fh ws ++ breaks_xml "colBreaks" 1048575
                           (default [] (PageBreaks._sort_pagebreaks breaks)))%list
          ws, Ok tt)
  /\ ((forall x, x ∈ breaks -> x = 0) ->
      default [] (PageBreaks._sort_pagebreaks breaks) = []).
Proof.
  assert (Hnil : forall w : worksheet, (set_fh (fh w ++ [])%list w, Ok tt)
                                       = (w, @Ok unit tt)).
  { intros w. rewrite app_nil_r. now destruct w. }
  split; [|split].
  - unfold PageBreaks._write_row_breaks.
    destruct (PageBreaks._sort_pagebreaks breaks) as [[|x l]|];
      cbn [default breaks_xml]; try (symmetry; apply Hnil).
    rewrite bind_ok with (1 := emit_spec _ ws).
    unfold PageBreaks._write_brk.
    rewrite bind_ok with (1 := for_each_emit _ _ _).
    rewrite emit_spec. cbn [fh set_fh]. rewrite <- !app_assoc. reflexivity.
  - unfold PageBreaks._write_col_breaks.
    destruct (PageBreaks._sort_pagebreaks breaks) as [[|x l]|];
      cbn [default breaks_xml]; try (symmetry; apply Hnil).
    rewrite bind_ok with (1 := emit_spec _ ws).
    unfold PageBreaks._write_brk.
    rewrite bind_ok with (1 := for_each_emit _ _ _).
    rewrite emit_spec. cbn [fh set_fh]. rewrite <- !app_assoc. reflexivity.
  - intros Hzero. destruct breaks as [|b breaks]; [reflexivity|].
    destruct (sort_pagebreaks_some (b :: breaks)) as (l & Hl & _ & _ & Hin & _);
      [discriminate|].
    rewrite Hl. cbn [default]. destruct l as [|y l]; [reflexivity|].
    destruct (Hin y) as [Hy Hy0]; [left|]. exfalso. apply Hy0.
    now apply Hzero.
Qed.

(** ** Sheet protection *)

Lemma password_digits_cons i c rest :
  Protection.password_digits i (String c rest)
  = password_digit (i + 1) (Z.of_nat (nat_of_ascii c))
    :: Protection.password_digits (i + 1) rest.
Proof. reflexivity. Qed.

Lemma password_digit_bits i c m :
  0 <= m ->
  Z.testbit (password_digit i c) m
  = ((Z.testbit c (m - i) || Z.testbit c (m + 15 - i))
     && Z.testbit (Z.ones 15) m)%bool.
Proof.
  intros Hm. unfold password_digit.
  change 0x7fff with (Z.ones 15).
  rewrite Z.lor_spec, !Z.land_spec, Z.shiftr_spec by lia.
  rewrite Z.land_spec, !Z.shiftl_spec by lia.
  replace (m + 15 - 15) with m by lia.
  destruct (Z.testbit c (m - i)), (Z.testbit c (m + 15 - i)),
    (Z.testbit (Z.ones 15) m); reflexivity.
Qed.

Lemma high_bits_bound n x :
  0 <= n -> (forall m, n <= m -> Z.testbit x m = false) -> 0 <= x < 2 ^ n.
Proof.
  intros Hn H. assert (Hx : x = x mod 2 ^ n).
  { apply Z.bits_inj'. intros m Hm.
    destruct (Z_lt_ge_dec m n) as [Hlt|Hge].
    - now rewrite Z.mod_pow2_bits_low.
    - rewrite Z.mod_pow2_bits_high by lia. apply H. lia. }
  rewrite Hx. apply Z.mod_pos_bound. apply Z.pow_pos_nonneg; lia.
Qed.

Lemma bound_high_bits n x m :
  0 <= x < 2 ^ n -> 0 <= n <= m -> Z.testbit x m = false.
Proof.
  intros Hx Hm. rewrite <- (Z.mod_small x (2 ^ n)) by exact Hx.
  now apply Z.mod_pow2_bits_high.
Qed.

Lemma password_digit_high i c m : 15 <= m -> Z.testbit (password_digit i c) m = false.
Proof.
  intros Hm. rewrite password_digit_bits by lia.
  rewrite Z.ones_spec_high by lia. apply andb_false_r.
Qed.

Lemma password_digit_zero i c : 30 <= i -> password_digit i c = 0.
Proof.
  intros Hi. apply Z.bits_inj'. intros m Hm.
  rewrite password_digit_bits, Z.bits_0 by exact Hm.
  destruct (Z_lt_ge_dec m 15) as [Hlt|Hge].
  - rewrite !Z.testbit_neg_r by lia. reflexivity.
  - rewrite Z.ones_spec_high by lia. apply andb_false_r.
Qed.

Lemma digits_high i s acc m :
  15 <= m ->
  Z.testbit (foldl Z.lxor acc (Protection.password_digits i s)) m = Z.testbit acc m.
Proof.
  intros Hm. revert i acc. induction s as [|c s IH]; intros i acc.
  - reflexivity.
  - rewrite password_digits_cons. cbn [foldl]. rewrite IH.
    rewrite Z.lxor_spec, password_digit_high by exact Hm.
    apply xorb_false_r.
Qed.

Lemma digits_zero i s acc :
  29 <= i -> foldl Z.lxor acc (Protection.password_digits i s) = acc.
Proof.
  revert i acc. induction s as [|c s IH]; intros i acc Hi.
  - reflexivity.
  - rewrite password_digits_cons. cbn [foldl].
    rewrite password_digit_zero by lia. rewrite Z.lxor_0_r.
    apply IH. lia.
Qed.

Lemma digits_agree (n : nat) s1 s2 i acc :
  Py.take_str n s1 = Py.take_str n s2 -> String.length s1 = String.length s2 ->
  29 <= i + Z.of_nat n ->
  foldl Z.lxor acc (Protection.password_digits i s1)
  = foldl Z.lxor acc (Protection.password_digits i s2).
Proof.
  revert n s2 i acc. induction s1 as [|c1 t1 IH]; intros n s2 i acc Ht Hl Hi.
  - destruct s2; [reflexivity|discriminate].
  - destruct s2 as [|c2 t2]; [discriminate|].
    destruct n as [|k].
    + rewrite !digits_zero by lia. reflexivity.
    + cbn [Py.take_str] in Ht. injection Ht as -> Ht.
      rewrite !password_digits_cons. cbn [foldl].
      apply (IH k); [exact Ht|now injection Hl|lia].
Qed.

(** X9: the number [_encode_password] formats is between 0 and 65535
    for every password of fewer than 65536 characters, so the hash has at
    most four hexadecimal digits; and the hash depends only on the length
    of the password and on its first 29 characters: the characters from
    the thirtieth on are shifted out of the 30 bits the loop keeps. *)
Theorem encode_password_hash (plaintext : string) :
  (Py.len plaintext < 65536 ->
   0 <= Protection.password_hash plaintext < 65536)
  /\ (forall other,
        Py.len other = Py.len plaintext ->
        Py.take_str 29 other = Py.take_str 29 plaintext ->
        Protection._encode_password other
        = Protection._encode_password plaintext).
Proof.
  split.
  - intros Hlen. change 65536 with (2 ^ 16).
    apply high_bits_bound; [lia|]. intros m Hm.
    unfold Protection.password_hash. rewrite !Z.lxor_spec.
    rewrite digits_high by lia. rewrite Z.bits_0.
    rewrite (bound_high_bits 16 (Py.len _)) by (change (2 ^ 16) with 65536;
      unfold Py.len in *; lia).
    rewrite (bound_high_bits 16 0xCE4B) by (change (2 ^ 16) with 65536; lia).
    reflexivity.
  - intros other Hl Ht.
    unfold Protection._encode_password, Protection.password_hash.
    rewrite Hl. rewrite (digits_agree 29 other plaintext);
      [reflexivity|exact Ht|unfold Py.len in Hl; lia|lia].
Qed.

(** ** Merged cells in the output *)

Lemma for_each_ext {X} (f g : X -> M unit) (l : list X) ws :
  (forall x w, f x w = g x w) -> for_each l f ws = for_each l g ws.
Proof.
  intros H. revert ws. induction l as [|x l IH]; intros ws; [reflexivity|].
  cbn [for_each]. rewrite !bind_unfold, H.
  destruct (g x ws) as [w [[]|e]]; [apply IH|reflexivity].
Qed.

(** X13: [_write_merge_cells] never raises and only appends to the
    output: nothing for a sheet without merged ranges, and otherwise one
    [mergeCells] element whose [count] is the number of its [mergeCell]
    children, one child for each recorded range in the order the ranges
    were recorded. *)
Theorem merge_cells_output (ws : worksheet) :
  exists out,
    _write_merge_cells ws = (set_fh (fh ws ++ out)%list ws, Ok tt)
    /\ (merge ws = [] -> out = [])
    /\ (merge ws <> [] ->
        merge_children out = map merge_cell_xml (merge ws)
        /\ merge_count out = Some (Z.of_nat (length (merge_children out)))
        /\ last out = Some (xml_end_tag "mergeCells")).
Proof.
  unfold _write_merge_cells. rewrite bind_get.
  destruct (merge ws) as [|m l] eqn:Hm.
  - exists []. rewrite app_nil_r. split; [now destruct ws|].
    split; [reflexivity|]. intros H. now contradiction H.
  - exists ([xml_start_tag "mergeCells"
               [("count", AInt (Z.of_nat (length (m :: l))))]]
            ++ map merge_cell_xml (m :: l) ++ [xml_end_tag "mergeCells"])%list.
    assert (Hf : forall w, for_each (m :: l) _write_merge_cell w
                           = (set_fh (fh w ++ map merge_cell_xml (m :: l))%list w,
                              Ok tt)).
    { intros w. rewrite <- (for_each_emit merge_cell_xml).
      apply for_each_ext. intros [[[a b] c] d] w0. reflexivity. }
    split.
    { replace (negb (truthy (Z.of_nat (length (m :: l))))) with false
        by (symmetry; apply negb_false_iff; unfold truthy;
            apply negb_true_iff, Z.eqb_neq; cbn [length]; lia).
      rewrite bind_ok with (1 := emit_spec _ ws).
      rewrite bind_ok with (1 := Hf _).
      rewrite emit_spec. cbn [fh set_fh]. rewrite <- !app_assoc. reflexivity. }
    split; [discriminate|]. intros _.
    assert (Hc : merge_children
                   ([xml_start_tag "mergeCells"
                       [("count", AInt (Z.of_nat (length (m :: l))))]]
                    ++ map merge_cell_xml (m :: l)
                    ++ [xml_end_tag "mergeCells"])
                 = map merge_cell_xml (m :: l)).
    { cbn [app merge_children]. apply removelast_last. }
    split; [exact Hc|]. split.
    + rewrite Hc, length_map. reflexivity.
    + rewrite app_assoc. apply last_snoc.
Qed.

(** ** Autofilters *)

Lemma parse_comparison x op k v :
  Filter.operators op = Some k ->
  names_top_or_bottom x = false -> names_blanks v = false ->
  Filter._parse_filter_tokens [x; op; v]
  = Some [PInt (if ((k =? 2)%Z && Py.contains_char Filter.is_match_char v)%bool
                then 22 else k); PStr v].
Proof.
  intros Hop Htop Hb. unfold names_top_or_bottom, names_blanks in *.
  assert (Hk : Filter.operator_true (Some k) = true).
  { unfold Filter.operators in Hop.
    repeat (destruct (String.eqb op _) in Hop;
            [injection Hop as <-; reflexivity|]).
    discriminate. }
  unfold Filter._parse_filter_tokens.
  cbn [lookup list_lookup mbind option_bind].
  rewrite Hop, Htop.
  cbn [mbind option_bind]. rewrite Hk. cbn [negb andb mbind option_bind].
  rewrite Hb.
  destruct (Z.eqb_spec k 2) as [->|Hne].
  - rewrite bool_decide_eq_true_2 by reflexivity. cbn [andb].
    destruct (Py.contains_char _ v); reflexivity.
  - rewrite bool_decide_eq_false_2 by congruence. reflexivity.
Qed.

Lemma parse_short tokens :
  (length tokens < 3)%nat -> Filter._parse_filter_expression tokens = None.
Proof.
  intros H. unfold Filter._parse_filter_expression.
  rewrite bool_decide_eq_false_2 by lia.
  unfold Filter._parse_filter_tokens.
  destruct tokens as [|a [|b [|c l]]]; cbn in *; try reflexivity; lia.
Qed.

Lemma parse_blanks (x e n v : string) :
  Filter.operators e = Some 2 -> Filter.operators n = Some 5 ->
  names_top_or_bottom x = false ->
  (Py.lower v = "blanks" ->
   Filter._parse_filter_tokens [x; e; v] = Some [PInt 2; PStr "blanks"]
   /\ Filter._parse_filter_tokens [x; n; v] = Some [PInt 5; PStr " "])
  /\ (Py.lower v = "nonblanks" ->
      Filter._parse_filter_tokens [x; e; v] = Some [PInt 5; PStr " "]
      /\ Filter._parse_filter_tokens [x; n; v] = Some [PInt 2; PStr "blanks"]).
Proof.
  intros He Hn Htop. unfold names_top_or_bottom in Htop.
  unfold Filter._parse_filter_tokens.
  cbn [lookup list_lookup mbind option_bind].
  rewrite He, Hn, Htop.
  cbn [mbind option_bind Filter.operator_true negb andb Z.eqb].
  split; intros Hv; rewrite !Hv; split; reflexivity.
Qed.

(** X14: the criteria parser gives, for a column name that does not
    start like Top or Bottom: for a comparison with a known operator and
    a value that does not start like Blanks or NonBlanks, the code of the
    operator and the value, the code 2 of an equality becoming 22 when
    the value holds one of the match characters [*] and [?]; for the
    value Blanks or NonBlanks in any case of letters, equal to Blanks and
    not equal to NonBlanks the same tokens, and not equal to Blanks and
    equal to NonBlanks the same tokens; and for fewer than three tokens
    an exception. *)
Theorem filter_criteria_parsing (x : string) :
  names_top_or_bottom x = false ->
  (forall op k v,
     Filter.operators op = Some k -> names_blanks v = false ->
     Filter._parse_filter_tokens [x; op; v]
     = Some [PInt (if ((k =? 2)%Z
                       && Py.contains_char Filter.is_match_char v)%bool
                   then 22 else k); PStr v])
  /\ (forall e n v,
        Filter.operators e = Some 2 -> Filter.operators n = Some 5 ->
        (Py.lower v = "blanks" ->
         Filter._parse_filter_tokens [x; e; v]
         = Some [PInt 2; PStr "blanks"]
         /\ Filter._parse_filter_tokens [x; n; v] = Some [PInt 5; PStr " "])
        /\ (Py.lower v = "nonblanks" ->
            Filter._parse_filter_tokens [x; e; v] = Some [PInt 5; PStr " "]
            /\ Filter._parse_filter_tokens [x; n; v]
               = Some [PInt 2; PStr "blanks"]))
  /\ (forall tokens,
        (length tokens < 3)%nat ->
        Filter._parse_filter_expression tokens = None).
Proof.
  intros Htop. split; [|split].
  - intros op k v Hop Hb. now apply parse_comparison.
  - intros e n v He Hn. now apply parse_blanks.
  - exact parse_short.
Qed.

Lemma append_not_empty (s t : string) (c : ascii) :
  s ++ String c t <> EmptyString.
Proof. destruct s; discriminate. Qed.

(** X15: [filter_column] and [filter_column_list] change nothing before
    [autofilter] was called; [autofilter] records the columns of the
    range in order and a name of the area that is not empty, and keeps
    the filters; after it, a column outside the columns of the range is
    rejected without a change, a criteria the parser rejects raises
    without a change, and any other criteria on a column of the range
    switches the filters on and stores for that column alone the list of
    values with type 1 for one equality or two equalities joined by or,
    and the parsed tokens with type 0 otherwise. *)
Theorem filter_column_effect (xl_col_to_name : Z -> bool -> string)
    (xl_range : Z -> Z -> Z -> Z -> string)
    (col : Z) (criteria : string) (st : Autofilter.sheet) :
  (Autofilter.autofilter_area st = EmptyString ->
   Autofilter.filter_column col criteria st = (st, Ok tt)
   /\ forall filters,
        Autofilter.filter_column_list col filters st = (st, Ok tt))
  /\ (forall first_row first_col last_row last_col,
        let st' := (Autofilter.autofilter xl_col_to_name xl_range
                      first_row first_col last_row last_col st).1 in
        Autofilter.autofilter_area st' <> EmptyString
        /\ Autofilter.filter_range st'
           = [Z.min first_col last_col; Z.max first_col last_col]
        /\ Autofilter.filter_cols st' = Autofilter.filter_cols st
        /\ Autofilter.filter_type st' = Autofilter.filter_type st
        /\ Autofilter.filter_on st' = Autofilter.filter_on st)
  /\ (forall c1 c2,
        Autofilter.autofilter_area st <> EmptyString ->
        Autofilter.filter_range st = [c1; c2] ->
        (col < c1 \/ c2 < col ->
         Autofilter.filter_column col criteria st = (st, Ok tt))
        /\ (c1 <= col <= c2 ->
            match Filter.parse_criteria criteria with
            | None =>
                exists e,
                  Autofilter.filter_column col criteria st = (st, Raise e)
            | Some tokens =>
                exists st',
                  Autofilter.filter_column col criteria st = (st', Ok tt)
                  /\ Autofilter.filter_on st' = 1
                  /\ Autofilter.filter_cols st' !! col
                     = Some (stored_filter tokens).1
                  /\ Autofilter.filter_type st' !! col
                     = Some (stored_filter tokens).2
                  /\ (forall c, c <> col ->
                        Autofilter.filter_cols st' !! c
                        = Autofilter.filter_cols st !! c
                        /\ Autofilter.filter_type st' !! c
                           = Autofilter.filter_type st !! c)
                  /\ Autofilter.filter_range st' = [c1; c2]
                  /\ Autofilter.fh st' = Autofilter.fh st
            end)).
Proof.
  split; [|split].
  - intros Ha. unfold Autofilter.filter_column, Autofilter.filter_column_list.
    rewrite bool_decide_eq_true_2 by exact Ha. auto.
  - intros first_row first_col last_row last_col.
    unfold Autofilter.autofilter. rewrite !swap_min_max. cbn [fst].
    cbn [Autofilter.autofilter_area Autofilter.filter_range
         Autofilter.filter_cols Autofilter.filter_type Autofilter.filter_on].
    split; [|auto]. unfold Autofilter._convert_name_area.
    repeat case_match; apply append_not_empty.
  - intros c1 c2 Ha Hr.
    assert (Hlist : forall filters,
              c1 <= col <= c2 ->
              Autofilter.filter_column_list col filters st
              = (Autofilter.store_filter col filters 1 st, Ok tt)).
    { intros filters Hin. unfold Autofilter.filter_column_list.
      rewrite bool_decide_eq_false_2 by exact Ha. rewrite Hr.
      replace (col <? c1)%Z with false by lia.
      replace (c2 <? col)%Z with false by lia. reflexivity. }
    split.
    + intros Hout. unfold Autofilter.filter_column.
      rewrite bool_decide_eq_false_2 by exact Ha. rewrite Hr.
      destruct Hout.
      * replace (col <? c1)%Z with true by lia. reflexivity.
      * replace (c2 <? col)%Z with true by lia.
        now rewrite orb_true_r.
    + intros Hin. unfold Filter.parse_criteria, Autofilter.filter_column.
      rewrite bool_decide_eq_false_2 by exact Ha. rewrite Hr.
      replace (col <? c1)%Z with false by lia.
      replace (c2 <? col)%Z with false by lia. cbn [orb].
      destruct (Filter._parse_filter_expression _) as [tokens|];
        [|eexists; reflexivity].
      assert (Hstore : forall fs t w,
                w = Autofilter.store_filter col fs t st ->
                Autofilter.filter_on w = 1
                /\ Autofilter.filter_cols w !! col = Some fs
                /\ Autofilter.filter_type w !! col = Some t
                /\ (forall c, c <> col ->
                      Autofilter.filter_cols w !! c
                      = Autofilter.filter_cols st !! c
                      /\ Autofilter.filter_type w !! c
                         = Autofilter.filter_type st !! c)
                /\ Autofilter.filter_range w = [c1; c2]
                /\ Autofilter.fh w = Autofilter.fh st).
      { intros fs t w ->. cbn. rewrite !lookup_insert_eq.
        repeat split; auto; now rewrite lookup_insert_ne. }
      unfold stored_filter.
      repeat case_match; subst;
        try match goal with
            | H : Autofilter.filter_column_list _ _ _ = _ |- _ =>
                rewrite Hlist in H by exact Hin; inversion H; subst; clear H
            end;
        eexists; (split; [reflexivity|]);
        eapply Hstore; reflexivity.
Qed.

(** *** The autofilter in the output *)

Lemma af_emit c st :
  Autofilter.emit c st
  = (Autofilter.set_fh (Autofilter.fh st ++ [c])%list st, Ok tt).
Proof. reflexivity. Qed.

Lemma af_set_fh_app f g st :
  Autofilter.set_fh (Autofilter.fh (Autofilter.set_fh f st) ++ g)%list
    (Autofilter.set_fh f st)
  = Autofilter.set_fh (f ++ g)%list st.
Proof. reflexivity. Qed.

Lemma af_set_fh_nil st :
  Autofilter.set_fh (Autofilter.fh st ++ [])%list st = st.
Proof. rewrite app_nil_r. now destruct st. Qed.

Lemma af_appends_emit c : af_appends (Autofilter.emit c) [c].
Proof. intros st. reflexivity. Qed.

Lemma af_appends_seq m k out1 out2 :
  af_appends m out1 -> af_appends k out2 ->
  af_appends (Autofilter.seq m k) (out1 ++ out2).
Proof.
  intros Hm Hk st. unfold Autofilter.seq. rewrite Hm, Hk.
  rewrite af_set_fh_app, <- app_assoc. reflexivity.
Qed.

Lemma af_appends_for_each {X} (body : X -> Autofilter.A unit)
    (g : X -> list xml_call) (l : list X) :
  (forall x, af_appends (body x) (g x)) ->
  af_appends (Autofilter.for_each l body) (concat (map g l)).
Proof.
  intros H. induction l as [|x l IH].
  - intros st. cbn. now rewrite af_set_fh_nil.
  - cbn [Autofilter.for_each map concat]. now apply af_appends_seq.
Qed.

Lemma custom_filter_appends o v c :
  custom_filter_xml o v = Some c ->
  af_appends (Autofilter._write_custom_filter o v) [c].
Proof.
  unfold custom_filter_xml, Autofilter._write_custom_filter.
  destruct (Autofilter.custom_operators o) as [op|]; [|discriminate].
  cbn [mbind option_bind]. intros [= <-]. apply af_appends_emit.
Qed.

Lemma filters_appends t fs out :
  filters_xml t fs = Some out ->
  af_appends (if (t =? 1)%Z then Autofilter._write_filters fs
              else Autofilter._write_custom_filters fs) out.
Proof.
  unfold filters_xml. destruct (t =? 1)%Z.
  - intros [= <-]. unfold Autofilter._write_filters.
    assert (Hgen : af_appends
              (Autofilter.seq (Autofilter.emit (xml_start_tag "filters" []))
                 (Autofilter.seq
                    (Autofilter.for_each fs Autofilter._write_filter)
                    (Autofilter.emit (xml_end_tag "filters"))))
              ([xml_start_tag "filters" []]
               ++ map (fun v => xml_empty_tag "filter"
                                  [("val", Autofilter.token_attr v)]) fs
               ++ [xml_end_tag "filters"])).
    { apply af_appends_seq; [apply af_appends_emit|].
      apply af_appends_seq; [|apply af_appends_emit].
      replace (map _ fs)
        with (concat (map (fun v => [xml_empty_tag "filter"
                                       [("val", Autofilter.token_attr v)]]) fs)).
      - apply af_appends_for_each. intros v. apply af_appends_emit.
      - induction fs as [|v fs IH]; [reflexivity|]. cbn. now rewrite IH. }
    repeat case_match; subst; first [exact Hgen|apply af_appends_emit].
  - destruct fs as [|o [|v [|j [|o2 [|v2 [|x fs]]]]]]; try discriminate.
    + destruct (custom_filter_xml o v) as [c|] eqn:Hc; [|discriminate].
      cbn [mbind option_bind]. intros [= <-].
      unfold Autofilter._write_custom_filters.
      rewrite bool_decide_eq_true_2 by reflexivity.
      apply (af_appends_seq _ _ [_] [_; _]); [apply af_appends_emit|].
      apply (af_appends_seq _ _ [_] [_]); [|apply af_appends_emit].
      now apply custom_filter_appends.
    + destruct (custom_filter_xml o v) as [a|] eqn:Ha; [|discriminate].
      destruct (custom_filter_xml o2 v2) as [b|] eqn:Hb; [|discriminate].
      cbn [mbind option_bind]. intros [= <-].
      unfold Autofilter._write_custom_filters.
      rewrite bool_decide_eq_false_2 by (cbn; lia).
      unfold Autofilter.with_token. cbn [lookup list_lookup].
      assert (Hj : (match j with PInt 0 => [("and", AInt 1)]
                    | _ => [("and", AInt 0)] end : attributes)
                   = [("and", AInt (match j with PInt 0 => 1 | _ => 0 end))]).
      { destruct j as [[| |]| |]; reflexivity. }
      rewrite Hj.
      apply (af_appends_seq _ _ [_] [_; _; _]); [apply af_appends_emit|].
      apply (af_appends_seq _ _ [_] [_; _]);
        [now apply custom_filter_appends|].
      apply (af_appends_seq _ _ [_] [_]); [|apply af_appends_emit].
      now apply custom_filter_appends.
Qed.

Lemma autofilters_appends st c1 (cols : list Z) outs :
  mapM (column_xml st c1) cols = Some outs ->
  forall w,
    Autofilter.filter_cols w = Autofilter.filter_cols st ->
    Autofilter.filter_type w = Autofilter.filter_type st ->
    Autofilter.for_each cols (fun col st0 =>
      match Autofilter.filter_cols st0 !! col with
      | None => (st0, Ok tt)
      | Some tokens =>
          match Autofilter.filter_type st0 !! col with
          | None => (st0, Raise "KeyError")
          | Some filter_type =>
              Autofilter._write_filter_column (col - c1) filter_type tokens st0
          end
      end) w
    = (Autofilter.set_fh (Autofilter.fh w ++ concat outs)%list w, Ok tt).
Proof.
  revert outs. induction cols as [|col cols IH]; intros outs Hm w Hc Ht.
  - cbn in Hm. injection Hm as <-. cbn. now rewrite af_set_fh_nil.
  - cbn [mapM] in Hm.
    destruct (column_xml st c1 col) as [out|] eqn:Hcol; [|discriminate].
    cbn [mbind option_bind] in Hm.
    destruct (mapM (column_xml st c1) cols) as [rest|] eqn:Hrest;
      [|discriminate].
    cbn [mbind option_bind mret option_ret] in Hm. injection Hm as <-.
    cbn [Autofilter.for_each concat]. unfold Autofilter.seq at 1.
    assert (Hstep :
      match Autofilter.filter_cols w !! col with
      | None => (w, Ok tt)
      | Some tokens =>
          match Autofilter.filter_type w !! col with
          | None => (w, Raise "KeyError")
          | Some filter_type =>
              Autofilter._write_filter_column (col - c1) filter_type tokens w
          end
      end = (Autofilter.set_fh (Autofilter.fh w ++ out)%list w, @Ok unit tt)).
    { unfold column_xml in Hcol. rewrite Hc, Ht.
      destruct (Autofilter.filter_cols st !! col) as [fs|].
      - destruct (Autofilter.filter_type st !! col) as [t|]; [|discriminate].
        cbn [mbind option_bind] in Hcol.
        destruct (filters_xml t fs) as [o|] eqn:Ho; [|discriminate].
        cbn [mbind option_bind] in Hcol. injection Hcol as <-.
        unfold Autofilter._write_filter_column.
        apply (af_appends_seq _ _ [_] (o ++ [_])); [apply af_appends_emit|].
        apply af_appends_seq; [|apply af_appends_emit].
        now apply filters_appends.
      - injection Hcol as <-. now rewrite af_set_fh_nil. }
    rewrite Hstep. rewrite (IH rest eq_refl) by assumption.
    rewrite af_set_fh_app, <- app_assoc. reflexivity.
Qed.

(** X16: [_write_auto_filter] writes nothing for a sheet without an
    autofilter and one empty [autoFilter] element when no filter is
    active; with active filters it writes, between the tags of the
    [autoFilter] element, the [filterColumn] elements of the columns of
    the range that have a filter, in the order of the columns and
    numbered from the first column of the range: a list filter as its
    values in order (the one value blanks as the blank flag), a custom
    filter as its one or two expressions with the join flag; it does not
    raise when every custom filter has operator codes of the table. *)
Theorem autofilter_output (st : Autofilter.sheet) :
  (Autofilter.autofilter_ref st = None ->
   Autofilter._write_auto_filter st = (st, Ok tt))
  /\ (forall ref,
        Autofilter.autofilter_ref st = Some ref -> ref <> EmptyString ->
        Autofilter.filter_on st = 0 ->
        Autofilter._write_auto_filter st
        = (Autofilter.set_fh
             (Autofilter.fh st
              ++ [xml_empty_tag "autoFilter" [("ref", AStr ref)]])%list st,
           Ok tt))
  /\ (forall ref c1 c2 outs,
        Autofilter.autofilter_ref st = Some ref -> ref <> EmptyString ->
        Autofilter.filter_on st <> 0 ->
        Autofilter.filter_range st = [c1; c2] ->
        mapM (column_xml st c1) (py_range c1 (c2 + 1)) = Some outs ->
        Autofilter._write_auto_filter st
        = (Autofilter.set_fh
             (Autofilter.fh st
              ++ [xml_start_tag "autoFilter" [("ref", AStr ref)]]
              ++ concat outs ++ [xml_end_tag "autoFilter"])%list st,
           Ok tt)).
Proof.
  split; [|split].
  - intros Hr. unfold Autofilter._write_auto_filter. now rewrite Hr.
  - intros ref Hr Hne Hon. unfold Autofilter._write_auto_filter.
    rewrite Hr, bool_decide_eq_false_2 by exact Hne. rewrite Hon.
    reflexivity.
  - intros ref c1 c2 outs Hr Hne Hon Hrange Hm.
    unfold Autofilter._write_auto_filter.
    rewrite Hr, bool_decide_eq_false_2 by exact Hne.
    replace (negb (Autofilter.filter_on st =? 0)%Z) with true
      by (symmetry; apply negb_true_iff, Z.eqb_neq; exact Hon).
    unfold Autofilter.seq at 1. rewrite af_emit.
    unfold Autofilter.seq at 1. unfold Autofilter._write_autofilters at 1.
    cbn [Autofilter.filter_range Autofilter.set_fh]. rewrite Hrange.
    rewrite (autofilters_appends st c1 _ outs Hm) by reflexivity.
    rewrite af_emit. cbn [Autofilter.fh Autofilter.set_fh].
    rewrite <- !app_assoc. reflexivity.
Qed.

Lemma names_blanks_number (v : Z) : names_blanks (Py.str_of_Z v) = false.
Proof.
  unfold names_blanks, Py.str_of_Z.
  destruct (Z.to_int v) as [d|d]; destruct d; reflexivity.
Qed.

(** X17: for a Top or Bottom criteria with a count that is a number,
    the parser raises when the third token is, in any case of letters,
    neither [items] nor [%]; with one of the two it gives one of the
    operator codes 30 to 33 with the count as the value, and
    [filter_column] stores that as a custom filter; no such code is in
    the table of [_write_custom_filter], so writing the custom filter
    raises KeyError after the start tag of the [customFilters]
    element. *)
Theorem top_criteria_cannot_be_written (x count t : string) (v : Z) :
  Py.lower x = "top" \/ Py.lower x = "bottom" ->
  Py.int_of_string count = Some v ->
  (Py.lower t <> "items" -> Py.lower t <> "%" ->
   Filter._parse_filter_tokens [x; count; t] = None)
  /\ (Py.lower t = "items" \/ Py.lower t = "%" ->
      exists k,
        30 <= k <= 33
        /\ Filter._parse_filter_tokens [x; count; t]
           = Some [PInt k; PStr (Py.str_of_Z v)]
        /\ stored_filter [PInt k; PStr (Py.str_of_Z v)]
           = ([PInt k; PStr (Py.str_of_Z v)], 0)
        /\ forall st,
             Autofilter._write_custom_filters
               [PInt k; PStr (Py.str_of_Z v)] st
             = (Autofilter.set_fh
                  (Autofilter.fh st
                   ++ [xml_start_tag "customFilters" []])%list st,
                Raise "KeyError")).
Proof.
  intros Hx Hv.
  assert (Htop : Py.startswith "top" (Py.lower x)
                 || Py.startswith "bottom" (Py.lower x) = true)
    by (destruct Hx as [-> | ->]; reflexivity).
  split.
  { intros Hi Hp. unfold Filter._parse_filter_tokens.
    cbn [lookup list_lookup mbind option_bind]. rewrite Htop, Hv.
    cbn [mbind option_bind].
    apply String.eqb_neq in Hi, Hp. rewrite Hi, Hp. reflexivity. }
  intros Ht.
  pose proof (names_blanks_number v) as Hb. unfold names_blanks in Hb.
  assert (Hcode : forall k, 30 <= k <= 33 ->
            stored_filter [PInt k; PStr (Py.str_of_Z v)]
            = ([PInt k; PStr (Py.str_of_Z v)], 0)
            /\ forall st,
                 Autofilter._write_custom_filters
                   [PInt k; PStr (Py.str_of_Z v)] st
                 = (Autofilter.set_fh
                      (Autofilter.fh st
                       ++ [xml_start_tag "customFilters" []])%list st,
                    Raise "KeyError")).
  { intros k Hk.
    assert (Hcases : k = 30 \/ k = 31 \/ k = 32 \/ k = 33) by lia.
    destruct Hcases as [Hc | [Hc | [Hc | Hc]]]; rewrite Hc;
      split; reflexivity. }
  assert (Hpass : (negb (String.eqb (Py.lower t) "items")
                   && negb (String.eqb (Py.lower t) "%"))%bool = false)
    by (destruct Ht as [-> | ->]; reflexivity).
  assert (Hparse : forall k0 : Z,
            (if String.eqb (Py.lower x) "top" then 30 else 32) = k0 ->
            Filter._parse_filter_tokens [x; count; t]
            = Some [PInt (if String.eqb t "%" then k0 + 1 else k0);
                    PStr (Py.str_of_Z v)]).
  { intros k0 Hk0. unfold Filter._parse_filter_tokens.
    cbn [lookup list_lookup mbind option_bind]. rewrite Htop, Hv.
    cbn [mbind option_bind]. rewrite Hpass. cbn [mbind option_bind].
    rewrite Hk0.
    assert (Hop : Filter.operator_true
                    (Some (if String.eqb t "%" then k0 + 1 else k0)) = true).
    { subst k0. destruct (String.eqb (Py.lower x) "top"), (String.eqb t "%");
        reflexivity. }
    rewrite Hop. cbn [negb andb mbind option_bind]. rewrite Hb.
    rewrite bool_decide_eq_false_2; [reflexivity|].
    subst k0. destruct (String.eqb (Py.lower x) "top"), (String.eqb t "%");
      discriminate. }
  destruct Hx as [Hx|Hx].
  - exists (if String.eqb t "%" then 31 else 30).
    assert (Hk : 30 <= (if String.eqb t "%" then 31 else 30) <= 33)
      by (destruct (String.eqb t "%"); lia).
    split; [exact Hk|]. split; [|now apply Hcode].
    rewrite (Hparse 30); [reflexivity|now rewrite Hx].
  - exists (if String.eqb t "%" then 33 else 32).
    assert (Hk : 30 <= (if String.eqb t "%" then 33 else 32) <= 33)
      by (destruct (String.eqb t "%"); lia).
    split; [exact Hk|]. split; [|now apply Hcode].
    rewrite (Hparse 32); [reflexivity|now rewrite Hx].
Qed.

(** ** Worked examples and closed instances *)

Lemma out_of_bounds_write_witness :
  op_out_of_bounds (WString 1048576 0 "x" None)
  /\ Example.run_op (WString 1048576 0 "x" None) Example.buffered
     = (Example.buffered, Ok (-1)).
Proof.
  assert (H : op_out_of_bounds (WString 1048576 0 "x" None))
    by (left; unfold xls_rowmax; lia).
  split; [exact H|].
  apply (out_of_bounds_write_mutates_nothing Example.py_float Example.font_xml
           Example.t_element_xml Example.default_format
           (WString 1048576 0 "x" None) Example.buffered H).
  simpl. tauto.
Defined.

(** C2 as stated fails for a [write_blank] without a format: beyond the
    last row it returns 0, not -1. *)
Lemma formatless_blank_out_of_bounds_returns_0 :
  op_out_of_bounds (WBlank 1048576 0 None)
  /\ Example.run_op (WBlank 1048576 0 None) Example.buffered
     = (Example.buffered, Ok 0)
  /\ Example.run_op (WBlank 1048576 0 None) Example.buffered
     <> (Example.buffered, Ok (-1)).
Proof.
  split; [left; unfold xls_rowmax; lia|].
  split; [reflexivity|]. simpl. intros H. inversion H.
Qed.

Lemma write_blank_without_format_witness :
  Example.bold = Example.bold
  /\ is_Some (Some Example.bold).
Proof.
  split; [reflexivity|].
  destruct (write_blank Example.py_float 0 0 (Some Example.bold)
              Example.buffered) as [ws' r] eqn:E.
  apply (proj2 (write_blank_without_format Example.py_float 0 0
                  Example.buffered) (Some Example.bold) ws' r E).
  intros ->. vm_compute in E. discriminate E.
Defined.

(** C8.  The autofilter parser on the three expressions of the
    specification: an equality gives operator 2 and the value, two
    comparisons joined by [and] give the five-element list with glue 0,
    and a top-ten rule gives operator 30 with the count as a string. *)
Theorem parse_criteria_examples :
  Filter.parse_criteria "x == 2000" = Some [PInt 2; PStr "2000"]
  /\ Filter.parse_criteria "x > 2000 and x < 5000"
     = Some [PInt 4; PStr "2000"; PInt 0; PInt 1; PStr "5000"]
  /\ Filter.parse_criteria "top 10 items" = Some [PInt 30; PStr "10"].
Proof. repeat split; vm_compute; reflexivity. Qed.

(** C9, on the code.  A [last month] rule anchored at B2 gets a formula
    whose last cell reference is the fixed name A1, not the anchor; the
    [continue month] rule at the same anchor refers to B2 only. *)
Theorem last_month_formula_refers_to_A1 :
  let opts c := {| CondFormat.o_type := Some "time_period";
                   CondFormat.o_criteria := Some c;
                   CondFormat.o_value := None |} in
  CondFormat.conditional_format 1 1 5 3 (opts "last month")
  = Ok (Some ("AND(MONTH(B2)=MONTH(TODAY())-1,OR(YEAR(B2)=YEAR(TODAY()),"
              ++ "AND(MONTH(B2)=1,YEAR(A1)=YEAR(TODAY())-1)))"))
  /\ CondFormat.rule_refs 1 1 5 3 (opts "last month")
     = ["B2"; "B2"; "B2"; "A1"]
  /\ CondFormat.rule_refs 1 1 5 3 (opts "continue month")
     = ["B2"; "B2"; "B2"; "B2"]
  /\ Utility.xl_rowcol_to_cell 1 1 = "B2".
Proof. repeat split; vm_compute; reflexivity. Qed.



Lemma buffered_sheet_ok : sheet_ok Example.buffered.
Proof. intros r col c H. unfold table_row in H. cbn in H. discriminate. Qed.

Lemma streaming_sheet_ok : sheet_ok Example.streaming.
Proof. intros r col c H. unfold table_row in H. cbn in H. discriminate. Qed.

Lemma error_result_state_witness :
  exists ws',
    Example.run_op (WUrl 0 0 Example.long_url None None None) Example.buffered
    = (ws', Ok (-3))
    /\ same_content Example.buffered ws'
    /\ dim_rowmin ws' = Some 0
    /\ hlink_count ws' = 0.
Proof.
  assert (H : Example.run_op (WUrl 0 0 Example.long_url None None None)
                Example.buffered
              = (widened 0 0 Example.buffered, Ok (-3)))
    by (vm_compute; reflexivity).
  exists (widened 0 0 Example.buffered). split; [exact H|].
  destruct (error_result_state Example.py_float Example.font_xml
              Example.t_element_xml Example.default_format _ _ _ _ H)
    as [[E _]|[[E _]|(_ & _ & Hc & Hd & Hh)]]; [lia|discriminate E|lia|].
  split; [exact Hc|]. split; [reflexivity|exact Hh].
Defined.

(** C4 as stated fails: the 65,531st hyperlink is refused with -5, and
    the call has advanced the hyperlink count and widened the
    dimension. *)
Lemma refused_url_advances_count :
  let ws := set_hlink_count 65530 Example.buffered in
  let r := Example.run_op (WUrl 3 2 "http://a.org" None None None) ws in
  r.2 = Ok (-5)
  /\ hlink_count ws = 65530 /\ hlink_count r.1 = 65531
  /\ dim_rowmax ws = None /\ dim_rowmax r.1 = Some 3
  /\ r.1 <> ws.
Proof.
  cbv zeta. repeat split; try (vm_compute; reflexivity).
  intros H. apply (f_equal hlink_count) in H. vm_compute in H. discriminate.
Qed.

Lemma long_string_witness :
  accepted 0 0 Example.buffered = true
  /\ exists ws' r,
       write_string Example.py_float 0 0 Example.long_text None
         Example.buffered = (ws', Ok (-2))
       /\ table_row ws' 0 !! 0 = Some (String_ r None)
       /\ string_text ws' r
          = Some (Py.take_str (Z.to_nat xls_strmax) Example.long_text).
Proof.
  split; [reflexivity|].
  apply (proj1 (long_string_results Example.py_float Example.font_xml
                  Example.t_element_xml Example.default_format
                  0 0 Example.buffered eq_refl)).
  - left. reflexivity.
  - exact buffered_sheet_ok.
  - vm_compute. reflexivity.
Defined.

(** C6 as stated fails for [write_url]: a displayed string of 32,768
    characters is not truncated and stored; the call returns -2 and the
    cell stays empty. *)
Lemma long_url_text_is_not_stored :
  let r := Example.run_op
             (WUrl 0 0 "http://a.org" None (Some Example.long_text) None)
             Example.buffered in
  Py.len Example.long_text = 32768
  /\ r.2 = Ok (-2) /\ table_row r.1 0 !! 0 = None.
Proof.
  cbv zeta. split; [vm_compute; reflexivity|].
  assert (Hlen : xls_strmax
                 < Py.len (url_prepare "http://a.org"
                             (Some Example.long_text)).1.2)
    by (vm_compute; reflexivity).
  destruct (proj2 (long_string_results Example.py_float Example.font_xml
                     Example.t_element_xml Example.default_format
                     0 0 Example.buffered eq_refl)
              "http://a.org" None (Some Example.long_text) None Hlen)
    as [H _].
  unfold Example.run_op. cbn [run_op]. rewrite H. cbn [fst snd].
  split; reflexivity.
Qed.

Lemma streaming_row5_ok :
  optimization Example.streaming_row5 = 1
  /\ previous_row Example.streaming_row5 = 5
  /\ sheet_ok Example.streaming_row5 /\ one_row Example.streaming_row5.
Proof.
  split; [vm_compute; reflexivity|]. split; [vm_compute; reflexivity|].
  assert (Hone : one_row Example.streaming) by (intros r _; apply lookup_empty).
  destruct (streaming_order Example.py_float Example.font_xml
              Example.t_element_xml Example.default_format
              (WNumber 5 0 1%Q None) Example.streaming eq_refl
              streaming_sheet_ok) as (_ & _ & H).
  destruct (H Hone) as (H1 & H2 & _); [right; cbn; lia|]. auto.
Qed.

Lemma streaming_order_witness :
  optimization Example.streaming_row5 = 1
  /\ sheet_ok Example.streaming_row5
  /\ Example.run_op (WString 2 0 "late" None) Example.streaming_row5
     = (Example.streaming_row5, Ok (-1)).
Proof.
  destruct streaming_row5_ok as (Ho & Hp & Hok & _).
  split; [exact Ho|]. split; [exact Hok|].
  apply (streaming_order Example.py_float Example.font_xml
           Example.t_element_xml Example.default_format
           (WString 2 0 "late" None) Example.streaming_row5 Ho Hok).
  - cbn. tauto.
  - cbn [op_check fst]. rewrite Hp. lia.
Defined.

(** C3 as stated fails for a [write_blank] without a format: for a row
    below the buffered row it returns 0, not -1. *)
Lemma formatless_blank_below_buffered_row :
  previous_row Example.streaming_row5 = 5
  /\ Example.run_op (WBlank 2 0 None) Example.streaming_row5
     = (Example.streaming_row5, Ok 0)
  /\ Example.run_op (WBlank 2 0 None) Example.streaming_row5
     <> (Example.streaming_row5, Ok (-1)).
Proof.
  split; [vm_compute; reflexivity|]. split; [reflexivity|].
  cbn. intros H. inversion H.
Qed.

(** An array formula over rows 3 to 7 written while row 5 is buffered is
    accepted, because the last row of the range is checked, and its cell
    is stored in row 3: the cell store then holds two rows.  This case is
    outside the statement of [streaming_order]. *)
Lemma array_formula_across_buffered_row :
  let r := Example.run_op (WArrayFormula 3 0 7 0 "{=A1}" None (FNum 0))
             Example.streaming_row5 in
  r.2 = Ok 0 /\ previous_row r.1 = 5
  /\ is_Some (table r.1 !! 3) /\ is_Some (table r.1 !! 5).
Proof.
  cbv zeta. split; [vm_compute; reflexivity|].
  split; [vm_compute; reflexivity|].
  split; vm_compute; eexists; reflexivity.
Qed.



(** [array_formula_pads_range] on the range (0,0)-(1,1) of the empty
    buffered sheet, for a formula in braces and for the text of an
    opening brace and an equals sign alone. *)
Lemma array_formula_pads_range_witness :
  (exists ws',
     write_array_formula Example.py_float 1 1 0 0 "{=A3*2}" None (FNum 0%Q)
       Example.buffered = (ws', Ok 0)
     /\ table_row ws' 0 !! 0
        = Some (ArrayFormula "A3*2" None (FNum 0%Q) "A1:B2")
     /\ table_row ws' 0 !! 1 = Some (Number 0%Q None)
     /\ table_row ws' 1 !! 1 = Some (Number 0%Q None)
     /\ table_row ws' 2 !! 0 = None)
  /\ write_array_formula Example.py_float 1 1 0 0 "{=" None (FNum 0%Q)
       Example.buffered
     = (widened 1 1 Example.buffered, Raise "IndexError").
Proof.
  split.
  - pose proof (array_formula_pads_range Example.py_float Example.font_xml
                  Example.t_element_xml Example.default_format
                  1 1 0 0 "{=A3*2}" None (FNum 0%Q) Example.buffered) as H.
    cbv zeta in H.
    change (Z.min 1 0) with 0 in H. change (Z.max 1 0) with 1 in H.
    destruct (H eq_refl (conj eq_refl eq_refl)) as [Hok _].
    destruct Hok as (formula' & ws' & Hs & Hrun & _ & Ha & Hz & Hout).
    { unfold only_braces. intros [H0 | [H0 | [H0 | H0]]]; discriminate H0. }
    injection Hs as <-.
    exists ws'. split; [exact Hrun|]. split; [exact Ha|].
    unfold other_cell in Hz. unfold in_range in Hout.
    split; [apply Hz; lia|]. split; [apply Hz; lia|].
    rewrite Hout by lia. reflexivity.
  - pose proof (array_formula_pads_range Example.py_float Example.font_xml
                  Example.t_element_xml Example.default_format
                  1 1 0 0 "{=" None (FNum 0%Q) Example.buffered) as H.
    cbv zeta in H.
    change (Z.max 1 0) with 1 in H.
    destruct (H eq_refl (conj eq_refl eq_refl)) as [_ Hbad].
    apply Hbad. unfold only_braces. auto.
Defined.

(** [buffered_write_frame] for an array formula over (2,2)-(3,3) on the
    buffered sheet that holds a number in cell (0, 1). *)
Lemma buffered_write_frame_witness :
  optimization Example.numbered = 0
  /\ (let ws' := (Example.run_op
                    (WArrayFormula 2 2 3 3 "{=A1}" None (FNum 0%Q))
                    Example.numbered).1 in
      fh ws' = fh Example.numbered
      /\ merge ws' = merge Example.numbered
      /\ table_row ws' 0 !! 1 = table_row Example.numbered 0 !! 1).
Proof.
  split; [reflexivity|].
  destruct (buffered_write_frame Example.py_float Example.font_xml
              Example.t_element_xml Example.default_format
              (WArrayFormula 2 2 3 3 "{=A1}" None (FNum 0%Q))
              Example.numbered eq_refl) as (_ & Hf & _ & Hm & Hc).
  cbv zeta. split; [exact Hf|]. split; [exact Hm|].
  apply Hc. unfold in_range. cbn [op_anchor op_check fst snd]. lia.
Defined.

(** [cells_stay_inside] for a first string written to a fresh streaming
    sheet. *)
Lemma cells_stay_inside_witness :
  mode_ok Example.streaming /\ single_cell (WString 2 3 "x" None)
  /\ cells_inside Example.streaming
  /\ cells_inside (Example.run_op (WString 2 3 "x" None) Example.streaming).1
  /\ inside 2 3 (Example.run_op (WString 2 3 "x" None) Example.streaming).1.
Proof.
  assert (Hm : mode_ok Example.streaming) by (right; reflexivity).
  assert (Hc : cells_inside Example.streaming).
  { intros r c x H. unfold table_row in H. cbn in H.
    rewrite lookup_empty in H. cbn in H. rewrite lookup_empty in H.
    discriminate. }
  split; [exact Hm|]. split; [exact I|]. split; [exact Hc|].
  destruct (cells_stay_inside Example.py_float Example.font_xml
              Example.t_element_xml Example.default_format
              (WString 2 3 "x" None) Example.streaming
              Hm streaming_sheet_ok I Hc) as [Hin _].
  split; [exact Hin|].
  apply (Hin 2 3 (String_ (SText "x") None)). vm_compute. reflexivity.
Defined.

(** The dimension check of [write_array_formula] names only the last
    cell of the range: on a fresh buffered sheet the array formula over
    (0,0)-(0,2) is stored in column 0 while the recorded dimension starts
    at column 1. *)
Lemma array_formula_anchor_outside_dimension :
  let ws := (write_array_formula Example.py_float 0 0 0 2 "{=A2}" None
               (FNum 0%Q) Example.buffered).1 in
  is_Some (table_row ws 0 !! 0) /\ dim_colmin ws = Some 1
  /\ ~ inside 0 0 ws.
Proof.
  cbv zeta. split; [vm_compute; eexists; reflexivity|].
  split; [vm_compute; reflexivity|].
  unfold inside. vm_compute. intros [_ [H _]]. apply H. reflexivity.
Qed.

(** [epoch_offset] at noon of 2000-01-01. *)
Lemma epoch_offset_witness :
  valid_date (Date 2000 1 1) /\ valid_time (Time 12 0 0 0)
  /\ exact_time (Time 12 0 0 0) 64
  /\ toordinal (Date 1900 2 28) < toordinal (Date 2000 1 1)
  /\ (_convert_date_time false (DDatetime (Date 2000 1 1) (Time 12 0 0 0))
      == _convert_date_time true (DDatetime (Date 2000 1 1) (Time 12 0 0 0))
         + 1462)%Q.
Proof.
  assert (Hv : valid_date (Date 2000 1 1)).
  { unfold valid_date. simpl. change (days_in_month 2000 1) with 31. lia. }
  assert (Ht : valid_time (Time 12 0 0 0)).
  { unfold valid_time. simpl. lia. }
  assert (He : exact_time (Time 12 0 0 0) 64) by (split; reflexivity).
  assert (Hlt : toordinal (Date 1900 2 28) < toordinal (Date 2000 1 1))
    by reflexivity.
  split; [exact Hv|]. split; [exact Ht|]. split; [exact He|].
  split; [exact Hlt|].
  exact (proj1 (proj2 (epoch_offset (Date 2000 1 1) (Time 12 0 0 0) 64
                         Hv Ht He Hlt))).
Defined.

(** [date_serials_increase] across the day Excel adds: 1900-02-28 and
    1900-03-01. *)
Lemma date_serials_increase_witness :
  valid_date (Date 1900 2 28) /\ valid_date (Date 1900 3 1)
  /\ (_convert_date_time false (DDate (Date 1900 2 28))
      < _convert_date_time false (DDate (Date 1900 3 1)))%Q.
Proof.
  assert (Hv1 : valid_date (Date 1900 2 28)).
  { unfold valid_date. simpl. change (days_in_month 1900 2) with 28. lia. }
  assert (Hv2 : valid_date (Date 1900 3 1)).
  { unfold valid_date. simpl. change (days_in_month 1900 3) with 31. lia. }
  split; [exact Hv1|]. split; [exact Hv2|].
  apply (proj1 date_serials_increase (Date 1900 2 28) (Date 1900 3 1) Hv1 Hv2).
  - vm_compute. discriminate.
  - reflexivity.
Defined.

(** [sort_pagebreaks_result] on the breaks 20, 0, 5, 20. *)
Lemma sort_pagebreaks_result_witness :
  [20; 0; 5; 20] <> []
  /\ PageBreaks._sort_pagebreaks [20; 0; 5; 20] = Some [5; 20]
  /\ exists l, PageBreaks._sort_pagebreaks [20; 0; 5; 20] = Some l
       /\ StronglySorted Z.lt l /\ (length l <= 1023)%nat
       /\ (forall x, x ∈ l -> x ∈ [20; 0; 5; 20] /\ x <> 0)
       /\ (forall x, x ∈ [20; 0; 5; 20] -> x <> 0 ->
             x ∈ l \/ (length l = 1023%nat /\ forall y, y ∈ l -> y < x)).
Proof.
  assert (Hne : [20; 0; 5; 20] <> []) by discriminate.
  split; [exact Hne|]. split; [vm_compute; reflexivity|].
  exact (proj2 (sort_pagebreaks_result [20; 0; 5; 20]) Hne).
Defined.

(** [page_breaks_output] when the only break is 0: nothing is written. *)
Lemma page_breaks_output_witness :
  (forall x, x ∈ [0; 0] -> x = 0)
  /\ default [] (PageBreaks._sort_pagebreaks [0; 0]) = []
  /\ PageBreaks._write_row_breaks [0; 0] Example.buffered
     = (Example.buffered, Ok tt).
Proof.
  assert (Hz : forall x : Z, x ∈ [0; 0] -> x = 0).
  { intros x H. apply elem_of_cons in H as [H|H]; [exact H|].
    apply elem_of_cons in H as [H|H]; [exact H|]. inversion H. }
  split; [exact Hz|].
  destruct (page_breaks_output [0; 0] Example.buffered) as (Hrow & _ & Hnone).
  split; [exact (Hnone Hz)|].
  rewrite Hrow, (Hnone Hz). reflexivity.
Defined.

(** [encode_password_hash] on the password of the documentation, whose
    hash is 83AF, and on a long password that differs from another only
    after the twenty-ninth character. *)
Lemma encode_password_hash_witness :
  Protection._encode_password "password" = "83AF"
  /\ 0 <= Protection.password_hash "password" < 65536
  /\ Protection._encode_password "0123456789012345678901234567890123456789"
     = Protection._encode_password "01234567890123456789012345678please-open".
Proof.
  split; [vm_compute; reflexivity|]. split.
  - apply (proj1 (encode_password_hash "password")). vm_compute. reflexivity.
  - apply (proj2 (encode_password_hash
                    "01234567890123456789012345678please-open"));
      vm_compute; reflexivity.
Defined.

(** [write_row_and_column] for three numbers written along row 0 of the
    empty buffered sheet. *)
Lemma write_row_and_column_witness :
  exists ws',
    write_row Example.py_float 0 0
      [TNumber 1%Q; TNumber 2%Q; TNumber 3%Q] None Example.buffered
    = (ws', Ok 0)
    /\ table_row ws' 0 !! 0 = Some (Number 1%Q None)
    /\ table_row ws' 0 !! 2 = Some (Number 3%Q None)
    /\ table_row ws' 0 !! 3 = None.
Proof.
  assert (Hc : 0 + Z.of_nat (length [1%Q; 2%Q; 3%Q]) <= xls_colmax)
    by (vm_compute; discriminate).
  destruct (proj1 (proj2 (proj2
              (write_row_and_column Example.py_float Example.font_xml
                 Example.t_element_xml Example.default_format
                 0 0 None Example.buffered)))
              [1%Q; 2%Q; 3%Q] eq_refl eq_refl Hc)
    as (ws' & Hrun & _ & Hcells & Hout).
  exists ws'. split; [exact Hrun|].
  split; [exact (Hcells 0%nat 1%Q eq_refl)|].
  split; [exact (Hcells 2%nat 3%Q eq_refl)|].
  rewrite Hout; [reflexivity|]. cbn. lia.
Defined.

(** [inline_string_escaped] for a text with a bell character, written
    on the streaming sheet. *)
Lemma inline_string_escaped_witness :
  truthy (optimization Example.streaming) = true
  /\ (exists call,
        _write_cell Example.py_float 0 0
          (String_ (SText (String (ascii_of_nat 7) "bell")) None)
          Example.streaming
        = (set_fh (fh Example.streaming ++ [call])%list Example.streaming,
           Ok tt)
        /\ inline_text call = Some "_x0007_bell").
Proof.
  split; [reflexivity|].
  exact (proj1 (inline_string_escaped Example.py_float 0 0
                  (String (ascii_of_nat 7) "bell") None Example.streaming
                  eq_refl)).
Defined.

(** [streaming_output_grows] for a string written to row 7 while row 5
    is buffered. *)
Lemma streaming_output_grows_witness :
  optimization Example.streaming_row5 = 1
  /\ exists out,
       fh (Example.run_op (WString 7 0 "next" None) Example.streaming_row5).1
       = (fh Example.streaming_row5 ++ out)%list
       /\ previous_row Example.streaming_row5
          <= previous_row
               (Example.run_op (WString 7 0 "next" None)
                  Example.streaming_row5).1.
Proof.
  destruct streaming_row5_ok as (Ho & _ & Hok & _).
  split; [exact Ho|].
  destruct (streaming_output_grows Example.py_float Example.font_xml
              Example.t_element_xml Example.default_format
              (WString 7 0 "next" None) Example.streaming_row5 Ho Hok)
    as (out & Hf & Hp & _).
  exists out. split; [exact Hf|exact Hp].
Defined.

(** [merge_cells_output] for the sheet on which the range (0,0)-(1,1)
    was recorded. *)
Lemma merge_cells_output_witness :
  merge (noted 0 0 1 1 Example.buffered) <> []
  /\ exists out,
       _write_merge_cells (noted 0 0 1 1 Example.buffered)
       = (set_fh (fh (noted 0 0 1 1 Example.buffered) ++ out)%list
            (noted 0 0 1 1 Example.buffered), Ok tt)
       /\ merge_children out
          = [xml_empty_tag "mergeCell" [("ref", AStr "A1:B2")]]
       /\ merge_count out = Some 1.
Proof.
  assert (Hne : merge (noted 0 0 1 1 Example.buffered) <> []) by discriminate.
  split; [exact Hne|].
  destruct (merge_cells_output (noted 0 0 1 1 Example.buffered))
    as (out & Hrun & _ & H).
  destruct (H Hne) as (Hc & Hn & _).
  exists out. split; [exact Hrun|]. split.
  - rewrite Hc. vm_compute. reflexivity.
  - rewrite Hn, Hc. reflexivity.
Defined.

(** [filter_criteria_parsing] for the column name x: a comparison, a
    match character, and the two spellings of not blank. *)
Lemma filter_criteria_parsing_witness :
  names_top_or_bottom "x" = false
  /\ Filter._parse_filter_tokens ["x"; ">="; "2000"]
     = Some [PInt 6; PStr "2000"]
  /\ Filter._parse_filter_tokens ["x"; "=="; "b*"]
     = Some [PInt 22; PStr "b*"]
  /\ Filter._parse_filter_tokens ["x"; "=="; "NonBlanks"]
     = Filter._parse_filter_tokens ["x"; "!="; "Blanks"].
Proof.
  assert (Htop : names_top_or_bottom "x" = false) by reflexivity.
  destruct (filter_criteria_parsing "x" Htop) as (Hcmp & Hbl & _).
  split; [exact Htop|].
  split; [exact (Hcmp ">=" 6 "2000" eq_refl eq_refl)|].
  split; [exact (Hcmp "==" 2 "b*" eq_refl eq_refl)|].
  destruct (Hbl "==" "!=" "NonBlanks" eq_refl eq_refl) as [_ Hn].
  destruct (Hbl "==" "!=" "Blanks" eq_refl eq_refl) as [Hb _].
  rewrite (proj1 (Hn eq_refl)), (proj2 (Hb eq_refl)). reflexivity.
Defined.

(** [filter_column_effect] for an equality on column 2 of the filtered
    example sheet. *)
Lemma filter_column_effect_witness :
  Autofilter.autofilter_area Example.filtered = "Sheet1!$A$1:$D$11"
  /\ Autofilter.filter_range Example.filtered = [0; 3]
  /\ exists st',
       Autofilter.filter_column 2 "x == East" Example.filtered = (st', Ok tt)
       /\ Autofilter.filter_on st' = 1
       /\ Autofilter.filter_cols st' !! 2 = Some [PStr "East"]
       /\ Autofilter.filter_type st' !! 2 = Some 1.
Proof.
  split; [vm_compute; reflexivity|]. split; [reflexivity|].
  assert (Ha : Autofilter.autofilter_area Example.filtered <> EmptyString).
  { vm_compute. discriminate. }
  assert (Hin : 0 <= 2 <= 3) by lia.
  pose proof (proj2 (proj2 (proj2
                (filter_column_effect Example.xl_col_to_name Example.xl_range
                   2 "x == East" Example.filtered)) 0 3 Ha eq_refl) Hin) as H.
  change (Filter.parse_criteria "x == East")
    with (Some [PInt 2; PStr "East"]) in H.
  destruct H as (st' & Hrun & Hon & Hc & Ht & _).
  exists st'. repeat split; assumption.
Defined.

(** [autofilter_output] for the filtered example sheet with the
    criteria x == East on column 2. *)
Lemma autofilter_output_witness :
  Autofilter.autofilter_ref Example.filtered_east = Some "A1:D11"
  /\ Autofilter.filter_on Example.filtered_east <> 0
  /\ Autofilter._write_auto_filter Example.filtered_east
     = (Autofilter.set_fh
          [xml_start_tag "autoFilter" [("ref", AStr "A1:D11")];
           xml_start_tag "filterColumn" [("colId", AInt 2)];
           xml_start_tag "filters" [];
           xml_empty_tag "filter" [("val", AStr "East")];
           xml_end_tag "filters";
           xml_end_tag "filterColumn";
           xml_end_tag "autoFilter"] Example.filtered_east, Ok tt).
Proof.
  assert (Hne : "A1:D11" <> EmptyString) by discriminate.
  assert (Hon : Autofilter.filter_on Example.filtered_east <> 0)
    by (vm_compute; discriminate).
  split; [reflexivity|]. split; [exact Hon|].
  rewrite (proj2 (proj2 (autofilter_output Example.filtered_east))
             "A1:D11" 0 3
             [[]; [];
              [xml_start_tag "filterColumn" [("colId", AInt 2)];
               xml_start_tag "filters" [];
               xml_empty_tag "filter" [("val", AStr "East")];
               xml_end_tag "filters";
               xml_end_tag "filterColumn"]; []]
             eq_refl Hne Hon eq_refl);
    [reflexivity|vm_compute; reflexivity].
Defined.

(** [top_criteria_cannot_be_written] for the criteria Top 10 Items,
    which is parsed and cannot be written, and for the criteria Top 10
    Things, which the parser refuses. *)
Lemma top_criteria_cannot_be_written_witness :
  Py.int_of_string "10" = Some 10
  /\ Filter._parse_filter_tokens ["Top"; "10"; "Things"] = None
  /\ exists k,
       30 <= k <= 33
       /\ Filter._parse_filter_tokens ["Top"; "10"; "Items"]
          = Some [PInt k; PStr "10"]
       /\ forall st,
            Autofilter._write_custom_filters [PInt k; PStr "10"] st
            = (Autofilter.set_fh
                 (Autofilter.fh st
                  ++ [xml_start_tag "customFilters" []])%list st,
               Raise "KeyError").
Proof.
  split; [reflexivity|]. split.
  - apply (proj1 (top_criteria_cannot_be_written "Top" "10" "Things" 10
                    (or_introl eq_refl) eq_refl)); discriminate.
  - destruct (proj2 (top_criteria_cannot_be_written "Top" "10" "Items" 10
                       (or_introl eq_refl) eq_refl) (or_introl eq_refl))
      as (k & Hk & Hp & _ & Hw).
    exists k. split; [exact Hk|]. split; [exact Hp|exact Hw].
Defined.

(** [calculate_spans_cover] for the buffered sheet that holds a number
    in cell (0, 1). *)
Lemma calculate_spans_cover_witness :
  exists spans,
    _calculate_spans Example.numbered
    = (set_row_spans spans Example.numbered, Ok tt)
    /\ exists lo hi,
         spans !! 0 = Some (span_text lo hi) /\ lo <= 1 <= hi.
Proof.
  destruct (calculate_spans_cover Example.numbered 0 0 1 1
              eq_refl eq_refl eq_refl eq_refl) as (spans & Hrun & Hcover & _);
    [lia|].
  exists spans. split; [exact Hrun|].
  apply (Hcover 0 1).
  - vm_compute. repeat split; discriminate.
  - left. vm_compute. eexists. reflexivity.
Defined.

